(** * Design linter: analysis and fix engine

    A shallow embedding of the two implementations of the Figma design
    linter ([code.ts], the local-rules version, and the token-aware
    version with a design-system store and a token loader), and the
    properties of the analysis walk, the rule catalogue, the fix engine
    and the token loader.

    JavaScript numbers are IEEE 754 binary64 values: they are Rocq's
    primitive floats, whose operations round the same way.  Strings are
    byte strings holding UTF-8. *)

From Stdlib Require Import ZArith QArith Qround Floats DecimalString Lia.
From Stdlib Require Import String Ascii.
From stdpp Require Import base option list strings gmap.

Local Open Scope string_scope.

(* ================================================================= *)
(** * The JavaScript runtime the plugin relies on *)

Module Js.

(** ** Strings *)

(** [String.prototype.toLowerCase], on the ASCII letters.  No character
    outside ASCII lower-cases to one of the letters of ['button'] or
    ['btn'], and UTF-8 keeps ASCII bytes apart from the bytes of longer
    sequences, so [includes] of an ASCII needle in the lowered string is
    decided by the ASCII letters alone. *)
Definition lower_ascii (c : ascii) : ascii :=
  let n := nat_of_ascii c in
  if (65 <=? n)%nat && (n <=? 90)%nat then ascii_of_nat (n + 32) else c.

Fixpoint toLowerCase (s : string) : string :=
  match s with
  | EmptyString => EmptyString
  | String c t => String (lower_ascii c) (toLowerCase t)
  end.

(** [String.prototype.includes]. *)
Fixpoint includes (hay needle : string) : bool :=
  if String.prefix needle hay then true
  else match hay with
       | EmptyString => false
       | String _ t => includes t needle
       end.

(** [s.trim() === '']: every character of [s] is white space or a line
    terminator of ECMAScript (U+0009..U+000D, U+0020, U+00A0, U+1680,
    U+2000..U+200A, U+2028, U+2029, U+202F, U+205F, U+3000, U+FEFF), read
    in UTF-8. *)
Fixpoint blank_bytes (l : list nat) : bool :=
  match l with
  | [] => true
  | 194 :: 160 :: t => blank_bytes t
  | 225 :: 154 :: 128 :: t => blank_bytes t
  | 226 :: 128 :: b :: t =>
      ((128 <=? b)%nat && (b <=? 138)%nat || (b =? 168)%nat || (b =? 169)%nat
       || (b =? 175)%nat) && blank_bytes t
  | 226 :: 129 :: 159 :: t => blank_bytes t
  | 227 :: 128 :: 128 :: t => blank_bytes t
  | 239 :: 187 :: 191 :: t => blank_bytes t
  | b :: t => ((9 <=? b)%nat && (b <=? 13)%nat || (b =? 32)%nat) && blank_bytes t
  end.

Definition trim_is_empty (s : string) : bool :=
  blank_bytes (map nat_of_ascii (list_ascii_of_string s)).

(** Truthiness of a string: [!s] holds of the empty string only. *)
Definition truthy_string (s : string) : bool :=
  match s with EmptyString => false | _ => true end.

(** ** Numbers *)

(** [Number.prototype.toString] in radix 10 (ECMA-262, Number::toString):
    the shortest decimal [s * 10^(n-k)], [s] of [k] digits, that rounds to
    the number, the closest one when several have [k] digits, laid out in
    positional or exponent form by the size of [n]. *)

Definition dec (z : Z) : string := NilZero.string_of_uint (N.to_uint (Z.to_N z)).

Definition pow10 (t : Z) : Q := Qpower (10 # 1) t.

Definition valQ (m : Z) (e : Z) : Q := (inject_Z m * Qpower (2 # 1) e)%Q.

(** The reals that round to the binary64 number [m * 2^e]: the interval
    between the midpoints to its two neighbours, closed when [m] is even
    (ties go to the even mantissa). *)
Definition rounds_to (m e : Z) (v : Q) : bool :=
  let x := valQ m e in
  let up := valQ (m + 1) e in
  let down := if (m =? 2 ^ 52)%Z && (-1074 <? e)%Z
              then valQ (2 * m - 1) (e - 1) else valQ (m - 1) e in
  let lo := ((x + down) / (2 # 1))%Q in
  let hi := ((x + up) / (2 # 1))%Q in
  if Z.even m then Qle_bool lo v && Qle_bool v hi
  else negb (Qle_bool v lo) && negb (Qle_bool hi v).

(** The [n] with [10^(n-1) <= x < 10^n]. *)
Fixpoint dec_exp (fuel : nat) (x : Q) (n : Z) : Z :=
  match fuel with
  | O => n
  | S fuel' =>
      if negb (Qle_bool (pow10 (n - 1)) x) then dec_exp fuel' x (n - 1)
      else if Qle_bool (pow10 n) x then dec_exp fuel' x (n + 1)
      else n
  end.

Definition Qabs' (q : Q) : Q := if Qle_bool 0 q then q else (- q)%Q.

(** The [k]-digit candidates around [x] at scale [10^t], the closest one
    first, and of two equally close ones the even one. *)
Definition candidates (x : Q) (t : Z) : list Z :=
  let sl := Qfloor (x / pow10 t)%Q in
  let sh := (sl + 1)%Z in
  let dl := Qabs' (x - inject_Z sl * pow10 t)%Q in
  let dh := Qabs' (inject_Z sh * pow10 t - x)%Q in
  match Qcompare dl dh with
  | Lt => [sl; sh]
  | Gt => [sh; sl]
  | Eq => if Z.even sl then [sl; sh] else [sh; sl]
  end.

Fixpoint shortest (ks : list Z) (m e : Z) (n0 : Z) : Z * Z :=
  match ks with
  | [] => (0%Z, n0)
  | k :: ks' =>
      let t := (n0 - k)%Z in
      match filter (fun s => Is_true (rounds_to m e (inject_Z s * pow10 t)%Q))
                   (candidates (valQ m e) t) with
      | s :: _ => if (s =? 10 ^ k)%Z then (1%Z, (n0 + 1)%Z) else (s, n0)
      | [] => shortest ks' m e n0
      end
  end.

Fixpoint zeros (n : nat) : string :=
  match n with O => "" | S n' => String "0" (zeros n') end.

Definition layout (s n : Z) : string :=
  let ds := dec s in
  let k := Z.of_nat (String.length ds) in
  if (k <=? n)%Z && (n <=? 21)%Z then ds ++ zeros (Z.to_nat (n - k))
  else if (0 <? n)%Z && (n <=? 21)%Z then
    substring 0 (Z.to_nat n) ds ++ "." ++ substring (Z.to_nat n) (Z.to_nat (k - n)) ds
  else if (-6 <? n)%Z && (n <=? 0)%Z then "0." ++ zeros (Z.to_nat (- n)) ++ ds
  else
    let ex := (n - 1)%Z in
    let sign := if (ex <? 0)%Z then "-" else "+" in
    if (k =? 1)%Z then ds ++ "e" ++ sign ++ dec (Z.abs ex)
    else substring 0 1 ds ++ "." ++ substring 1 (Z.to_nat (k - 1)) ds
         ++ "e" ++ sign ++ dec (Z.abs ex).

Definition positive_toString (m e : Z) : string :=
  let x := valQ m e in
  let n0 := dec_exp 700 x (((Z.log2 m + e) * 30103) / 100000 + 1) in
  let '(s, n) := shortest (map Z.of_nat (seq 1 17)) m e n0 in
  layout s n.

Definition Number_toString (x : float) : string :=
  match Prim2SF x with
  | S754_nan => "NaN"
  | S754_zero _ => "0"
  | S754_infinity s => if s then "-Infinity" else "Infinity"
  | S754_finite s m e =>
      (if s then "-" else "") ++ positive_toString (Zpos m) e
  end.

End Js.

(* ================================================================= *)
(** * The host: nodes, paints and the way the plugin reads them *)

(** What reading a property of a host object can give.  [Absent]: the
    object has no such property (['p' in node] is false and the read gives
    [undefined]).  [Mixed]: the property holds the host's [figma.mixed]
    symbol.  [Raises e]: the getter throws an error whose message is [e]. *)
Inductive prop (A : Type) : Type :=
  | Absent
  | Mixed
  | Val (a : A)
  | Raises (e : string).
Arguments Absent {A}.
Arguments Mixed {A}.
Arguments Val {A} a.
Arguments Raises {A} e.

Record RGB : Type := mkRGB { r : float; g : float; b : float }.

(** A paint of a fill list.  [paint_visible] is the truthiness of its
    [visible] field. *)
Record Paint : Type := mkPaint {
  paint_type : string;
  color : RGB;
  opacity : float;
  paint_visible : bool;
  blendMode : string }.

Record FontName : Type := mkFontName { family : string; style : string }.

(** The value of [node.fontName]: one font, or a list of fonts. *)
Inductive FontRef : Type :=
  | OneFont (f : FontName)
  | FontArray (l : list FontName).

(** A node of the design tree with the attributes the plugin consumes. *)
Inductive Node : Type := mkNode {
  id : string;
  name : string;
  type : string;
  visible : prop bool;
  locked : prop bool;
  fills : prop (list Paint);
  fillStyleId : prop string;
  fontSize : prop float;
  fontName : prop FontRef;
  children : prop (list Node) }.

(** Interface for issue reporting. *)
Record DesignIssue : Type := mkIssue {
  issue_type : string;
  layer : string;
  nodeId : string;
  detail : string;
  fixable : bool }.

(** The outcome of a fix attempt. *)
Inductive Status : Type := success | error.
Record FixResult : Type := mkFix { status : Status; message : string }.

(** ** Completions and the state-and-exception monad *)

(** How a JavaScript computation ends: normally with a value, or by
    throwing (an async function: by rejecting) with an error message. *)
Inductive completion (A : Type) : Type :=
  | Normal (a : A)
  | Throw (e : string).
Arguments Normal {A} a.
Arguments Throw {A} e.

Definition M (S A : Type) : Type := S -> completion A * S.

Definition ret {S A} (a : A) : M S A := fun s => (Normal a, s).
Definition throw {S A} (e : string) : M S A := fun s => (Throw e, s).
Definition bind {S A B} (m : M S A) (k : A -> M S B) : M S B :=
  fun s => match m s with
           | (Normal a, s') => k a s'
           | (Throw e, s') => (Throw e, s')
           end.
(** [try { m } catch (e) { h e }]: the state reached at the throw stays. *)
Definition try_catch {S A} (m : M S A) (h : string -> M S A) : M S A :=
  fun s => match m s with
           | (Normal a, s') => (Normal a, s')
           | (Throw e, s') => h e s'
           end.
Definition lift {S A} (c : completion A) : M S A := fun s => (c, s).
Definition get {S} : M S S := fun s => (Normal s, s).
Definition put {S} (s : S) : M S unit := fun _ => (Normal tt, s).
Definition modify {S} (f : S -> S) : M S unit := fun s => (Normal tt, f s).

Declare Scope js_scope.
Delimit Scope js_scope with js.
Notation "x <- m ;; k" := (bind m (fun x => k))
  (at level 100, m at next level, right associativity) : js_scope.
Notation "m ;; k" := (bind m (fun _ => k))
  (at level 100, right associativity) : js_scope.
Local Open Scope js_scope.

(** [for (const x of l) { f x }]. *)
Fixpoint for_of {S A} (l : list A) (f : A -> M S unit) : M S unit :=
  match l with
  | [] => ret tt
  | x :: t => f x ;; for_of t f
  end.

(** ** Reads *)

(** ['p' in node && node.p], as a truth value. *)
Definition in_and_truthy (p : prop bool) : completion bool :=
  match p with
  | Absent => Normal false
  | Mixed => Normal true
  | Val v => Normal v
  | Raises e => Throw e
  end.

(** ['p' in node && Array.isArray(node.p)], with the array when it holds. *)
Definition in_and_isArray {A} (p : prop (list A)) : completion (option (list A)) :=
  match p with
  | Absent => Normal None
  | Mixed => Normal None
  | Val l => Normal (Some l)
  | Raises e => Throw e
  end.

(** [!node.p] for a string-valued property. *)
Definition not_truthy (p : prop string) : completion bool :=
  match p with
  | Absent => Normal true
  | Mixed => Normal false
  | Val s => Normal (negb (Js.truthy_string s))
  | Raises e => Throw e
  end.

(** [typeof node.p === 'number'], with the number when it holds. *)
Definition typeof_number (p : prop float) : completion (option float) :=
  match p with
  | Absent => Normal None
  | Mixed => Normal None
  | Val x => Normal (Some x)
  | Raises e => Throw e
  end.

(** [node.fills.find(f => f.type === 'SOLID' && f.visible)]. *)
Definition is_visible_solid (f : Paint) : bool :=
  String.eqb (paint_type f) "SOLID" && paint_visible f.

Definition find_solid (l : list Paint) : option Paint :=
  List.find is_visible_solid l.

(** [node.name.toLowerCase().includes('button') ||
     node.name.toLowerCase().includes('btn')]. *)
Definition button_name (nm : string) : bool :=
  Js.includes (Js.toLowerCase nm) "button" || Js.includes (Js.toLowerCase nm) "btn".

(** [Math.abs(x - y) < 0.01]. *)
Definition within_tolerance (x y : float) : bool :=
  (abs (x - y) <? 0.01)%float.

Definition matches_colour (c p : RGB) : bool :=
  within_tolerance (r c) (r p) && within_tolerance (g c) (g p)
  && within_tolerance (b c) (b p).

(** The paint list every colour fix writes. *)
Definition solid_fill (c : RGB) : list Paint :=
  [ {| paint_type := "SOLID"; color := c; opacity := 1;
       paint_visible := true; blendMode := "NORMAL" |} ].

Definition TypeError_not_iterable : string := "node.children is not iterable".

Definition push (i : DesignIssue) : M (list DesignIssue) unit :=
  modify (fun issues => (issues ++ [i])%list).

(** The guard at the head of [traverse]:
    [!('visible' in node && node.visible) && node.type !== 'DOCUMENT'
     && node.type !== 'PAGE']. *)
Definition skipped (node : Node) : completion bool :=
  match in_and_truthy (visible node) with
  | Normal v =>
      Normal (negb v && negb (String.eqb (type node) "DOCUMENT")
              && negb (String.eqb (type node) "PAGE"))
  | Throw e => Throw e
  end.

(** ** The walk

    Both implementations walk the selection with the same [traverse]; they
    differ in the rule blocks it runs on a node, [rules] here. *)

Module Walk.
Section Rules.

Variable rules : Node -> M (list DesignIssue) unit.

Fixpoint traverse (node : Node) : M (list DesignIssue) unit :=
  skip <- lift (skipped node);;
  if skip : bool then ret tt
  else
    rules node;;
    match children node with
    | Absent => ret tt
    | Mixed => throw TypeError_not_iterable
    | Raises e => throw e
    | Val cs =>
        (fix each (l : list Node) : M (list DesignIssue) unit :=
           match l with
           | [] => ret tt
           | child :: t => traverse child;; each t
           end) cs
    end.

(** [for (const node of selectedNodes) { traverse(node); }]. *)
Definition walk (selectedNodes : list Node) : M (list DesignIssue) unit :=
  for_of selectedNodes traverse.

End Rules.
End Walk.

(** ** The document and the fix engine's shared steps *)

(** The open document as the fix engine sees it: the node an id resolves
    to, if any.  A fix replaces the node stored under the id. *)
Abbreviation Document := (gmap string Node).

Definition set_fills (node : Node) (fs : list Paint) : Node :=
  {| id := id node; name := name node; type := type node; visible := visible node;
     locked := locked node; fills := Val fs; fillStyleId := fillStyleId node;
     fontSize := fontSize node; fontName := fontName node; children := children node |}.

Definition set_fontSize (node : Node) (x : float) : Node :=
  {| id := id node; name := name node; type := type node; visible := visible node;
     locked := locked node; fills := fills node; fillStyleId := fillStyleId node;
     fontSize := Val x; fontName := fontName node; children := children node |}.

Definition failed (msg : string) : FixResult := {| status := error; message := msg |}.
Definition succeeded (msg : string) : FixResult := {| status := success; message := msg |}.

Definition fillableTypes : list string :=
  ["RECTANGLE"; "ELLIPSE"; "POLYGON"; "STAR"; "VECTOR"; "TEXT"; "FRAME"; "COMPONENT";
   "COMPONENT_SET"; "INSTANCE"].

(** The font guard each case of [applyFix] repeats for a text node: the
    two mixed-font checks, then [await figma.loadFontAsync(node.fontName)]
    under its own [try].  [Some res] is the early [return res]. *)
Definition font_guard {S} (loadFontAsync : FontName -> completion unit) (node : Node)
  : M S (option FixResult) :=
  match fontName node with
  | Raises e => throw e
  | Val (FontArray _) =>
      ret (Some (failed "Text layer uses mixed fonts and cannot be auto-fixed."))
  | Mixed =>
      ret (Some (failed "Text layer uses mixed fonts (figma.mixed) and cannot be auto-fixed."))
  | Val (OneFont f) =>
      match loadFontAsync f with
      | Normal _ => ret None
      | Throw _ => ret (Some (failed "Failed to load font for text layer. Manual fix required."))
      end
  | Absent => ret (Some (failed "Failed to load font for text layer. Manual fix required."))
  end.

(** [node.type === 'INSTANCE' && !node.fillStyleId]. *)
Definition instance_guard (node : Node) : completion bool :=
  if String.eqb (type node) "INSTANCE" then not_truthy (fillStyleId node)
  else Normal false.

(** The handler of the [try] around the dispatch:
    [(error as any)?.message || 'An unknown error occurred.']. *)
Definition runtime_error {S} (e : string) : M S FixResult :=
  ret (failed ("Runtime error during fix: "
               ++ (if Js.truthy_string e then e else "An unknown error occurred."))).

Definition no_change : FixResult := failed "Fix logic did not apply any changes.".

(* ================================================================= *)
(** * [code.ts]: the local-rules implementation *)

Module LocalRules.

Definition GRAY_500_RGB : RGB := {| r := 0.427; g := 0.447; b := 0.502 |}.
Definition APPROVED_FONT_SIZE : float := 14.
Definition PRIMARY_BUTTON_COLOR_RGB : RGB := {| r := 0.196; g := 0.275; b := 0.898 |}.

(** Rule 4: Colour/Token check. *)
Definition rule4 (node : Node) : M (list DesignIssue) unit :=
  fs <- lift (in_and_isArray (fills node));;
  match fs with
  | Some l =>
      unstyled <- lift (not_truthy (fillStyleId node));;
      if unstyled : bool then
        match find_solid l with
        | Some _ =>
            push {| issue_type := "Colour/Token"; layer := name node; nodeId := id node;
                    detail := "Layer uses a hardcoded fill colour. Must use a Colour Style/Token.";
                    fixable := true |}
        | None => ret tt
        end
      else ret tt
  | None => ret tt
  end.

(** Rule 5: Typography check. *)
Definition rule5 (node : Node) : M (list DesignIssue) unit :=
  if String.eqb (type node) "TEXT" then
    sz <- lift (typeof_number (fontSize node));;
    match sz with
    | Some x =>
        if negb (x =? APPROVED_FONT_SIZE)%float then
          push {| issue_type := "Typography"; layer := name node; nodeId := id node;
                  detail := "Uses non-standard font size (" ++ Js.Number_toString x
                            ++ "px). Recommended size is "
                            ++ Js.Number_toString APPROVED_FONT_SIZE ++ "px.";
                  fixable := true |}
        else ret tt
    | None => ret tt
    end
  else ret tt.

(** Rule 6: Primary button style check. *)
Definition rule6 (node : Node) : M (list DesignIssue) unit :=
  if button_name (name node) then
    if String.eqb (type node) "RECTANGLE" then
      fs <- lift (in_and_isArray (fills node));;
      match fs with
      | Some l =>
          unstyled <- lift (not_truthy (fillStyleId node));;
          if unstyled : bool then
            let isIncorrectColour :=
              match find_solid l with
              | Some solidFill => negb (matches_colour (color solidFill) PRIMARY_BUTTON_COLOR_RGB)
              | None => (0 <? length l)%nat
              end in
            if isIncorrectColour then
              push {| issue_type := "Button/Style"; layer := name node; nodeId := id node;
                      detail := "Button uses hardcoded colour. Must use Primary Button token (Indigo/600).";
                      fixable := true |}
            else ret tt
          else ret tt
      | None => ret tt
      end
    else ret tt
  else ret tt.

Definition rules (node : Node) : M (list DesignIssue) unit :=
  rule4 node;; rule5 node;; rule6 node.

(** [traverse] and the loop of the top-level [try], with this file's rules. *)
Definition traverse : Node -> M (list DesignIssue) unit := Walk.traverse rules.
Definition walk : list Node -> M (list DesignIssue) unit := Walk.walk rules.

(** [runAnalysis]: the walk under the top-level [try]/[catch], then
    [return issues]. *)
Definition runAnalysis (selectedNodes : list Node) : completion (list DesignIssue) :=
  let '(_, issues) := try_catch (walk selectedNodes) (fun _ => ret tt) [] in
  Normal issues.

(** The [switch] of [applyFix], under its [try]. *)
Definition dispatch (loadFontAsync : FontName -> completion unit)
    (nodeId issueType : string) (node : Node) : M Document FixResult :=
  if String.eqb issueType "Colour/Token" then
    if negb (existsb (String.eqb (type node)) fillableTypes) then
      ret (failed ("Cannot apply fill fix to node type: " ++ type node ++ "."))
    else
      fs <- lift (in_and_isArray (fills node));;
      match fs with
      | Some _ =>
          early <- (if String.eqb (type node) "TEXT"
                    then font_guard loadFontAsync node else ret None);;
          match early with
          | Some res => ret res
          | None =>
              locked_instance <- lift (instance_guard node);;
              if locked_instance : bool then
                ret (failed "Instance property may be locked or unoverrideable.")
              else
                modify (fun doc : Document =>
                          <[nodeId := set_fills node (solid_fill GRAY_500_RGB)]> doc);;
                ret (succeeded "Applied Gray/500 colour fill.")
          end
      | None => ret no_change
      end
  else if String.eqb issueType "Typography" then
    if String.eqb (type node) "TEXT" then
      early <- font_guard loadFontAsync node;;
      match early with
      | Some res => ret res
      | None =>
          modify (fun doc : Document =>
                    <[nodeId := set_fontSize node APPROVED_FONT_SIZE]> doc);;
          ret (succeeded ("Set font size to " ++ Js.Number_toString APPROVED_FONT_SIZE
                          ++ "px."))
      end
    else ret no_change
  else if String.eqb issueType "Button/Style" then
    fs <- lift (in_and_isArray (fills node));;
    match fs with
    | Some _ =>
        locked_instance <- lift (instance_guard node);;
        if locked_instance : bool then
          ret (failed "Instance property may be locked or unoverrideable.")
        else
          early <- (if String.eqb (type node) "TEXT"
                    then font_guard loadFontAsync node else ret None);;
          match early with
          | Some res => ret res
          | None =>
              modify (fun doc : Document =>
                        <[nodeId := set_fills node (solid_fill PRIMARY_BUTTON_COLOR_RGB)]> doc);;
              ret (succeeded "Applied Primary Button (Indigo/600) colour fill.")
          end
    | None => ret no_change
    end
  else ret (failed ("Unknown issue type: " ++ issueType)).

(** [applyFix]: resolve the node, refuse a locked one, then dispatch. *)
Definition applyFix (loadFontAsync : FontName -> completion unit)
    (nodeId issueType : string) : M Document FixResult :=
  doc <- get;;
  match doc !! nodeId with
  | None => ret (failed "Node not found or removed.")
  | Some node =>
      is_locked <- lift (in_and_truthy (locked node));;
      if is_locked : bool then ret (failed "Layer is locked. Manual fix needed.")
      else try_catch (dispatch loadFontAsync nodeId issueType node) runtime_error
  end.

End LocalRules.

(* ================================================================= *)
(** * The token-aware implementation *)

Module TokenAware.

(** ** The design-system store *)

Inductive ComponentType : Type := ct_button | ct_input | ct_card | ct_text | ct_other.

Record ComponentToken : Type := mkComponentToken {
  ct_name : string;
  ct_type : ComponentType;
  requiredProperties : list string;
  allowedVariants : list string }.

Record CustomTextStyle : Type := mkTextStyle {
  fontFamily : string;
  ts_fontSize : float;
  fontWeight : string + float;
  lineHeight : float;
  letterSpacing : float;
  textCase : option string }.

Record DesignSystemConfig : Type := mkConfig {
  colourTokens : gmap string RGB;
  textStyles : gmap string CustomTextStyle;
  spacingTokens : gmap string float;
  componentTokens : gmap string ComponentToken }.

Definition DEFAULT_CONFIG : DesignSystemConfig :=
  {| colourTokens := ∅; textStyles := ∅; spacingTokens := ∅; componentTokens := ∅ |}.

(** [new Map(entries)]: entries are set in order, a later one replacing an
    earlier one of the same key. *)
Definition new_Map {A} (entries : list (string * A)) : gmap string A :=
  foldl (fun m kv => <[kv.1 := kv.2]> m) ∅ entries.

Definition set_colour (k : string) (c : RGB) (cfg : DesignSystemConfig) :=
  {| colourTokens := <[k := c]> (colourTokens cfg); textStyles := textStyles cfg;
     spacingTokens := spacingTokens cfg; componentTokens := componentTokens cfg |}.
Definition set_textStyle (k : string) (t : CustomTextStyle) (cfg : DesignSystemConfig) :=
  {| colourTokens := colourTokens cfg; textStyles := <[k := t]> (textStyles cfg);
     spacingTokens := spacingTokens cfg; componentTokens := componentTokens cfg |}.
Definition set_component (k : string) (t : ComponentToken) (cfg : DesignSystemConfig) :=
  {| colourTokens := colourTokens cfg; textStyles := textStyles cfg;
     spacingTokens := spacingTokens cfg; componentTokens := <[k := t]> (componentTokens cfg) |}.

(** MCP configuration for the Figma API connection.  [figmaToken] is [None]
    when the configuration the UI sent has no such field. *)
Record MCPConfig : Type := mkMCP {
  figmaToken : option string;
  fileKey : string;
  baseUrl : string }.

(** ** The mock design system *)

Definition mock_colourTokens : list (string * RGB) :=
  [ ("Primary/Blue/500", mkRGB 0.196 0.275 0.898);
    ("Primary/Blue/600", mkRGB 0.157 0.220 0.718);
    ("Primary/Blue/700", mkRGB 0.118 0.165 0.538);
    ("Primary/Blue/50", mkRGB 0.961 0.965 0.988);
    ("Primary/Blue/100", mkRGB 0.918 0.925 0.976);
    ("Primary/Blue/200", mkRGB 0.835 0.851 0.949);
    ("Primary/Blue/300", mkRGB 0.690 0.722 0.910);
    ("Primary/Blue/400", mkRGB 0.443 0.498 0.804);
    ("Secondary/Green/500", mkRGB 0.063 0.725 0.506);
    ("Secondary/Green/600", mkRGB 0.051 0.580 0.404);
    ("Secondary/Green/700", mkRGB 0.039 0.435 0.302);
    ("Secondary/Green/50", mkRGB 0.961 0.988 0.984);
    ("Secondary/Green/100", mkRGB 0.918 0.976 0.965);
    ("Secondary/Green/200", mkRGB 0.835 0.949 0.925);
    ("Secondary/Green/300", mkRGB 0.690 0.910 0.863);
    ("Secondary/Green/400", mkRGB 0.443 0.804 0.722);
    ("Neutral/Gray/50", mkRGB 0.980 0.980 0.980);
    ("Neutral/Gray/100", mkRGB 0.961 0.961 0.961);
    ("Neutral/Gray/200", mkRGB 0.925 0.925 0.925);
    ("Neutral/Gray/300", mkRGB 0.863 0.863 0.863);
    ("Neutral/Gray/400", mkRGB 0.722 0.722 0.722);
    ("Neutral/Gray/500", mkRGB 0.427 0.447 0.502);
    ("Neutral/Gray/600", mkRGB 0.341 0.357 0.400);
    ("Neutral/Gray/700", mkRGB 0.255 0.267 0.298);
    ("Neutral/Gray/800", mkRGB 0.169 0.176 0.196);
    ("Neutral/Gray/900", mkRGB 0.082 0.086 0.094);
    ("Semantic/Success/500", mkRGB 0.063 0.725 0.506);
    ("Semantic/Success/600", mkRGB 0.051 0.580 0.404);
    ("Semantic/Success/50", mkRGB 0.961 0.988 0.984);
    ("Semantic/Success/100", mkRGB 0.918 0.976 0.965);
    ("Semantic/Warning/500", mkRGB 0.976 0.580 0.063);
    ("Semantic/Warning/600", mkRGB 0.780 0.463 0.051);
    ("Semantic/Warning/50", mkRGB 0.996 0.976 0.961);
    ("Semantic/Warning/100", mkRGB 0.992 0.949 0.918);
    ("Semantic/Error/500", mkRGB 0.937 0.220 0.220);
    ("Semantic/Error/600", mkRGB 0.749 0.176 0.176);
    ("Semantic/Error/50", mkRGB 0.996 0.961 0.961);
    ("Semantic/Error/100", mkRGB 0.992 0.918 0.918);
    ("Semantic/Info/500", mkRGB 0.196 0.275 0.898);
    ("Semantic/Info/600", mkRGB 0.157 0.220 0.718);
    ("Semantic/Info/50", mkRGB 0.961 0.965 0.988);
    ("Semantic/Info/100", mkRGB 0.918 0.925 0.976) ].

Definition mock_textStyles : list (string * CustomTextStyle) :=
  [ ("Heading/H1", mkTextStyle "Inter" 32 (inr 700%float) 1.2 (-0.02) None);
    ("Heading/H2", mkTextStyle "Inter" 28 (inr 700%float) 1.25 (-0.01) None);
    ("Heading/H3", mkTextStyle "Inter" 24 (inr 600%float) 1.3 (0) None);
    ("Heading/H4", mkTextStyle "Inter" 20 (inr 600%float) 1.35 (0) None);
    ("Heading/H5", mkTextStyle "Inter" 18 (inr 600%float) 1.4 (0) None);
    ("Heading/H6", mkTextStyle "Inter" 16 (inr 600%float) 1.4 (0) None);
    ("Body/Large", mkTextStyle "Inter" 16 (inr 400%float) 1.5 (0) None);
    ("Body/Medium", mkTextStyle "Inter" 14 (inr 400%float) 1.5 (0) None);
    ("Body/Small", mkTextStyle "Inter" 12 (inr 400%float) 1.5 (0) None);
    ("Caption/Large", mkTextStyle "Inter" 12 (inr 500%float) 1.4 (0.01) None);
    ("Caption/Medium", mkTextStyle "Inter" 11 (inr 500%float) 1.4 (0.01) None);
    ("Caption/Small", mkTextStyle "Inter" 10 (inr 500%float) 1.4 (0.01) None);
    ("Button/Large", mkTextStyle "Inter" 16 (inr 600%float) 1.25 (0) None);
    ("Button/Medium", mkTextStyle "Inter" 14 (inr 600%float) 1.25 (0) None);
    ("Button/Small", mkTextStyle "Inter" 12 (inr 600%float) 1.25 (0) None);
    ("Link/Large", mkTextStyle "Inter" 16 (inr 500%float) 1.5 (0) None);
    ("Link/Medium", mkTextStyle "Inter" 14 (inr 500%float) 1.5 (0) None);
    ("Link/Small", mkTextStyle "Inter" 12 (inr 500%float) 1.5 (0) None) ].

Definition mock_spacingTokens : list (string * float) :=
  [ ("Spacing/0", 0%float);
    ("Spacing/1", 4%float);
    ("Spacing/2", 8%float);
    ("Spacing/3", 12%float);
    ("Spacing/4", 16%float);
    ("Spacing/5", 20%float);
    ("Spacing/6", 24%float);
    ("Spacing/8", 32%float);
    ("Spacing/10", 40%float);
    ("Spacing/12", 48%float);
    ("Spacing/16", 64%float);
    ("Spacing/20", 80%float);
    ("Spacing/24", 96%float);
    ("Spacing/32", 128%float);
    ("Spacing/40", 160%float);
    ("Spacing/48", 192%float);
    ("Spacing/56", 224%float);
    ("Spacing/64", 256%float) ].

Definition mock_componentTokens : list (string * ComponentToken) :=
  [ ("Button/Primary", mkComponentToken "Button/Primary" ct_button ["fillStyleId"; "textStyleId"] ["Large"; "Medium"; "Small"; "Disabled"]);
    ("Button/Secondary", mkComponentToken "Button/Secondary" ct_button ["fillStyleId"; "textStyleId"] ["Large"; "Medium"; "Small"; "Disabled"]);
    ("Button/Tertiary", mkComponentToken "Button/Tertiary" ct_button ["fillStyleId"; "textStyleId"] ["Large"; "Medium"; "Small"; "Disabled"]);
    ("Button/Danger", mkComponentToken "Button/Danger" ct_button ["fillStyleId"; "textStyleId"] ["Large"; "Medium"; "Small"; "Disabled"]);
    ("Input/Text", mkComponentToken "Input/Text" ct_input ["fillStyleId"; "textStyleId"] ["Large"; "Medium"; "Small"; "Error"; "Disabled"]);
    ("Input/Password", mkComponentToken "Input/Password" ct_input ["fillStyleId"; "textStyleId"] ["Large"; "Medium"; "Small"; "Error"; "Disabled"]);
    ("Input/Email", mkComponentToken "Input/Email" ct_input ["fillStyleId"; "textStyleId"] ["Large"; "Medium"; "Small"; "Error"; "Disabled"]);
    ("Card/Default", mkComponentToken "Card/Default" ct_card ["fillStyleId"] ["Elevated"; "Outlined"; "Filled"]);
    ("Card/Interactive", mkComponentToken "Card/Interactive" ct_card ["fillStyleId"] ["Hover"; "Pressed"; "Selected"]);
    ("Text/Heading", mkComponentToken "Text/Heading" ct_text ["textStyleId"] ["H1"; "H2"; "H3"; "H4"; "H5"; "H6"]);
    ("Text/Body", mkComponentToken "Text/Body" ct_text ["textStyleId"] ["Large"; "Medium"; "Small"]);
    ("Text/Caption", mkComponentToken "Text/Caption" ct_text ["textStyleId"] ["Large"; "Medium"; "Small"]);
    ("Text/Link", mkComponentToken "Text/Link" ct_text ["textStyleId"] ["Large"; "Medium"; "Small"]) ].

Definition mockData : DesignSystemConfig :=
  {| colourTokens := new_Map mock_colourTokens;
     textStyles := new_Map mock_textStyles;
     spacingTokens := new_Map mock_spacingTokens;
     componentTokens := new_Map mock_componentTokens |}.
Arguments mockData : simpl never.

(** ** The world outside the plugin *)

(** Bodies of the remote API, by the fields the loader reads. *)
Record StyleMeta : Type := mkStyleMeta { styleType : string; style_name : string }.
Record PaintJson : Type := mkPaintJson { pj_type : string; pj_color : RGB }.
Record StyleDetails : Type := mkStyleDetails {
  sd_fills : option (list PaintJson);
  sd_fontFamily : option string;
  sd_fontSize : option float;
  sd_fontWeight : option (string + float);
  sd_lineHeight : option float;
  sd_letterSpacing : option float }.
(** [styles]: the entries of [fileData.styles] in [for ... in] order;
    [document]: the truthiness of [fileData.document]. *)
Record FileData : Type := mkFileData {
  styles : option (list (string * StyleMeta));
  document : bool }.
(** [components]: the entries of [componentsData.meta.components] (id and
    name), [None] when [meta] is missing. *)
Record ComponentsData : Type := mkComponentsData {
  components : option (list (string * string)) }.

Inductive Body : Type :=
  | FileBody (f : FileData)
  | StyleBody (d : StyleDetails)
  | ComponentsBody (c : ComponentsData).

Record Response : Type := mkResponse {
  ok : bool;
  statusText : string;
  json : completion Body }.

(** Local styles and component sets of the open document. *)
Record PaintStyle : Type := mkPaintStyle { ps_name : string; paints : list Paint }.
Record TextStyle : Type := mkLocalTextStyle {
  lts_name : string;
  lts_fontName : string + FontName;
  lts_fontSize : float;
  lts_fontWeight : option (string + float);
  lts_lineHeight : option float;
  lts_letterSpacing : option float }.
Record ComponentSet : Type := mkComponentSet {
  cs_name : string;
  cs_children : option (list string) }.

(** What the plugin cannot decide itself during one token load.
    [net url]: how [fetch(url)] settles ([Throw]: it rejects).
    [deadline]: how many awaits on the network settle before the
    five-second timer of the race fires ([None]: all of them).
    [mock_fault]: the error thrown while the mock tables are built, if any.
    The last three are the host calls of the local fallback. *)
Record World : Type := mkWorld {
  net : string -> completion Response;
  deadline : option nat;
  mock_fault : option string;
  getLocalPaintStyles : completion (list PaintStyle);
  getLocalTextStyles : completion (list TextStyle);
  findAllComponentSets : completion (list ComponentSet) }.

(** The plugin's global variables, with the requests sent so far and the
    network awaits the running race has settled. *)
Record State : Type := mkState {
  designSystemConfig : DesignSystemConfig;
  globalConfig : option MCPConfig;
  requests : list string;
  settled : nat }.

Definition initial : State :=
  {| designSystemConfig := DEFAULT_CONFIG;
     globalConfig := Some {| figmaToken := Some ""; fileKey := "KkqX7OKAggFzvfB0CMUwBz";
                             baseUrl := "https://api.figma.com/v1" |};
     requests := []; settled := 0 |}.

Definition with_config (f : DesignSystemConfig -> DesignSystemConfig) (st : State) : State :=
  {| designSystemConfig := f (designSystemConfig st); globalConfig := globalConfig st;
     requests := requests st; settled := settled st |}.

Definition update_config (f : DesignSystemConfig -> DesignSystemConfig) : M State unit :=
  modify (with_config f).

(** An await on the network inside the race against the timer.  Once the
    timer has fired the race is lost with the timer's rejection, and what
    the abandoned request would do later is outside the load. *)
Definition net_await (w : World) : M State unit :=
  st <- get;;
  match deadline w with
  | Some d =>
      if (d <=? settled st)%nat then throw "API timeout"
      else put {| designSystemConfig := designSystemConfig st; globalConfig := globalConfig st;
                  requests := requests st; settled := S (settled st) |}
  | None => ret tt
  end.

Definition fetch (w : World) (url : string) : M State Response :=
  modify (fun st => {| designSystemConfig := designSystemConfig st;
                       globalConfig := globalConfig st;
                       requests := (requests st ++ [url])%list; settled := settled st |});;
  net_await w;;
  lift (net w url).

Definition response_json (w : World) (resp : Response) : M State Body :=
  net_await w;; lift (json resp).

(** [x || d] for numbers and for [string | number | undefined]. *)
Definition truthy_number (x : float) : bool :=
  negb (x =? 0)%float && negb (is_nan x).

Definition or_number (o : option float) (d : float) : float :=
  match o with
  | Some x => if truthy_number x then x else d
  | None => d
  end.

Definition or_weight (o : option (string + float)) (d : float) : string + float :=
  match o with
  | Some (inl s) => if Js.truthy_string s then inl s else inr d
  | Some (inr x) => if truthy_number x then inr x else inr d
  | None => inr d
  end.

Definition or_string (o : option string) (d : string) : string :=
  match o with
  | Some s => if Js.truthy_string s then s else d
  | None => d
  end.

Definition getComponentType (name : string) : ComponentType :=
  let lowerName := Js.toLowerCase name in
  if Js.includes lowerName "button" || Js.includes lowerName "btn" then ct_button
  else if Js.includes lowerName "input" || Js.includes lowerName "field" then ct_input
  else if Js.includes lowerName "card" || Js.includes lowerName "container" then ct_card
  else if Js.includes lowerName "text" || Js.includes lowerName "label" then ct_text
  else ct_other.

(** ** The token loader *)

(** Fallback: load the design system from the local Figma file. *)
Definition loadLocalDesignSystem (w : World) : M State unit :=
  try_catch
    (colourStyles <- lift (getLocalPaintStyles w);;
     for_of colourStyles (fun style =>
       match paints style with
       | paint :: _ =>
           if String.eqb (paint_type paint) "SOLID"
           then update_config (set_colour (ps_name style) (color paint))
           else ret tt
       | [] => ret tt
       end);;
     localTextStyles <- lift (getLocalTextStyles w);;
     for_of localTextStyles (fun style =>
       update_config (set_textStyle (lts_name style)
         {| fontFamily := match lts_fontName style with inl s => s | inr _ => "Inter" end;
            ts_fontSize := lts_fontSize style;
            fontWeight := or_weight (lts_fontWeight style) 400;
            lineHeight := match lts_lineHeight style with Some x => x | None => 1.2%float end;
            letterSpacing := match lts_letterSpacing style with Some x => x | None => 0%float end;
            textCase := None |}));;
     componentSets <- lift (findAllComponentSets w);;
     for_of componentSets (fun componentSet =>
       update_config (set_component (cs_name componentSet)
         {| ct_name := cs_name componentSet;
            ct_type := getComponentType (cs_name componentSet);
            requiredProperties := [];
            allowedVariants := match cs_children componentSet with
                               | Some names => names
                               | None => []
                               end |})))
    (fun _ => ret tt).

(** Loads mock design system data as fallback. *)
Definition loadMockDesignSystem (w : World) : M State unit :=
  try_catch
    (match mock_fault w with
     | Some e => throw e
     | None => update_config (fun _ => mockData)
     end)
    (fun _ => loadLocalDesignSystem w).

Definition as_file (body : Body) : FileData :=
  match body with FileBody f => f | _ => {| styles := None; document := false |} end.

Definition as_style (body : Body) : StyleDetails :=
  match body with
  | StyleBody d => d
  | _ => {| sd_fills := None; sd_fontFamily := None; sd_fontSize := None;
            sd_fontWeight := None; sd_lineHeight := None; sd_letterSpacing := None |}
  end.

Definition as_components (body : Body) : ComponentsData :=
  match body with ComponentsBody c => c | _ => {| components := None |} end.

(** Load styles from the Figma API. *)
Definition loadStylesFromAPI (w : World) (sts : list (string * StyleMeta))
    (config : MCPConfig) : M State unit :=
  for_of sts (fun '(styleId, style) =>
    if String.eqb (styleType style) "FILL" then
      styleResponse <- fetch w (baseUrl config ++ "/styles/" ++ styleId);;
      if ok styleResponse then
        body <- response_json w styleResponse;;
        match sd_fills (as_style body) with
        | Some (first :: _) =>
            if String.eqb (pj_type first) "SOLID"
            then update_config (set_colour (style_name style) (pj_color first))
            else ret tt
        | _ => ret tt
        end
      else ret tt
    else if String.eqb (styleType style) "TEXT" then
      styleResponse <- fetch w (baseUrl config ++ "/styles/" ++ styleId);;
      if ok styleResponse then
        body <- response_json w styleResponse;;
        let styleDetails := as_style body in
        update_config (set_textStyle (style_name style)
          {| fontFamily := or_string (sd_fontFamily styleDetails) "Inter";
             ts_fontSize := or_number (sd_fontSize styleDetails) 14;
             fontWeight := or_weight (sd_fontWeight styleDetails) 400;
             lineHeight := or_number (sd_lineHeight styleDetails) 1.2;
             letterSpacing := or_number (sd_letterSpacing styleDetails) 0;
             textCase := None |})
      else ret tt
    else ret tt).

(** Load components from the Figma API. *)
Definition loadComponentsFromAPI (w : World) (config : MCPConfig) : M State unit :=
  componentsResponse <- fetch w (baseUrl config ++ "/files/" ++ fileKey config
                                 ++ "/components");;
  if ok componentsResponse then
    body <- response_json w componentsResponse;;
    match components (as_components body) with
    | None => throw "Cannot read properties of undefined (reading 'components')"
    | Some cs =>
        for_of cs (fun '(componentId, component_name) =>
          update_config (set_component component_name
            {| ct_name := component_name;
               ct_type := getComponentType component_name;
               requiredProperties := [];
               allowedVariants := [] |}))
    end
  else ret tt.

(** Load the design system from the Figma API using MCP. *)
Definition loadFigmaDesignSystem (w : World) (config : MCPConfig) : M State unit :=
  try_catch
    (fileResponse <- fetch w (baseUrl config ++ "/files/" ++ fileKey config);;
     if negb (ok fileResponse) then
       throw ("Failed to fetch file: " ++ statusText fileResponse)
     else
       body <- response_json w fileResponse;;
       let fileData := as_file body in
       match styles fileData with
       | Some sts => loadStylesFromAPI w sts config
       | None => ret tt
       end;;
       if document fileData then loadComponentsFromAPI w config else ret tt)
    (fun e => throw e).

(** [!mcpConfig.figmaToken || mcpConfig.figmaToken.trim() === '']. *)
Definition blank_token (config : MCPConfig) : bool :=
  match figmaToken config with
  | None => true
  | Some t => negb (Js.truthy_string t) || Js.trim_is_empty t
  end.

(** [await Promise.race([apiPromise, timeoutPromise])]: the race starts
    with no await settled. *)
Definition race (w : World) (config : MCPConfig) : M State unit :=
  modify (fun st => {| designSystemConfig := designSystemConfig st;
                       globalConfig := globalConfig st;
                       requests := requests st; settled := 0 |});;
  loadFigmaDesignSystem w config.

(** Loads design system tokens and styles using the MCP connection to the
    Figma API. *)
Definition loadDesignSystemViaMCP (w : World) : M State unit :=
  try_catch
    (st <- get;;
     match globalConfig st with
     | None => throw "Cannot read properties of undefined (reading 'figmaToken')"
     | Some mcpConfig =>
         if blank_token mcpConfig then loadMockDesignSystem w
         else try_catch (race w mcpConfig) (fun _ => loadMockDesignSystem w)
     end)
    (fun _ => loadMockDesignSystem w).

(** ** Analysis *)

(** The hardcoded-fill rule. *)
Definition fill_rule (node : Node) : M (list DesignIssue) unit :=
  fs <- lift (in_and_isArray (fills node));;
  match fs with
  | Some l =>
      unstyled <- lift (not_truthy (fillStyleId node));;
      if unstyled : bool then
        match find_solid l with
        | Some _ =>
            let issueType :=
              if String.eqb (type node) "TEXT" then "Text/Colour" else "Colour/Token" in
            let detail :=
              if String.eqb (type node) "TEXT"
              then "Text uses hardcoded colour instead of design system token. Should use Functional/Carbon for text."
              else "Layer uses a hardcoded fill colour. Must use a Colour Style/Token." in
            push {| issue_type := issueType; layer := name node; nodeId := id node;
                    detail := detail; fixable := true |}
        | None => ret tt
        end
      else ret tt
  | None => ret tt
  end.

(** The button-style rule, against the store's ['Primary/Blue/600']. *)
Definition button_rule (cfg : DesignSystemConfig) (node : Node) : M (list DesignIssue) unit :=
  if button_name (name node) then
    if String.eqb (type node) "RECTANGLE" then
      fs <- lift (in_and_isArray (fills node));;
      match fs with
      | Some l =>
          unstyled <- lift (not_truthy (fillStyleId node));;
          if unstyled : bool then
            let isIncorrectColour :=
              match find_solid l with
              | Some solidFill =>
                  let matchesPrimary :=
                    match colourTokens cfg !! "Primary/Blue/600" with
                    | Some primaryButtonColour =>
                        matches_colour (color solidFill) primaryButtonColour
                    | None => false
                    end in
                  negb matchesPrimary
              | None => (0 <? length l)%nat
              end in
            if isIncorrectColour then
              push {| issue_type := "Button/Style"; layer := name node; nodeId := id node;
                      detail := "Button uses hardcoded colour. Must use Primary Button token (Indigo/600).";
                      fixable := true |}
            else ret tt
          else ret tt
      | None => ret tt
      end
    else ret tt
  else ret tt.

Definition rules (cfg : DesignSystemConfig) (node : Node) : M (list DesignIssue) unit :=
  fill_rule node;; button_rule cfg node.

(** [traverse] and the loop of the top-level [try], with this file's rules
    reading the store [cfg]. *)
Definition traverse (cfg : DesignSystemConfig) : Node -> M (list DesignIssue) unit :=
  Walk.traverse (rules cfg).
Definition walk (cfg : DesignSystemConfig) : list Node -> M (list DesignIssue) unit :=
  Walk.walk (rules cfg).

(** The walk over the store as it stands, under the top-level [try]. *)
Definition analyse (cfg : DesignSystemConfig) (selectedNodes : list Node) : list DesignIssue :=
  snd (try_catch (walk cfg selectedNodes) (fun _ => ret tt) []).

(** [runAnalysis]: the token load under its own [try], then the walk. *)
Definition runAnalysis (w : World) (selectedNodes : list Node) : M State (list DesignIssue) :=
  try_catch (loadDesignSystemViaMCP w) (fun _ => ret tt);;
  st <- get;;
  ret (analyse (designSystemConfig st) selectedNodes).

(** ** The fix engine *)

Definition default_carbon : RGB := {| r := 0.1; g := 0.1; b := 0.1 |}.
Definition default_primary : RGB := {| r := 0.196; g := 0.275; b := 0.898 |}.

(** [designSystemConfig.colourTokens.get(key) || fallback]. *)
Definition token_or (cfg : DesignSystemConfig) (key : string) (fallback : RGB) : RGB :=
  match colourTokens cfg !! key with
  | Some c => c
  | None => fallback
  end.

Definition dispatch (loadFontAsync : FontName -> completion unit) (cfg : DesignSystemConfig)
    (nodeId issueType : string) (node : Node) : M Document FixResult :=
  if String.eqb issueType "Text/Colour" then
    if String.eqb (type node) "TEXT" then
      early <- font_guard loadFontAsync node;;
      match early with
      | Some res => ret res
      | None =>
          fs <- lift (in_and_isArray (fills node));;
          match fs with
          | Some _ =>
              let carbonColour := token_or cfg "Functional/Carbon" default_carbon in
              modify (fun doc : Document =>
                        <[nodeId := set_fills node (solid_fill carbonColour)]> doc);;
              ret (succeeded "Applied Functional/Carbon colour to text.")
          | None => ret no_change
          end
      end
    else ret no_change
  else if String.eqb issueType "Colour/Token" then
    if negb (existsb (String.eqb (type node)) fillableTypes) then
      ret (failed ("Cannot apply fill fix to node type: " ++ type node ++ "."))
    else
      fs <- lift (in_and_isArray (fills node));;
      match fs with
      | Some _ =>
          early <- (if String.eqb (type node) "TEXT"
                    then font_guard loadFontAsync node else ret None);;
          match early with
          | Some res => ret res
          | None =>
              locked_instance <- lift (instance_guard node);;
              if locked_instance : bool then
                ret (failed "Instance property may be locked or unoverrideable.")
              else
                let carbonColour := token_or cfg "Functional/Carbon" default_carbon in
                modify (fun doc : Document =>
                          <[nodeId := set_fills node (solid_fill carbonColour)]> doc);;
                ret (succeeded "Applied Functional/Carbon colour fill.")
          end
      | None => ret no_change
      end
  else if String.eqb issueType "Typography" then
    if String.eqb (type node) "TEXT" then
      early <- font_guard loadFontAsync node;;
      match early with
      | Some res => ret res
      | None =>
          ret (failed "Typography fixes should use design system text styles instead of hardcoded font sizes.")
      end
    else ret no_change
  else if String.eqb issueType "Button/Style" then
    fs <- lift (in_and_isArray (fills node));;
    match fs with
    | Some _ =>
        locked_instance <- lift (instance_guard node);;
        if locked_instance : bool then
          ret (failed "Instance property may be locked or unoverrideable.")
        else
          early <- (if String.eqb (type node) "TEXT"
                    then font_guard loadFontAsync node else ret None);;
          match early with
          | Some res => ret res
          | None =>
              let primaryButtonColour := token_or cfg "Primary/Blue/600" default_primary in
              modify (fun doc : Document =>
                        <[nodeId := set_fills node (solid_fill primaryButtonColour)]> doc);;
              ret (succeeded "Applied Primary Button (Indigo/600) colour fill.")
          end
    | None => ret no_change
    end
  else ret (failed ("Unknown issue type: " ++ issueType)).

Definition applyFix (loadFontAsync : FontName -> completion unit) (cfg : DesignSystemConfig)
    (nodeId issueType : string) : M Document FixResult :=
  doc <- get;;
  match doc !! nodeId with
  | None => ret (failed "Node not found or removed.")
  | Some node =>
      is_locked <- lift (in_and_truthy (locked node));;
      if is_locked : bool then ret (failed "Layer is locked. Manual fix needed.")
      else try_catch (dispatch loadFontAsync cfg nodeId issueType node) runtime_error
  end.

End TokenAware.

(* ================================================================= *)
(** * Specification-side definitions *)

(** The issues a computation appends when started from no issue. *)
Definition emitted {A} (m : M (list DesignIssue) A) : list DesignIssue := snd (m []).

(** A computation that only appends to the issue list, the same issues
    whatever the list held before. *)
Definition appends {A} (m : M (list DesignIssue) A) : Prop :=
  forall acc, m acc = (fst (m []), (acc ++ emitted m)%list).

(** The nodes the analysis visits, in the words of the specification: a
    depth-first pre-order descent; a node is visited only if it is
    visible, unless it is a document- or page-level container. *)
Definition is_container (n : Node) : bool :=
  String.eqb (type n) "DOCUMENT" || String.eqb (type n) "PAGE".

Definition is_visible (n : Node) : bool :=
  match visible n with
  | Val v => v
  | Mixed => true
  | _ => false
  end.

Fixpoint visited (n : Node) : list Node :=
  if is_visible n || is_container n then
    n :: match children n with
         | Val cs =>
             (fix each (l : list Node) : list Node :=
                match l with
                | [] => []
                | c :: t => (visited c ++ each t)%list
                end) cs
         | _ => []
         end
  else [].

(** Every node of a tree, the root first. *)
Fixpoint subtree (n : Node) : list Node :=
  n :: match children n with
       | Val cs =>
           (fix each (l : list Node) : list Node :=
              match l with
              | [] => []
              | c :: t => (subtree c ++ each t)%list
              end) cs
       | _ => []
       end.

(** The last step of [traverse] on a node it has entered: the loop over
    its children. *)
Definition descend (rules : Node -> M (list DesignIssue) unit) (n : Node)
  : M (list DesignIssue) unit :=
  match children n with
  | Absent => ret tt
  | Mixed => throw TypeError_not_iterable
  | Raises e => throw e
  | Val cs => Walk.walk rules cs
  end.

(** The children of a node, none when it has no child list. *)
Definition kids (n : Node) : list Node :=
  match children n with
  | Val cs => cs
  | _ => []
  end.

(** The node with another lock flag. *)
Definition set_locked (node : Node) (lk : prop bool) : Node :=
  {| id := id node; name := name node; type := type node; visible := visible node;
     locked := lk; fills := fills node; fillStyleId := fillStyleId node;
     fontSize := fontSize node; fontName := fontName node; children := children node |}.

(** The issue types the [switch] of [applyFix] has a case for. *)
Definition local_cases : list string := ["Colour/Token"; "Typography"; "Button/Style"].
Definition token_cases : list string :=
  ["Text/Colour"; "Colour/Token"; "Typography"; "Button/Style"].

Definition grey : RGB := {| r := 0.5; g := 0.5; b := 0.5 |}.

(** A visible solid paint of full opacity. *)
Definition solid (c : RGB) : Paint :=
  {| paint_type := "SOLID"; color := c; opacity := 1; paint_visible := true;
     blendMode := "NORMAL" |}.

(** The scenario of the primary button: a visible rectangle named
    "Primary Button" whose fill list is one visible solid paint of RGB
    (0.5, 0.5, 0.5), with no fill-style reference (and, a rectangle, no
    child list). *)
Definition primary_button_scenario (node : Node) : Prop :=
  type node = "RECTANGLE" /\ name node = "Primary Button"
  /\ in_and_truthy (visible node) = Normal true
  /\ (exists f, fills node = Val [f] /\ is_visible_solid f = true /\ color f = grey)
  /\ not_truthy (fillStyleId node) = Normal true
  /\ children node = Absent.

Definition hardcoded_fill_issue (node : Node) : DesignIssue :=
  {| issue_type := "Colour/Token"; layer := name node; nodeId := id node;
     detail := "Layer uses a hardcoded fill colour. Must use a Colour Style/Token.";
     fixable := true |}.

Definition button_style_issue (node : Node) : DesignIssue :=
  {| issue_type := "Button/Style"; layer := name node; nodeId := id node;
     detail := "Button uses hardcoded colour. Must use Primary Button token (Indigo/600).";
     fixable := true |}.

Definition text_colour_issue (node : Node) : DesignIssue :=
  {| issue_type := "Text/Colour"; layer := name node; nodeId := id node;
     detail := "Text uses hardcoded colour instead of design system token. Should use Functional/Carbon for text.";
     fixable := true |}.



(** A node with a hardcoded visible solid fill: a fill list holding a
    visible solid paint, and no fill-style reference. *)
Definition hardcoded_fill (node : Node) : Prop :=
  exists l f, fills node = Val l /\ find_solid l = Some f
              /\ not_truthy (fillStyleId node) = Normal true.

(** A property whose getter does not throw. *)
Definition readable {A} (p : prop A) : Prop :=
  match p with
  | Raises _ => False
  | _ => True
  end.

Definition typography_issue (node : Node) (size : string) : DesignIssue :=
  {| issue_type := "Typography"; layer := name node; nodeId := id node;
     detail := "Uses non-standard font size (" ++ size ++ "px). Recommended size is 14px.";
     fixable := true |}.

(** The issues of one type among those reported. *)
Definition of_type (ty : string) (issues : list DesignIssue) : list DesignIssue :=
  List.filter (fun i => String.eqb (issue_type i) ty) issues.

(** ** The token loader in the words of the specification *)

(** A credential that is absent or blank. *)
Definition absent_or_blank (c : TokenAware.MCPConfig) : Prop :=
  TokenAware.figmaToken c = None
  \/ exists t, TokenAware.figmaToken c = Some t /\ Js.trim_is_empty t = true.

(** The first request of the remote load. *)
Definition file_url (c : TokenAware.MCPConfig) : string :=
  TokenAware.baseUrl c ++ "/files/" ++ TokenAware.fileKey c.

(** The colour tokens the local fallback takes from the paint styles of
    the document: each style whose first paint is solid, under its name. *)
Definition local_colours (ps : list TokenAware.PaintStyle)
    (cfg : TokenAware.DesignSystemConfig) : TokenAware.DesignSystemConfig :=
  foldl (fun acc style =>
           match TokenAware.paints style with
           | paint :: _ =>
               if String.eqb (paint_type paint) "SOLID"
               then TokenAware.set_colour (TokenAware.ps_name style) (color paint) acc
               else acc
           | [] => acc
           end) cfg ps.

(** A computation that sends no request. *)
Definition silent {A} (m : M TokenAware.State A) : Prop :=
  forall st, TokenAware.requests (snd (m st)) = TokenAware.requests st.

(** A button whose fill is the built-in default primary colour. *)
Definition blue_button : Node :=
  {| id := "1:8"; name := "btn-submit"; type := "RECTANGLE"; visible := Val true;
     locked := Val false;
     fills := Val [ {| paint_type := "SOLID";
                       color := {| r := 0.196; g := 0.275; b := 0.898 |};
                       opacity := 1; paint_visible := true; blendMode := "NORMAL" |} ];
     fillStyleId := Val ""; fontSize := Absent; fontName := Absent; children := Absent |}.

(** A world whose document has one solid paint style and whose text
    styles cannot be read, with a fault in the mock tables. *)
Definition brand : TokenAware.PaintStyle :=
  {| TokenAware.ps_name := "Brand/Red"; TokenAware.paints := [solid {| r := 1; g := 0; b := 0 |}] |}.

Definition faulty : TokenAware.World :=
  {| TokenAware.net := fun _ => Throw "Failed to fetch";
     TokenAware.deadline := None;
     TokenAware.mock_fault := Some "Maximum call stack size exceeded";
     TokenAware.getLocalPaintStyles := Normal [brand];
     TokenAware.getLocalTextStyles := Throw "documentAccess: dynamic-page";
     TokenAware.findAllComponentSets := Normal [] |}.

(** A state whose credential is set. *)
Definition with_credential : TokenAware.State :=
  {| TokenAware.designSystemConfig := TokenAware.DEFAULT_CONFIG;
     TokenAware.globalConfig :=
       Some {| TokenAware.figmaToken := Some "figd_token";
               TokenAware.fileKey := "KkqX7OKAggFzvfB0CMUwBz";
               TokenAware.baseUrl := "https://api.figma.com/v1" |};
     TokenAware.requests := []; TokenAware.settled := 0 |}.

(** A world where the timer fires before the first response. *)
Definition slow : TokenAware.World :=
  {| TokenAware.net := fun _ => Normal {| TokenAware.ok := true; TokenAware.statusText := "OK";
                                         TokenAware.json := Throw "Unexpected end of JSON input" |};
     TokenAware.deadline := Some 0;
     TokenAware.mock_fault := None;
     TokenAware.getLocalPaintStyles := Normal [];
     TokenAware.getLocalTextStyles := Normal [];
     TokenAware.findAllComponentSets := Normal [] |}.

(** ** The button-style rule in the words of the specification *)

(** A colour channel of the data model: a number of [0, 1]. *)
Definition in_unit (x : float) : bool := (0 <=? x)%float && (x <=? 1)%float.

Definition in_gamut (c : RGB) : bool :=
  in_unit (r c) && in_unit (g c) && in_unit (b c).

(** Two channels differ by at least 0.01. *)
Definition differs_at_least (x y : float) : bool := (0.01 <=? abs (x - y))%float.

(** Two colours differ by at least 0.01 in some RGB channel. *)
Definition mismatch (c p : RGB) : bool :=
  differs_at_least (r c) (r p) || differs_at_least (g c) (g p)
  || differs_at_least (b c) (b p).

(** [f] is the first visible solid fill of [l]. *)
Definition first_visible_solid (l : list Paint) (f : Paint) : Prop :=
  exists before after,
    l = (before ++ f :: after)%list
    /\ Forall (fun p => is_visible_solid p = false) before
    /\ is_visible_solid f = true.

(** When the rule is to emit an issue, on a fill list [l] against the
    primary-button colour [p]: (a) the first visible solid fill differs
    from [p] by at least 0.01 in some channel, or (b) the list is not
    empty but holds no visible solid fill. *)
Definition flagged (p : RGB) (l : list Paint) : Prop :=
  (exists f, first_visible_solid l f /\ mismatch (color f) p = true)
  \/ (l <> [] /\ Forall (fun q => is_visible_solid q = false) l).

(** Values of the binary64 format that are numbers, and that are finite. *)
Definition is_number (f : spec_float) : Prop :=
  match f with S754_nan => False | _ => True end.

Definition is_bounded (f : spec_float) : Prop :=
  match f with S754_zero _ | S754_finite _ _ _ => True | _ => False end.

(** ** Scenario nodes *)

(** A rectangle named "Primary Button" with one visible solid grey fill
    and no fill style. *)
Definition primary_button : Node :=
  {| id := "1:2"; name := "Primary Button"; type := "RECTANGLE"; visible := Val true;
     locked := Val false; fills := Val [solid grey]; fillStyleId := Val "";
     fontSize := Absent; fontName := Absent; children := Absent |}.

Definition inter : FontName := {| family := "Inter"; style := "Regular" |}.

(** A text node of size 18 in one font, with a hardcoded fill. *)
Definition heading : Node :=
  {| id := "1:3"; name := "Title"; type := "TEXT"; visible := Val true;
     locked := Val false; fills := Val [solid grey]; fillStyleId := Val "";
     fontSize := Val 18%float; fontName := Val (OneFont inter); children := Absent |}.

(** The same text node with several fonts on its characters. *)
Definition mixed_text : Node :=
  {| id := "1:4"; name := "Title"; type := "TEXT"; visible := Val true;
     locked := Val false; fills := Val [solid grey]; fillStyleId := Val "";
     fontSize := Mixed; fontName := Mixed; children := Absent |}.

(** A locked rectangle with a hardcoded fill. *)
Definition locked_rect : Node :=
  {| id := "1:5"; name := "Card"; type := "RECTANGLE"; visible := Val true;
     locked := Val true; fills := Val [solid grey]; fillStyleId := Val "";
     fontSize := Absent; fontName := Absent; children := Absent |}.

(** A frame whose [children] getter throws. *)
Definition broken_frame : Node :=
  {| id := "1:6"; name := "Broken"; type := "FRAME"; visible := Val true;
     locked := Val false; fills := Val [solid grey]; fillStyleId := Val "";
     fontSize := Absent; fontName := Absent; children := Raises "node was removed" |}.

(** A hidden group over the button, and a page (no [visible] property)
    over the button. *)
Definition hidden_group : Node :=
  {| id := "1:7"; name := "Group"; type := "GROUP"; visible := Val false;
     locked := Val false; fills := Absent; fillStyleId := Absent;
     fontSize := Absent; fontName := Absent; children := Val [primary_button] |}.

Definition page : Node :=
  {| id := "0:1"; name := "Page 1"; type := "PAGE"; visible := Absent;
     locked := Absent; fills := Absent; fillStyleId := Absent;
     fontSize := Absent; fontName := Absent; children := Val [hidden_group; primary_button] |}.

Definition fonts_load : FontName -> completion unit := fun _ => Normal tt.

(** A world with no network, no deadline and no local styles. *)
Definition offline : TokenAware.World :=
  {| TokenAware.net := fun _ => Throw "Failed to fetch";
     TokenAware.deadline := None;
     TokenAware.mock_fault := None;
     TokenAware.getLocalPaintStyles := Normal [];
     TokenAware.getLocalTextStyles := Normal [];
     TokenAware.findAllComponentSets := Normal [] |}.

(** ** What an issue says *)



(** A node with a fill list that holds a visible solid paint somewhere and
    no fill-style reference. *)
Definition unstyled_solid (node : Node) : Prop :=
  exists l, fills node = Val l
            /\ not_truthy (fillStyleId node) = Normal true
            /\ Exists (fun p => paint_type p = "SOLID" /\ paint_visible p = true) l.

(** The issue of the hardcoded-fill rule of the token-aware file. *)
Definition token_fill_issue (node : Node) : DesignIssue :=
  if String.eqb (type node) "TEXT" then text_colour_issue node
  else hardcoded_fill_issue node.

(** ** What a fix may change *)


(** ** Nodes the fix engine refuses *)

(** A text node whose font cannot be loaded: its font reference is
    undefined, or names one font that [loadFontAsync] rejects. *)
Definition font_unavailable (lf : FontName -> completion unit) (node : Node) : Prop :=
  fontName node = Absent
  \/ exists f e, fontName node = Val (OneFont f) /\ lf f = Throw e.

(** The message of an error caught by the handler of [applyFix]. *)
Definition runtime_message (e : string) : string :=
  "Runtime error during fix: " ++ (if Js.truthy_string e then e else "An unknown error occurred.").

(** ** Stores that only grow *)

(** Every key of [m] is a key of [m']. *)
Definition keeps_keys {A} (m m' : gmap string A) : Prop :=
  forall k, is_Some (m !! k) -> is_Some (m' !! k).

(** [cfg'] has every colour, text-style and component key of [cfg], and
    the same spacing tokens. *)
Definition store_grows (cfg cfg' : TokenAware.DesignSystemConfig) : Prop :=
  keeps_keys (TokenAware.colourTokens cfg) (TokenAware.colourTokens cfg')
  /\ keeps_keys (TokenAware.textStyles cfg) (TokenAware.textStyles cfg')
  /\ keeps_keys (TokenAware.componentTokens cfg) (TokenAware.componentTokens cfg')
  /\ TokenAware.spacingTokens cfg' = TokenAware.spacingTokens cfg.

(** A computation that removes no token, however it ends. *)
Definition growing {A} (m : M TokenAware.State A) : Prop :=
  forall st, store_grows (TokenAware.designSystemConfig st)
                         (TokenAware.designSystemConfig (snd (m st))).

(** The request for the details of a style. *)
Definition style_url (c : TokenAware.MCPConfig) (styleId : string) : string :=
  TokenAware.baseUrl c ++ "/styles/" ++ styleId.

(** The state after one more request. *)
Definition requested (url : string) (st : TokenAware.State) : TokenAware.State :=
  {| TokenAware.designSystemConfig := TokenAware.designSystemConfig st;
     TokenAware.globalConfig := TokenAware.globalConfig st;
     TokenAware.requests := (TokenAware.requests st ++ [url])%list;
     TokenAware.settled := TokenAware.settled st |}.

(** ** Scenarios of the remote load *)

(** The request for the components of the file. *)
Definition components_url (c : TokenAware.MCPConfig) : string :=
  TokenAware.baseUrl c ++ "/files/" ++ TokenAware.fileKey c ++ "/components".

Definition no_details : TokenAware.StyleDetails :=
  {| TokenAware.sd_fills := None; TokenAware.sd_fontFamily := None;
     TokenAware.sd_fontSize := None; TokenAware.sd_fontWeight := None;
     TokenAware.sd_lineHeight := None; TokenAware.sd_letterSpacing := None |}.

Definition red : RGB := {| r := 1; g := 0; b := 0 |}.

(** A file with one fill style and no document. *)
Definition brand_meta : TokenAware.StyleMeta :=
  {| TokenAware.styleType := "FILL"; TokenAware.style_name := "Brand/Red" |}.

Definition design_file : TokenAware.Response :=
  {| TokenAware.ok := true; TokenAware.statusText := "OK";
     TokenAware.json :=
       Normal (TokenAware.FileBody
                 {| TokenAware.styles := Some [("1:10", brand_meta)];
                    TokenAware.document := false |}) |}.

Definition brand_details : TokenAware.Response :=
  {| TokenAware.ok := true; TokenAware.statusText := "OK";
     TokenAware.json :=
       Normal (TokenAware.StyleBody
                 {| TokenAware.sd_fills :=
                      Some [ {| TokenAware.pj_type := "SOLID"; TokenAware.pj_color := red |} ];
                    TokenAware.sd_fontFamily := None; TokenAware.sd_fontSize := None;
                    TokenAware.sd_fontWeight := None; TokenAware.sd_lineHeight := None;
                    TokenAware.sd_letterSpacing := None |}) |}.

(** A world whose API serves that file and that style. *)
Definition online : TokenAware.World :=
  {| TokenAware.net := fun url =>
       if String.eqb url "https://api.figma.com/v1/files/KkqX7OKAggFzvfB0CMUwBz"
       then Normal design_file
       else if String.eqb url "https://api.figma.com/v1/styles/1:10"
       then Normal brand_details
       else Throw "Failed to fetch";
     TokenAware.deadline := None;
     TokenAware.mock_fault := None;
     TokenAware.getLocalPaintStyles := Normal [];
     TokenAware.getLocalTextStyles := Normal [];
     TokenAware.findAllComponentSets := Normal [] |}.

(** A world whose API refuses the credential. *)
Definition forbidden : TokenAware.World :=
  {| TokenAware.net := fun _ =>
       Normal {| TokenAware.ok := false; TokenAware.statusText := "Forbidden";
                 TokenAware.json := Throw "Unexpected end of JSON input" |};
     TokenAware.deadline := None;
     TokenAware.mock_fault := None;
     TokenAware.getLocalPaintStyles := Normal [];
     TokenAware.getLocalTextStyles := Normal [];
     TokenAware.findAllComponentSets := Normal [] |}.

(** A world whose file has a document and whose components body has no
    [meta.components]. *)
Definition bare_file : TokenAware.Response :=
  {| TokenAware.ok := true; TokenAware.statusText := "OK";
     TokenAware.json :=
       Normal (TokenAware.FileBody
                 {| TokenAware.styles := None; TokenAware.document := true |}) |}.

Definition bare_components : TokenAware.Response :=
  {| TokenAware.ok := true; TokenAware.statusText := "OK";
     TokenAware.json :=
       Normal (TokenAware.ComponentsBody {| TokenAware.components := None |}) |}.

Definition bare : TokenAware.World :=
  {| TokenAware.net := fun url =>
       if String.eqb url "https://api.figma.com/v1/files/KkqX7OKAggFzvfB0CMUwBz"
       then Normal bare_file
       else Normal bare_components;
     TokenAware.deadline := None;
     TokenAware.mock_fault := None;
     TokenAware.getLocalPaintStyles := Normal [];
     TokenAware.getLocalTextStyles := Normal [];
     TokenAware.findAllComponentSets := Normal [] |}.

(** The state in which the race of the remote load starts. *)
Definition started (st : TokenAware.State) : TokenAware.State :=
  {| TokenAware.designSystemConfig := TokenAware.designSystemConfig st;
     TokenAware.globalConfig := TokenAware.globalConfig st;
     TokenAware.requests := TokenAware.requests st;
     TokenAware.settled := 0 |}.

(* ================================================================= *)
(** * [code.ts]: the message handler *)

Module LocalUi.

(** What the plugin posts to its UI. *)
Inductive UiMessage : Type :=
  | analysis_result (issues : list DesignIssue) (message : string) (status : Status)
  | zoom_result (status : Status) (nodeId : string) (message : option string)
  | fix_result (status : Status) (message : string) (nodeId : string)
  | selection_changed (selectionIds : list string).

(** A message of the UI, by the fields the handler reads. *)
Record Msg : Type := mkMsg {
  msg_type : string;
  msg_nodeId : string;
  msg_issueType : string }.

(** The document, the nodes the viewport was moved to (their ids, in
    order) and the messages posted so far. *)
Record Plugin : Type := mkPlugin {
  doc : Document;
  zoomed : list string;
  posted : list UiMessage }.

Definition postMessage (u : UiMessage) : M Plugin unit :=
  modify (fun p => {| doc := doc p; zoomed := zoomed p; posted := (posted p ++ [u])%list |}).

Definition scrollAndZoomIntoView (node : Node) : M Plugin unit :=
  modify (fun p => {| doc := doc p; zoomed := (zoomed p ++ [id node])%list;
                      posted := posted p |}).

(** [await figma.getNodeByIdAsync(nodeId)]: the call rejects with [e]
    when the host has the fault [fault nodeId = Some e], and otherwise
    resolves to the node stored under the id, or to null. *)
Definition getNodeByIdAsync (fault : string -> option string) (nodeId : string)
    : M Plugin (option Node) :=
  match fault nodeId with
  | Some e => throw e
  | None => p <- get;; ret (doc p !! nodeId)
  end.

(** A computation on the document, inside the plugin. *)
Definition on_document {A} (m : M Document A) : M Plugin A :=
  fun p => let '(c, d) := m (doc p) in
           (c, {| doc := d; zoomed := zoomed p; posted := posted p |}).

(** The four characters that end the source's literal after 'found! ',
    as the bytes of their UTF-8 encoding. *)
Definition tail_characters : string :=
  string_of_list_ascii (map ascii_of_nat [195; 176; 197; 184; 197; 189; 226; 128; 176]%nat).

(** [figma.ui.onmessage]; [selection] is [figma.currentPage.selection]
    when the message arrives, [fault] the ids on which the host's node
    lookup rejects.  The length of an array is printed by its decimal
    digits.  [applyFix] starts with the same lookup, outside its [try]:
    when the lookup rejects, so do [applyFix] and the handler. *)
Definition onmessage (loadFontAsync : FontName -> completion unit)
    (fault : string -> option string)
    (selection : list Node) (msg : Msg) : M Plugin unit :=
  if String.eqb (msg_type msg) "run-analysis" then
    outcome <-
      (if (length selection =? 0)%nat then
         ret ([], "No frames or layers selected. Please select one or more layers to analyze.",
              error)
       else
         issues <- lift (LocalRules.runAnalysis selection);;
         if (0 <? length issues)%nat then
           ret (issues,
                "Found " ++ Js.dec (Z.of_nat (length issues))
                ++ " design issues in selected layers.", success)
         else
           ret (issues, "Analysis complete. No design issues found! " ++ tail_characters,
                success));;
    let '(issues, message, status) := outcome in
    postMessage (analysis_result issues message status)
  else if String.eqb (msg_type msg) "zoom-to-layer" then
    found <- getNodeByIdAsync fault (msg_nodeId msg);;
    match found with
    | Some node =>
        scrollAndZoomIntoView node;;
        postMessage (zoom_result success (msg_nodeId msg) None)
    | None =>
        postMessage (zoom_result error (msg_nodeId msg) (Some "Layer not found."))
    end
  else if String.eqb (msg_type msg) "apply-fix" then
    result <- (getNodeByIdAsync fault (msg_nodeId msg);;
               on_document (LocalRules.applyFix loadFontAsync (msg_nodeId msg)
                                                (msg_issueType msg)));;
    postMessage (fix_result (status result) (message result)
                            (msg_nodeId msg))
  else ret tt.

(** The listener of ['selectionchange']. *)
Definition on_selectionchange (selection : list Node) : M Plugin unit :=
  postMessage (selection_changed (map id selection)).

End LocalUi.


(** The plugin after one more message to the UI. *)
Definition replied (u : LocalUi.UiMessage) (p : LocalUi.Plugin) : LocalUi.Plugin :=
  {| LocalUi.doc := LocalUi.doc p; LocalUi.zoomed := LocalUi.zoomed p;
     LocalUi.posted := (LocalUi.posted p ++ [u])%list |}.

(** A plugin with the locked rectangle of the scenario as its document. *)
Definition idle : LocalUi.Plugin :=
  {| LocalUi.doc := {[ "1:5" := locked_rect ]}; LocalUi.zoomed := []; LocalUi.posted := [] |}.

(** ** What a fix has written, read from the document *)

(** [doc'] is [doc] with the fill list of the node stored under [nodeId]
    replaced by a single opaque solid paint of colour [c]: the node read
    back from [doc'] has that one paint as its fill list and is [node] in
    every other property, and every other id resolves as before. *)
Definition painted (c : RGB) (nodeId : string) (node : Node) (doc doc' : Document) : Prop :=
  (exists node',
      doc' !! nodeId = Some node'
      /\ fills node' = Val [ {| paint_type := "SOLID"; color := c; opacity := 1;
                                paint_visible := true; blendMode := "NORMAL" |} ]
      /\ id node' = id node /\ name node' = name node /\ type node' = type node
      /\ visible node' = visible node /\ locked node' = locked node
      /\ fillStyleId node' = fillStyleId node /\ fontSize node' = fontSize node
      /\ fontName node' = fontName node /\ children node' = children node)
  /\ forall other, other <> nodeId -> doc' !! other = doc !! other.

(** [doc'] is [doc] with the font size of the node stored under [nodeId]
    set to [x]: the node read back from [doc'] has font size [x] and is
    [node] in every other property, and every other id resolves as
    before. *)
Definition resized (x : float) (nodeId : string) (node : Node) (doc doc' : Document) : Prop :=
  (exists node',
      doc' !! nodeId = Some node'
      /\ fontSize node' = Val x
      /\ id node' = id node /\ name node' = name node /\ type node' = type node
      /\ visible node' = visible node /\ locked node' = locked node
      /\ fills node' = fills node /\ fillStyleId node' = fillStyleId node
      /\ fontName node' = fontName node /\ children node' = children node)
  /\ forall other, other <> nodeId -> doc' !! other = doc !! other.

(** Whether the store holds a 'Primary/Blue/600' colour that the colour
    [c] matches within the tolerance of the button rule. *)
Definition matches_primary_token (cfg : TokenAware.DesignSystemConfig) (c : RGB) : bool :=
  match TokenAware.colourTokens cfg !! "Primary/Blue/600" with
  | Some p => matches_colour c p
  | None => false
  end.

(** A world whose API serves a file with one fill style, named
    'Primary/Blue/600', whose paint is the grey of the scenario. *)
Definition grey_primary_file : TokenAware.Response :=
  {| TokenAware.ok := true; TokenAware.statusText := "OK";
     TokenAware.json :=
       Normal (TokenAware.FileBody
                 {| TokenAware.styles :=
                      Some [("1:11", {| TokenAware.styleType := "FILL";
                                        TokenAware.style_name := "Primary/Blue/600" |})];
                    TokenAware.document := false |}) |}.

Definition grey_primary_details : TokenAware.Response :=
  {| TokenAware.ok := true; TokenAware.statusText := "OK";
     TokenAware.json :=
       Normal (TokenAware.StyleBody
                 {| TokenAware.sd_fills :=
                      Some [ {| TokenAware.pj_type := "SOLID";
                                TokenAware.pj_color := {| r := 0.5; g := 0.5; b := 0.5 |} |} ];
                    TokenAware.sd_fontFamily := None; TokenAware.sd_fontSize := None;
                    TokenAware.sd_fontWeight := None; TokenAware.sd_lineHeight := None;
                    TokenAware.sd_letterSpacing := None |}) |}.

Definition grey_primary : TokenAware.World :=
  {| TokenAware.net := fun url =>
       if String.eqb url "https://api.figma.com/v1/files/KkqX7OKAggFzvfB0CMUwBz"
       then Normal grey_primary_file
       else if String.eqb url "https://api.figma.com/v1/styles/1:11"
       then Normal grey_primary_details
       else Throw "Failed to fetch";
     TokenAware.deadline := None;
     TokenAware.mock_fault := None;
     TokenAware.getLocalPaintStyles := Normal [];
     TokenAware.getLocalTextStyles := Normal [];
     TokenAware.findAllComponentSets := Normal [] |}.

(* ================================================================= *)
(** * Properties *)

(** ** The monad *)

Lemma appends_ret {A} (a : A) : appends (ret a).
Proof. intros acc. unfold emitted, ret. simpl. by rewrite app_nil_r. Qed.

Lemma appends_throw {A} (e : string) : appends (@throw _ A e).
Proof. intros acc. unfold emitted, throw. simpl. by rewrite app_nil_r. Qed.

Lemma appends_lift {A} (c : completion A) : appends (lift c).
Proof. intros acc. unfold emitted, lift. simpl. by rewrite app_nil_r. Qed.

Lemma appends_push (i : DesignIssue) : appends (push i).
Proof. intros acc. reflexivity. Qed.

Lemma appends_bind {A B} (m : M (list DesignIssue) A) (k : A -> M (list DesignIssue) B) :
  appends m -> (forall a, appends (k a)) -> appends (bind m k).
Proof.
  intros Hm Hk acc. unfold emitted, bind.
  rewrite (Hm acc). destruct (m []) as [[a|e] out] eqn:E; simpl.
  - unfold emitted. rewrite E. simpl.
    rewrite (Hk a (acc ++ out)%list), (Hk a out). simpl.
    by rewrite app_assoc.
  - unfold emitted. rewrite E. reflexivity.
Qed.

Lemma appends_if {A} (c : bool) (m1 m2 : M (list DesignIssue) A) :
  appends m1 -> appends m2 -> appends (if c then m1 else m2).
Proof. by destruct c. Qed.

Create HintDb appends.
#[local] Hint Resolve appends_ret appends_throw appends_lift appends_push : appends.

Ltac appends_tac :=
  repeat first
    [ apply appends_ret | apply appends_throw | apply appends_lift | apply appends_push
    | apply appends_bind; [ | intros ? ]
    | apply appends_if
    | match goal with
      | |- appends (match ?x with _ => _ end) => destruct x
      | |- appends (let _ := ?x in _) => cbv zeta
      end ].

Lemma appends_for_of {A} (l : list A) (f : A -> M (list DesignIssue) unit) :
  Forall (fun x => appends (f x)) l -> appends (for_of l f).
Proof.
  induction 1 as [|x t Hx _ IH]; simpl.
  - apply appends_ret.
  - apply appends_bind; [exact Hx | intros _; exact IH].
Qed.

Lemma for_of_app {S A} (l1 l2 : list A) (f : A -> M S unit) (s : S) :
  for_of (l1 ++ l2) f s =
  match for_of l1 f s with
  | (Normal _, s') => for_of l2 f s'
  | (Throw e, s') => (Throw e, s')
  end.
Proof.
  revert s. induction l1 as [|x t IH]; intros s; simpl; [reflexivity|].
  unfold bind. destruct (f x s) as [[[]|e] s']; [apply IH | reflexivity].
Qed.

(** ** Induction on a node and the nodes below it *)

Lemma Node_nested_ind (P : Node -> Prop) :
  (forall n, (forall cs, children n = Val cs -> Forall P cs) -> P n) ->
  forall n, P n.
Proof.
  intros step.
  fix IH 1. intros n. apply step.
  destruct n as [i nm t v lk f fs fz fn ch]. simpl.
  destruct ch as [| |cs0|e]; try (intros cs Heq; discriminate).
  assert (Hall : Forall P cs0).
  { induction cs0 as [|c cs0 IHcs]; constructor; [apply IH | exact IHcs]. }
  intros cs Heq. congruence.
Qed.

(** ** The walk, for any rule block that only appends *)

Section WalkProperties.

Variable rules : Node -> M (list DesignIssue) unit.
Hypothesis rules_append : forall n, appends (rules n).

(** The loop over the children of [traverse] is [walk]. *)
Lemma traverse_eq (n : Node) :
  Walk.traverse rules n =
  (skip <- lift (skipped n);;
   if skip : bool then ret tt
   else rules n;;
        match children n with
        | Absent => ret tt
        | Mixed => throw TypeError_not_iterable
        | Raises e => throw e
        | Val cs => Walk.walk rules cs
        end).
Proof.
  destruct n as [i nm t v lk f fs fz fn ch]; simpl.
  destruct ch as [| |cs|e]; try reflexivity.
  replace (Walk.walk rules cs) with
    ((fix each (l : list Node) : M (list DesignIssue) unit :=
        match l with
        | [] => ret tt
        | child :: t0 => bind (Walk.traverse rules child) (fun _ => each t0)
        end) cs); [reflexivity|].
  unfold Walk.walk. induction cs as [|c cs IH]; simpl; [reflexivity | by rewrite IH].
Qed.

Lemma visited_eq (n : Node) :
  visited n =
  if is_visible n || is_container n
  then n :: match children n with
            | Val cs => flat_map visited cs
            | _ => []
            end
  else [].
Proof.
  destruct n as [i nm t v lk f fs fz fn ch]; simpl.
  destruct ch as [| |cs|e]; reflexivity.
Qed.

Lemma traverse_appends (n : Node) : appends (Walk.traverse rules n).
Proof.
  induction n as [n IH] using Node_nested_ind.
  rewrite traverse_eq.
  apply appends_bind; [apply appends_lift | intros skip].
  destruct skip; [apply appends_ret|].
  apply appends_bind; [apply rules_append | intros _].
  destruct (children n) as [| |cs|e] eqn:E; auto with appends.
  apply appends_for_of, (IH cs eq_refl).
Qed.

Lemma walk_appends (roots : list Node) : appends (Walk.walk rules roots).
Proof. apply appends_for_of, Forall_forall. intros n _. apply traverse_appends. Qed.

(** A node the guard skips leaves the issue list as it was, whatever is
    below it. *)
Lemma traverse_skipped (n : Node) (acc : list DesignIssue) :
  skipped n = Normal true -> Walk.traverse rules n acc = (Normal tt, acc).
Proof.
  intros H. rewrite traverse_eq. unfold bind, lift. rewrite H. reflexivity.
Qed.

(** A node the guard lets through has its rules run first, then its
    children walked in order. *)
Lemma traverse_entered (n : Node) :
  skipped n = Normal false ->
  Walk.traverse rules n =
  (rules n;;
   match children n with
   | Absent => ret tt
   | Mixed => throw TypeError_not_iterable
   | Raises e => throw e
   | Val cs => Walk.walk rules cs
   end).
Proof.
  intros H. rewrite traverse_eq. unfold bind at 1. unfold lift. rewrite H. reflexivity.
Qed.

Lemma skipped_visited (n : Node) (s : bool) :
  skipped n = Normal s -> s = negb (is_visible n || is_container n).
Proof.
  unfold skipped, is_visible, is_container, in_and_truthy.
  destruct (visible n) as [| |v|e]; intros [= <-];
    try destruct v;
    destruct (String.eqb (type n) "DOCUMENT"), (String.eqb (type n) "PAGE"); reflexivity.
Qed.

(** A walk that completes has emitted, in pre-order, what the rules emit
    on each visited node. *)
Lemma traverse_visited (n : Node) :
  forall acc out,
    Walk.traverse rules n acc = (Normal tt, out) ->
    out = (acc ++ flat_map (fun v => emitted (rules v)) (visited n))%list.
Proof.
  induction n as [n IH] using Node_nested_ind. intros acc out.
  rewrite traverse_eq, visited_eq. unfold bind at 1. unfold lift.
  destruct (skipped n) as [s|e] eqn:Hs; [|discriminate].
  rewrite <- (negb_involutive (is_visible n || is_container n)),
          <- (skipped_visited n s Hs).
  destruct s; simpl.
  - intros [= <-]. by rewrite app_nil_r.
  - unfold bind. rewrite (rules_append n acc).
    destruct (rules n []) as [[[]|e] new] eqn:Hr; [|discriminate].
    assert (Hnew : emitted (rules n) = new) by (unfold emitted; by rewrite Hr).
    rewrite Hnew. simpl.
    destruct (children n) as [| |cs|e] eqn:Hc; try discriminate.
    + intros [= <-]. by rewrite app_nil_r.
    + specialize (IH cs eq_refl). clear Hc Hr.
      rewrite app_assoc.
      generalize (acc ++ new)%list as acc'. unfold Walk.walk.
      revert out.
      induction IH as [|c cs Hc _ IHcs]; intros out acc'; simpl.
      * intros [= <-]. by rewrite app_nil_r.
      * unfold bind.
        destruct (Walk.traverse rules c acc') as [[[]|e] mid] eqn:Hm; [|discriminate].
        intros Hrest. apply Hc in Hm. subst mid.
        apply IHcs in Hrest. rewrite Hrest.
        by rewrite flat_map_app, app_assoc.
Qed.

Lemma walk_visited (roots : list Node) :
  forall acc out,
    Walk.walk rules roots acc = (Normal tt, out) ->
    out = (acc ++ flat_map (fun v => emitted (rules v)) (flat_map visited roots))%list.
Proof.
  unfold Walk.walk.
  induction roots as [|n roots IH]; intros acc out; simpl.
  - intros [= <-]. by rewrite app_nil_r.
  - unfold bind.
    destruct (Walk.traverse rules n acc) as [[[]|e] mid] eqn:Hm; [|discriminate].
    intros Hrest. apply traverse_visited in Hm. subst mid.
    apply IH in Hrest. rewrite Hrest.
    by rewrite flat_map_app, app_assoc.
Qed.


End WalkProperties.
(** ** The rule blocks only append *)

Lemma local_rules_append (n : Node) : appends (LocalRules.rules n).
Proof.
  unfold LocalRules.rules, LocalRules.rule4, LocalRules.rule5, LocalRules.rule6.
  appends_tac.
Qed.

Lemma token_rules_append (cfg : TokenAware.DesignSystemConfig) (n : Node) :
  appends (TokenAware.rules cfg n).
Proof.
  unfold TokenAware.rules, TokenAware.fill_rule, TokenAware.button_rule.
  appends_tac.
Qed.

(** ** C1: the analysis never raises and keeps partial results *)

Lemma token_runAnalysis_eq (w : TokenAware.World) (nodes : list Node) (st : TokenAware.State) :
  TokenAware.runAnalysis w nodes st =
  let st' := snd (TokenAware.loadDesignSystemViaMCP w st) in
  (Normal (TokenAware.analyse (TokenAware.designSystemConfig st') nodes), st').
Proof.
  unfold TokenAware.runAnalysis, bind, try_catch, get, ret.
  destruct (TokenAware.loadDesignSystemViaMCP w st) as [[[]|e] st']; reflexivity.
Qed.



(** ** C4: which nodes are visited, and in which order *)

Lemma skipped_hidden (n : Node) :
  in_and_truthy (visible n) = Normal false ->
  type n <> "DOCUMENT" -> type n <> "PAGE" ->
  skipped n = Normal true /\ visited n = [].
Proof.
  intros Hv Hd Hp.
  assert (Hs : skipped n = Normal true).
  { unfold skipped. rewrite Hv.
    apply String.eqb_neq in Hd, Hp. by rewrite Hd, Hp. }
  split; [exact Hs|].
  rewrite visited_eq. apply skipped_visited in Hs.
  by destruct (is_visible n || is_container n).
Qed.

Lemma skipped_container (n : Node) (v : bool) :
  type n = "DOCUMENT" \/ type n = "PAGE" ->
  in_and_truthy (visible n) = Normal v ->
  skipped n = Normal false /\ visited n = n :: flat_map visited (kids n).
Proof.
  intros Ht Hv.
  assert (Hc : is_container n = true).
  { unfold is_container. destruct Ht as [-> | ->]; reflexivity. }
  assert (Hs : skipped n = Normal false).
  { unfold skipped. rewrite Hv. unfold is_container in Hc.
    destruct (String.eqb (type n) "DOCUMENT"), (String.eqb (type n) "PAGE"), v;
      try reflexivity; discriminate. }
  split; [exact Hs|].
  rewrite visited_eq, Hc, orb_true_r. unfold kids.
  by destruct (children n).
Qed.

Lemma skipped_visible (n : Node) :
  in_and_truthy (visible n) = Normal true ->
  skipped n = Normal false /\ visited n = n :: flat_map visited (kids n).
Proof.
  intros Hv.
  assert (Hs : skipped n = Normal false) by (unfold skipped; by rewrite Hv).
  split; [exact Hs|].
  rewrite visited_eq. apply skipped_visited in Hs.
  destruct (is_visible n || is_container n); [|discriminate].
  unfold kids. by destruct (children n).
Qed.

(** C4. A node whose visibility flag is false and which is neither a
    document nor a page is skipped with its whole subtree and contributes
    no issue; a document or page node is entered whatever its visibility,
    like a visible node: its rules run, then its children are traversed in
    order; and a walk that completes has emitted the rules' issues along
    the depth-first pre-order of the visited nodes. *)
Theorem C4_traversal_order :
  (forall n acc,
      in_and_truthy (visible n) = Normal false ->
      type n <> "DOCUMENT" -> type n <> "PAGE" ->
      visited n = []
      /\ LocalRules.traverse n acc = (Normal tt, acc)
      /\ forall cfg, TokenAware.traverse cfg n acc = (Normal tt, acc))
  /\ (forall n v,
      (type n = "DOCUMENT" \/ type n = "PAGE") /\ in_and_truthy (visible n) = Normal v
      \/ in_and_truthy (visible n) = Normal true ->
      visited n = n :: flat_map visited (kids n)
      /\ LocalRules.traverse n = (LocalRules.rules n;; descend LocalRules.rules n)
      /\ forall cfg, TokenAware.traverse cfg n
                     = (TokenAware.rules cfg n;; descend (TokenAware.rules cfg) n))
  /\ (forall roots issues,
      LocalRules.walk roots [] = (Normal tt, issues) ->
      issues = flat_map (fun n => emitted (LocalRules.rules n)) (flat_map visited roots))
  /\ (forall cfg roots issues,
      TokenAware.walk cfg roots [] = (Normal tt, issues) ->
      issues = flat_map (fun n => emitted (TokenAware.rules cfg n)) (flat_map visited roots)).
Proof.
  split; [|split; [|split]].
  - intros n acc Hv Hd Hp.
    destruct (skipped_hidden n Hv Hd Hp) as [Hs Hvis].
    split; [exact Hvis|]. split; [|intros cfg]; by apply traverse_skipped.
  - intros n v H.
    assert (Hs : skipped n = Normal false /\ visited n = n :: flat_map visited (kids n)).
    { destruct H as [[Ht Hv] | Hv]; [by apply (skipped_container n v) | by apply skipped_visible]. }
    destruct Hs as [Hs Hvis].
    split; [exact Hvis|]. split; [|intros cfg]; by apply traverse_entered.
  - intros roots issues H.
    by apply (walk_visited _ local_rules_append) in H.
  - intros cfg roots issues H.
    by apply (walk_visited _ (token_rules_append cfg)) in H.
Qed.

(** On a page (which has no visibility flag) over a hidden group and a
    button, the walk emits the issues of the page and of the button below
    it, and nothing for the group or the copy of the button inside it. *)
Lemma C4_witness :
  emitted (LocalRules.walk [page])
  = flat_map (fun n => emitted (LocalRules.rules n)) [page; primary_button].
Proof.
  apply (proj1 (proj2 (proj2 C4_traversal_order)) [page]).
  vm_compute. reflexivity.
Defined.

(** ** C5: the preconditions of [applyFix], in order *)

Lemma traverse_ignores_lock (rules : Node -> M (list DesignIssue) unit) (n : Node)
    (lk : prop bool) :
  rules (set_locked n lk) = rules n ->
  Walk.traverse rules (set_locked n lk) = Walk.traverse rules n.
Proof.
  intros H. destruct n as [i nm t v l f fs fz fn ch]. simpl in *.
  unfold skipped. simpl. unfold set_locked in H. simpl in H. by rewrite H.
Qed.

(** C5. [applyFix] checks its preconditions in a fixed order and stops at
    the first that fails: an id that does not resolve gives 'Node not
    found or removed.'; otherwise a locked node gives 'Layer is locked.
    Manual fix needed.' whatever the issue type, and the document is left
    as it was; otherwise an issue type without a case gives 'Unknown issue
    type: <type>'.  The analysis does not read the lock: a node is
    reported the same locked or not. *)
Theorem C5_applyFix_preconditions :
  (forall lf cfg nodeId issueType (doc : Document),
      doc !! nodeId = None ->
      LocalRules.applyFix lf nodeId issueType doc
      = (Normal (failed "Node not found or removed."), doc)
      /\ TokenAware.applyFix lf cfg nodeId issueType doc
         = (Normal (failed "Node not found or removed."), doc))
  /\ (forall lf cfg nodeId issueType (doc : Document) node,
      doc !! nodeId = Some node ->
      in_and_truthy (locked node) = Normal true ->
      LocalRules.applyFix lf nodeId issueType doc
      = (Normal (failed "Layer is locked. Manual fix needed."), doc)
      /\ TokenAware.applyFix lf cfg nodeId issueType doc
         = (Normal (failed "Layer is locked. Manual fix needed."), doc))
  /\ (forall lf cfg nodeId issueType (doc : Document) node,
      doc !! nodeId = Some node ->
      in_and_truthy (locked node) = Normal false ->
      (~ In issueType local_cases ->
       LocalRules.applyFix lf nodeId issueType doc
       = (Normal (failed ("Unknown issue type: " ++ issueType)), doc))
      /\ (~ In issueType token_cases ->
          TokenAware.applyFix lf cfg nodeId issueType doc
          = (Normal (failed ("Unknown issue type: " ++ issueType)), doc)))
  /\ (forall node lk cfg,
      LocalRules.traverse (set_locked node lk) = LocalRules.traverse node
      /\ TokenAware.traverse cfg (set_locked node lk) = TokenAware.traverse cfg node).
Proof.
  split; [|split; [|split]].
  - intros lf cfg nodeId issueType doc Hnone.
    unfold LocalRules.applyFix, TokenAware.applyFix, bind, get. by rewrite Hnone.
  - intros lf cfg nodeId issueType doc node Hsome Hlocked.
    unfold LocalRules.applyFix, TokenAware.applyFix, bind, get, lift.
    by rewrite Hsome, Hlocked.
  - intros lf cfg nodeId issueType doc node Hsome Hlocked.
    unfold LocalRules.applyFix, TokenAware.applyFix, bind, get, lift.
    rewrite Hsome, Hlocked. unfold try_catch.
    split; intros Hty; simpl in Hty.
    + unfold LocalRules.dispatch.
      destruct (String.eqb_spec issueType "Colour/Token"); [subst; exfalso; apply Hty; auto 6|].
      destruct (String.eqb_spec issueType "Typography"); [subst; exfalso; apply Hty; auto 6|].
      destruct (String.eqb_spec issueType "Button/Style"); [subst; exfalso; apply Hty; auto 6|].
      reflexivity.
    + unfold TokenAware.dispatch.
      destruct (String.eqb_spec issueType "Text/Colour"); [subst; exfalso; apply Hty; auto 6|].
      destruct (String.eqb_spec issueType "Colour/Token"); [subst; exfalso; apply Hty; auto 6|].
      destruct (String.eqb_spec issueType "Typography"); [subst; exfalso; apply Hty; auto 6|].
      destruct (String.eqb_spec issueType "Button/Style"); [subst; exfalso; apply Hty; auto 6|].
      reflexivity.
  - intros node lk cfg.
    split; apply traverse_ignores_lock; by destruct node.
Qed.

(** The locked rectangle with a hardcoded fill is reported by the
    analysis, and its fix is refused without touching the document. *)
Lemma C5_witness :
  LocalRules.runAnalysis [locked_rect]
  = Normal [ {| issue_type := "Colour/Token"; layer := "Card"; nodeId := "1:5";
                detail := "Layer uses a hardcoded fill colour. Must use a Colour Style/Token.";
                fixable := true |} ]
  /\ LocalRules.applyFix fonts_load "1:5" "Colour/Token" {["1:5" := locked_rect]}
     = (Normal (failed "Layer is locked. Manual fix needed."), {["1:5" := locked_rect]})
  /\ TokenAware.applyFix fonts_load TokenAware.mockData "1:5" "Colour/Token"
       {["1:5" := locked_rect]}
     = (Normal (failed "Layer is locked. Manual fix needed."), {["1:5" := locked_rect]}).
Proof.
  split; [vm_compute; reflexivity|].
  apply (proj1 (proj2 C5_applyFix_preconditions)) with (node := locked_rect);
    vm_compute; reflexivity.
Defined.

(** ** The token loader with a blank credential *)

Lemma load_blank (w : TokenAware.World) (st : TokenAware.State) (c : TokenAware.MCPConfig) :
  TokenAware.globalConfig st = Some c ->
  TokenAware.blank_token c = true ->
  TokenAware.mock_fault w = None ->
  TokenAware.loadDesignSystemViaMCP w st
  = (Normal tt, TokenAware.with_config (fun _ => TokenAware.mockData) st).
Proof.
  intros Hc Hb Hm.
  unfold TokenAware.loadDesignSystemViaMCP, try_catch, bind, get.
  rewrite Hc, Hb.
  unfold TokenAware.loadMockDesignSystem, try_catch. by rewrite Hm.
Qed.

(** ** C2: the primary-button scenario *)

Lemma primary_button_local (node : Node) :
  primary_button_scenario node ->
  LocalRules.runAnalysis [node]
  = Normal [hardcoded_fill_issue node; button_style_issue node].
Proof.
  intros (Ht & Hn & Hv & (f & Hf & Hs & Hc) & Hfs & Hch).
  unfold LocalRules.runAnalysis, LocalRules.walk, Walk.walk, for_of, try_catch.
  unfold bind at 1. unfold LocalRules.traverse. rewrite traverse_eq.
  unfold skipped. rewrite Hv, Ht, Hch. unfold bind, lift, ret. simpl.
  unfold LocalRules.rules, LocalRules.rule4, LocalRules.rule5, LocalRules.rule6,
    bind, lift, ret, push, modify.
  rewrite Hf, Hfs, Ht, Hn. simpl. unfold find_solid. simpl. rewrite Hs, Hc.
  unfold hardcoded_fill_issue, button_style_issue. rewrite Hn.
  vm_compute. reflexivity.
Qed.

Lemma primary_button_token (cfg : TokenAware.DesignSystemConfig) (node : Node) :
  primary_button_scenario node ->
  TokenAware.colourTokens cfg !! "Primary/Blue/600" = Some {| r := 0.157; g := 0.220; b := 0.718 |} ->
  TokenAware.analyse cfg [node]
  = [hardcoded_fill_issue node; button_style_issue node].
Proof.
  intros (Ht & Hn & Hv & (f & Hf & Hs & Hc) & Hfs & Hch) Hp.
  unfold TokenAware.analyse, TokenAware.walk, Walk.walk, for_of, try_catch.
  unfold bind at 1. rewrite traverse_eq.
  unfold skipped. rewrite Hv, Ht, Hch. unfold bind, lift, ret. simpl.
  unfold TokenAware.rules, TokenAware.fill_rule, TokenAware.button_rule,
    bind, lift, ret, push, modify.
  rewrite Hf, Hfs, Ht, Hn, Hp. simpl. unfold find_solid. simpl. rewrite Hs, Hc.
  unfold hardcoded_fill_issue, button_style_issue. rewrite Hn.
  vm_compute. reflexivity.
Qed.

Lemma button_fix_local (lf : FontName -> completion unit) (doc : Document) (node : Node)
    (nodeId : string) (l : list Paint) :
  doc !! nodeId = Some node ->
  in_and_truthy (locked node) = Normal false ->
  type node = "RECTANGLE" -> fills node = Val l ->
  LocalRules.applyFix lf nodeId "Button/Style" doc
  = (Normal (succeeded "Applied Primary Button (Indigo/600) colour fill."),
     <[nodeId := set_fills node (solid_fill LocalRules.PRIMARY_BUTTON_COLOR_RGB)]> doc).
Proof.
  intros Hd Hl Ht Hf.
  unfold LocalRules.applyFix, bind, get, lift. rewrite Hd, Hl.
  unfold try_catch, LocalRules.dispatch. simpl.
  unfold bind, lift, instance_guard. rewrite Hf, Ht. reflexivity.
Qed.

Lemma button_fix_token (lf : FontName -> completion unit) (cfg : TokenAware.DesignSystemConfig)
    (doc : Document) (node : Node) (nodeId : string) (l : list Paint) :
  doc !! nodeId = Some node ->
  in_and_truthy (locked node) = Normal false ->
  type node = "RECTANGLE" -> fills node = Val l ->
  TokenAware.applyFix lf cfg nodeId "Button/Style" doc
  = (Normal (succeeded "Applied Primary Button (Indigo/600) colour fill."),
     <[nodeId := set_fills node
                   (solid_fill (TokenAware.token_or cfg "Primary/Blue/600"
                                  TokenAware.default_primary))]> doc).
Proof.
  intros Hd Hl Ht Hf.
  unfold TokenAware.applyFix, bind, get, lift. rewrite Hd, Hl.
  unfold try_catch, TokenAware.dispatch. simpl.
  unfold bind, lift, instance_guard. rewrite Hf, Ht. reflexivity.
Qed.

(** The scenario under any store: the fill issue, and the button-style
    issue unless the store's 'Primary/Blue/600' matches the grey. *)
Lemma primary_button_any_store (cfg : TokenAware.DesignSystemConfig) (node : Node) :
  primary_button_scenario node ->
  TokenAware.analyse cfg [node]
  = if matches_primary_token cfg grey
    then [hardcoded_fill_issue node]
    else [hardcoded_fill_issue node; button_style_issue node].
Proof.
  intros (Ht & Hn & Hv & (f & Hf & Hs & Hc) & Hfs & Hch).
  unfold TokenAware.analyse, TokenAware.walk, Walk.walk, for_of, try_catch.
  unfold bind at 1. rewrite traverse_eq.
  unfold skipped. rewrite Hv, Ht, Hch. unfold bind, lift, ret. simpl.
  unfold TokenAware.rules, TokenAware.fill_rule, TokenAware.button_rule,
    bind, lift, ret, push, modify.
  rewrite Hf, Hfs, Ht, Hn. simpl. unfold find_solid. simpl. rewrite Hs, Hc.
  unfold hardcoded_fill_issue, button_style_issue, matches_primary_token. rewrite Hn.
  change (button_name "Primary Button") with true. cbv iota.
  destruct (TokenAware.colourTokens cfg !! "Primary/Blue/600") as [p|];
    [destruct (matches_colour grey p)|]; reflexivity.
Qed.

(** Reading back a node whose fills were set to one solid paint. *)
Lemma painted_set_fills (c : RGB) (nodeId : string) (node : Node) (doc : Document) :
  painted c nodeId node doc (<[nodeId := set_fills node (solid_fill c)]> doc).
Proof.
  split.
  - exists (set_fills node (solid_fill c)). rewrite lookup_insert_eq.
    repeat split; reflexivity.
  - intros other Hne. by rewrite lookup_insert_ne.
Qed.

(** Reading back a node whose font size was set. *)
Lemma resized_set_fontSize (x : float) (nodeId : string) (node : Node) (doc : Document) :
  resized x nodeId node doc (<[nodeId := set_fontSize node x]> doc).
Proof.
  split.
  - exists (set_fontSize node x). rewrite lookup_insert_eq.
    repeat split; reflexivity.
  - intros other Hne. by rewrite lookup_insert_ne.
Qed.

(** C2, as the code has it.  For a visible rectangle named "Primary
    Button" with exactly one visible solid fill of RGB (0.5, 0.5, 0.5)
    and no fill-style reference, [runAnalysis] of [code.ts] emits exactly
    two issues for it, the hardcoded-fill issue (type 'Colour/Token') and
    then the button-style issue (type 'Button/Style'), and
    [applyFix(nodeId, 'Button/Style')] on that node (resolved by its id
    and not locked) returns success and replaces its fill list with a
    single opaque solid paint at the primary-button colour: the node read
    back from the document has that one paint and is otherwise
    unchanged.  In the token-aware implementation, for every world and
    every state before the load, the issues are the same two unless the
    store left by the load holds a 'Primary/Blue/600' colour that the
    grey matches within the tolerance, in which case the hardcoded-fill
    issue is the only one; the fix succeeds and writes one opaque solid
    paint of the store's 'Primary/Blue/600', or of the built-in default
    when the store has none.  After a load with a blank credential the
    store's colour is (0.157, 0.220, 0.718) and the issues are the two. *)
Theorem C2_primary_button_scenario :
  forall (node : Node) (doc : Document) (lf : FontName -> completion unit),
    primary_button_scenario node ->
    doc !! id node = Some node ->
    in_and_truthy (locked node) = Normal false ->
    (LocalRules.runAnalysis [node]
     = Normal [hardcoded_fill_issue node; button_style_issue node]
     /\ LocalRules.applyFix lf (id node) "Button/Style" doc
        = (Normal (succeeded "Applied Primary Button (Indigo/600) colour fill."),
           <[id node := set_fills node (solid_fill LocalRules.PRIMARY_BUTTON_COLOR_RGB)]> doc)
     /\ painted {| r := 0.196; g := 0.275; b := 0.898 |} (id node) node doc
          (snd (LocalRules.applyFix lf (id node) "Button/Style" doc)))
    /\ (forall w st,
          let st' := snd (TokenAware.loadDesignSystemViaMCP w st) in
          let cfg := TokenAware.designSystemConfig st' in
          TokenAware.runAnalysis w [node] st
          = (Normal (if matches_primary_token cfg grey
                     then [hardcoded_fill_issue node]
                     else [hardcoded_fill_issue node; button_style_issue node]), st')
          /\ fst (TokenAware.applyFix lf cfg (id node) "Button/Style" doc)
             = Normal (succeeded "Applied Primary Button (Indigo/600) colour fill.")
          /\ painted (match TokenAware.colourTokens cfg !! "Primary/Blue/600" with
                      | Some p => p
                      | None => {| r := 0.196; g := 0.275; b := 0.898 |}
                      end) (id node) node doc
               (snd (TokenAware.applyFix lf cfg (id node) "Button/Style" doc)))
    /\ (forall w st c,
          TokenAware.globalConfig st = Some c ->
          TokenAware.blank_token c = true ->
          TokenAware.mock_fault w = None ->
          exists st',
            TokenAware.runAnalysis w [node] st
            = (Normal [hardcoded_fill_issue node; button_style_issue node], st')
            /\ TokenAware.colourTokens (TokenAware.designSystemConfig st') !! "Primary/Blue/600"
               = Some {| r := 0.157; g := 0.220; b := 0.718 |}
            /\ TokenAware.applyFix lf (TokenAware.designSystemConfig st') (id node)
                 "Button/Style" doc
               = (Normal (succeeded "Applied Primary Button (Indigo/600) colour fill."),
                  <[id node := set_fills node
                                 (solid_fill {| r := 0.157; g := 0.220; b := 0.718 |})]> doc)
            /\ painted {| r := 0.157; g := 0.220; b := 0.718 |} (id node) node doc
                 (snd (TokenAware.applyFix lf (TokenAware.designSystemConfig st') (id node)
                         "Button/Style" doc))).
Proof.
  intros node doc lf Hsc Hdoc Hlock.
  pose proof Hsc as (Ht & _ & _ & (f & Hf & _) & _).
  split; [|split].
  - rewrite (button_fix_local lf doc node _ [f] Hdoc Hlock Ht Hf).
    split; [by apply primary_button_local|]. split; [reflexivity|].
    apply (painted_set_fills LocalRules.PRIMARY_BUTTON_COLOR_RGB).
  - intros w st. cbv zeta. rewrite token_runAnalysis_eq. cbv zeta.
    set (cfg := TokenAware.designSystemConfig (snd (TokenAware.loadDesignSystemViaMCP w st))).
    rewrite (primary_button_any_store cfg node Hsc).
    rewrite (button_fix_token lf cfg doc node _ [f] Hdoc Hlock Ht Hf).
    split; [reflexivity|]. split; [reflexivity|].
    apply (painted_set_fills
             (TokenAware.token_or cfg "Primary/Blue/600" TokenAware.default_primary)).
  - intros w st c Hc Hb Hm.
    exists (TokenAware.with_config (fun _ => TokenAware.mockData) st).
    rewrite token_runAnalysis_eq, (load_blank w st c Hc Hb Hm).
    cbv beta iota zeta delta [snd TokenAware.with_config TokenAware.designSystemConfig].
    assert (Hp : TokenAware.colourTokens TokenAware.mockData !! "Primary/Blue/600"
                 = Some {| r := 0.157; g := 0.220; b := 0.718 |})
      by (vm_compute; reflexivity).
    split; [by rewrite (primary_button_token _ node Hsc Hp)|].
    split; [exact Hp|].
    rewrite (button_fix_token lf _ doc node _ [f] Hdoc Hlock Ht Hf).
    unfold TokenAware.token_or. rewrite Hp.
    split; [reflexivity|].
    apply (painted_set_fills {| r := 0.157; g := 0.220; b := 0.718 |}).
Qed.

Lemma primary_button_in_scenario : primary_button_scenario primary_button.
Proof.
  repeat split; try reflexivity.
  exists (solid grey). repeat split; reflexivity.
Qed.

(** The scenario on the button of the scenario nodes, in a document
    holding it, in [code.ts]. *)
Lemma C2_witness :
  LocalRules.runAnalysis [primary_button]
  = Normal [hardcoded_fill_issue primary_button; button_style_issue primary_button]
  /\ LocalRules.applyFix fonts_load "1:2" "Button/Style" {["1:2" := primary_button]}
     = (Normal (succeeded "Applied Primary Button (Indigo/600) colour fill."),
        <["1:2" := set_fills primary_button (solid_fill LocalRules.PRIMARY_BUTTON_COLOR_RGB)]>
          {["1:2" := primary_button]})
  /\ painted {| r := 0.196; g := 0.275; b := 0.898 |} "1:2" primary_button
       {["1:2" := primary_button]}
       (snd (LocalRules.applyFix fonts_load "1:2" "Button/Style" {["1:2" := primary_button]})).
Proof.
  refine (proj1 (C2_primary_button_scenario primary_button {["1:2" := primary_button]}
                   fonts_load primary_button_in_scenario _ _));
    vm_compute; reflexivity.
Defined.

(** In the token-aware implementation the scenario's button gets only
    the hardcoded-fill issue when the file's own 'Primary/Blue/600' style
    is the grey of the button. *)
Lemma C2_counterexample :
  primary_button_scenario primary_button
  /\ fst (TokenAware.runAnalysis grey_primary [primary_button] with_credential)
     = Normal [hardcoded_fill_issue primary_button].
Proof.
  split; [exact primary_button_in_scenario | vm_compute; reflexivity].
Qed.

(** ** C6: a text node with mixed fonts *)

Lemma snd_try_catch_ret {S} (m : M S unit) (s : S) :
  snd (try_catch m (fun _ => ret tt) s) = snd (m s).
Proof. unfold try_catch. by destruct (m s) as [[[]|e] s']. Qed.







(** ** C7: a text node of a non-standard size *)

Lemma local_text_rules (node : Node) (x : float) :
  type node = "TEXT" -> fontSize node = Val x ->
  (x =? LocalRules.APPROVED_FONT_SIZE)%float = false ->
  readable (fills node) -> readable (fillStyleId node) ->
  exists before,
    LocalRules.rules node []
    = (Normal tt, (before ++ [typography_issue node (Js.Number_toString x)])%list)
    /\ of_type "Typography" before = [].
Proof.
  intros Ht Hz Hx Hf Hs.
  unfold LocalRules.rules, LocalRules.rule4, LocalRules.rule5, LocalRules.rule6.
  rewrite Ht, Hz. simpl.
  assert (H14 : Js.Number_toString LocalRules.APPROVED_FONT_SIZE = "14")
    by (vm_compute; reflexivity).
  unfold bind, lift, push, modify, ret. simpl. rewrite Hx, H14. simpl.
  destruct (button_name (name node));
    destruct (fills node) as [| |l|e]; try contradiction; simpl;
    try (exists []; split; reflexivity);
    destruct (fillStyleId node) as [| |sid|e]; try contradiction; simpl;
    try (exists []; split; reflexivity);
    try destruct (negb (Js.truthy_string sid)); try destruct (find_solid l);
    try (exists []; split; reflexivity);
    (exists [hardcoded_fill_issue node]; split; reflexivity).
Qed.

(** C7. For a visible text node of font size 18, the approved size being
    14, [runAnalysis] of [code.ts] emits exactly one typography issue, and
    its detail mentions both "18" and "14".  [applyFix('Typography')] on
    that node, resolved by its id, not locked and in a single font that
    loads, follows one policy in each implementation: [code.ts] sets the
    font size to 14 and returns success, so that the node read back from
    the document has font size 14 and is otherwise unchanged; the
    token-aware implementation refuses with an error that recommends
    design-system text styles and changes nothing. *)
Theorem C7_typography_scenario :
  forall (node : Node) (doc : Document) (lf : FontName -> completion unit) (font : FontName),
    type node = "TEXT" ->
    fontSize node = Val 18%float ->
    in_and_truthy (visible node) = Normal true ->
    readable (fills node) -> readable (fillStyleId node) ->
    children node = Absent ->
    fontName node = Val (OneFont font) -> lf font = Normal tt ->
    doc !! id node = Some node ->
    in_and_truthy (locked node) = Normal false ->
    (exists issues,
        LocalRules.runAnalysis [node] = Normal issues
        /\ of_type "Typography" issues = [typography_issue node "18"]
        /\ Js.includes (detail (typography_issue node "18")) "18" = true
        /\ Js.includes (detail (typography_issue node "18")) "14" = true)
    /\ LocalRules.applyFix lf (id node) "Typography" doc
       = (Normal (succeeded "Set font size to 14px."),
          <[id node := set_fontSize node 14]> doc)
    /\ (forall cfg,
          TokenAware.applyFix lf cfg (id node) "Typography" doc
          = (Normal (failed "Typography fixes should use design system text styles instead of hardcoded font sizes."),
             doc))
    /\ resized 14 (id node) node doc
         (snd (LocalRules.applyFix lf (id node) "Typography" doc)).
Proof.
  intros node doc lf font Ht Hz Hv Hf Hs Hch Hfn Hlf Hdoc Hlock.
  assert (Hfix : LocalRules.applyFix lf (id node) "Typography" doc
                 = (Normal (succeeded "Set font size to 14px."),
                    <[id node := set_fontSize node 14]> doc)).
  { unfold LocalRules.applyFix, bind, get, lift. rewrite Hdoc, Hlock.
    unfold try_catch, LocalRules.dispatch. simpl. rewrite Ht. simpl.
    unfold bind, font_guard. rewrite Hfn, Hlf. reflexivity. }
  split; [|split; [|split]]; [| exact Hfix | |rewrite Hfix; apply resized_set_fontSize].
  - destruct (local_text_rules node 18 Ht Hz eq_refl Hf Hs) as (before & Hr & Hb).
    assert (H18 : Js.Number_toString 18 = "18") by (vm_compute; reflexivity).
    rewrite H18 in Hr.
    exists (before ++ [typography_issue node "18"])%list.
    split; [|split; [|split]].
    + unfold LocalRules.runAnalysis, LocalRules.walk, Walk.walk, for_of, try_catch.
      unfold bind at 1. unfold LocalRules.traverse.
      rewrite (traverse_entered _ node) by (unfold skipped; by rewrite Hv).
      unfold bind. by rewrite Hr, Hch.
    + unfold of_type in *. rewrite List.filter_app, Hb. reflexivity.
    + reflexivity.
    + reflexivity.
  - intros cfg.
    unfold TokenAware.applyFix, bind, get, lift. rewrite Hdoc, Hlock.
    unfold try_catch, TokenAware.dispatch. simpl. rewrite Ht. simpl.
    unfold bind, font_guard. rewrite Hfn, Hlf. reflexivity.
Qed.

(** The heading of the scenario nodes. *)
Lemma C7_witness :
  (exists issues,
      LocalRules.runAnalysis [heading] = Normal issues
      /\ of_type "Typography" issues = [typography_issue heading "18"]
      /\ Js.includes (detail (typography_issue heading "18")) "18" = true
      /\ Js.includes (detail (typography_issue heading "18")) "14" = true)
  /\ LocalRules.applyFix fonts_load "1:3" "Typography" {["1:3" := heading]}
     = (Normal (succeeded "Set font size to 14px."),
        <["1:3" := set_fontSize heading 14]> {["1:3" := heading]})
  /\ (forall cfg,
        TokenAware.applyFix fonts_load cfg "1:3" "Typography" {["1:3" := heading]}
        = (Normal (failed "Typography fixes should use design system text styles instead of hardcoded font sizes."),
           {["1:3" := heading]}))
  /\ resized 14 "1:3" heading {["1:3" := heading]}
       (snd (LocalRules.applyFix fonts_load "1:3" "Typography" {["1:3" := heading]})).
Proof.
  apply (C7_typography_scenario heading {["1:3" := heading]} fonts_load inter);
    try (vm_compute; reflexivity); exact I.
Defined.

(** ** Comparisons of binary64 numbers *)

Section Binary64.
Local Open Scope Z_scope.

(** Rounding a non-negative mantissa never gives NaN. *)
Lemma shr_1_nonneg mrs : 0 <= shr_m mrs -> 0 <= shr_m (shr_1 mrs).
Proof.
  destruct mrs as [m r s]. simpl.
  destruct m as [|p|p]; [| destruct p | ]; simpl; lia.
Qed.

Lemma iter_shr_1_nonneg p : forall mrs, 0 <= shr_m mrs -> 0 <= shr_m (SpecFloat.iter_pos shr_1 p mrs).
Proof.
  induction p as [p IH|p IH|]; intros mrs H; simpl.
  - apply IH, IH, shr_1_nonneg, H.
  - apply IH, IH, H.
  - apply shr_1_nonneg, H.
Qed.

Lemma shr_fexp_nonneg prec emax m e l :
  0 <= m -> 0 <= shr_m (fst (shr_fexp prec emax m e l)).
Proof.
  intros H. unfold shr_fexp, shr.
  assert (H0 : 0 <= shr_m (shr_record_of_loc m l)) by (destruct l as [|[]]; exact H).
  destruct (fexp prec emax (Zdigits2 m + e) - e); simpl; try exact H0.
  apply iter_shr_1_nonneg, H0.
Qed.

Lemma round_nearest_even_nonneg mx lx : 0 <= mx -> 0 <= round_nearest_even mx lx.
Proof.
  intros H. destruct lx as [|[]]; simpl; try destruct (Z.even mx); lia.
Qed.

Lemma binary_round_aux_number prec emax sx mx ex lx :
  0 <= mx -> is_number (binary_round_aux prec emax sx mx ex lx).
Proof.
  intros H. unfold binary_round_aux.
  pose proof (shr_fexp_nonneg prec emax mx ex lx H) as H1.
  destruct (shr_fexp prec emax mx ex lx) as [mrs' e']. simpl in H1.
  pose proof (shr_fexp_nonneg prec emax _ e' loc_Exact
                (round_nearest_even_nonneg _ (loc_of_shr_record mrs') H1)) as H2.
  destruct (shr_fexp prec emax _ e' loc_Exact) as [mrs'' e'']. simpl in H2.
  destruct (shr_m mrs'') as [|m|m]; simpl; [exact I | | lia].
  destruct (e'' <=? emax - prec); exact I.
Qed.

Lemma binary_normalize_number prec emax m e szero :
  is_number (binary_normalize prec emax m e szero).
Proof.
  unfold binary_normalize, binary_round.
  destruct m as [|p|p]; [exact I | |];
    destruct (shl_align _ _ _) as [mz ez]; apply binary_round_aux_number; lia.
Qed.

Lemma SFsub_number prec emax x y :
  is_bounded x -> is_bounded y -> is_number (SFsub prec emax x y).
Proof.
  destruct x as [sx|sx| |sx mx ex], y as [sy|sy| |sy my ey]; simpl; try tauto.
  - intros _ _. destruct sx, sy; exact I.
  - intros _ _. apply binary_normalize_number.
Qed.

Lemma SFabs_number x : is_number x -> is_number (SFabs x).
Proof. destruct x; simpl; tauto. Qed.

Lemma SFcompare_swap x y :
  SFcompare y x = match SFcompare x y with Some c => Some (CompOpp c) | None => None end.
Proof.
  destruct x as [sx|sx| |sx mx ex], y as [sy|sy| |sy my ey]; simpl;
    try reflexivity; try (destruct sx; reflexivity); try (destruct sy; reflexivity);
    try (destruct sx, sy; reflexivity).
  assert (Hm : Pos.compare_cont Eq my mx = CompOpp (Pos.compare_cont Eq mx my))
    by (rewrite Pos.compare_cont_antisym; reflexivity).
  rewrite (Z.compare_antisym ex ey), Hm.
  destruct sx, sy; try reflexivity;
    destruct (ex ?= ey); simpl; try reflexivity.
Qed.

Lemma SFltb_SFleb x y :
  is_number x -> is_number y -> SFltb x y = negb (SFleb y x).
Proof.
  intros Hx Hy. unfold SFltb, SFleb. rewrite (SFcompare_swap x y).
  destruct (SFcompare x y) as [[]|] eqn:E; simpl; try reflexivity.
  destruct x, y; simpl in *; try tauto; try discriminate;
    repeat match goal with s : bool |- _ => destruct s end; discriminate.
Qed.

End Binary64.

Lemma in_unit_bounded (x : float) : in_unit x = true -> is_bounded (Prim2SF x).
Proof.
  unfold in_unit. rewrite andb_true_iff, !leb_spec. intros [H0 H1].
  change (Prim2SF 0) with (S754_zero false) in H0.
  change (Prim2SF 1) with (S754_finite false 4503599627370496 (-52)) in H1.
  destruct (Prim2SF x) as [s|s| |s m e]; simpl in *; try exact I; try discriminate.
  destruct s; discriminate.
Qed.

(** On channels of [0, 1], being within the tolerance is not differing by
    at least 0.01. *)
Lemma within_tolerance_differs (x y : float) :
  in_unit x = true -> in_unit y = true ->
  within_tolerance x y = negb (differs_at_least x y).
Proof.
  intros Hx Hy. unfold within_tolerance, differs_at_least.
  rewrite ltb_spec, leb_spec, abs_spec, sub_spec.
  apply SFltb_SFleb.
  - apply SFabs_number, SFsub_number; by apply in_unit_bounded.
  - vm_compute. exact I.
Qed.

Lemma matches_mismatch (c p : RGB) :
  in_gamut c = true -> in_gamut p = true ->
  matches_colour c p = negb (mismatch c p).
Proof.
  unfold in_gamut, matches_colour, mismatch. rewrite !andb_true_iff.
  intros [[Hr Hg] Hb] [[Hr' Hg'] Hb'].
  rewrite !within_tolerance_differs by assumption.
  by rewrite !negb_orb.
Qed.

Lemma find_solid_first (l : list Paint) (f : Paint) :
  find_solid l = Some f <-> first_visible_solid l f.
Proof.
  unfold find_solid, first_visible_solid. split.
  - induction l as [|q l IH]; simpl; [discriminate|].
    destruct (is_visible_solid q) eqn:E.
    + intros [= <-]. exists [], l. by repeat split.
    + intros H. destruct (IH H) as (before & after & -> & Hb & Hf).
      exists (q :: before), after. repeat split; [by constructor | exact Hf].
  - intros (before & after & -> & Hb & Hf).
    induction Hb as [|q before Hq _ IH]; simpl; [by rewrite Hf | by rewrite Hq].
Qed.

Lemma find_solid_none (l : list Paint) :
  find_solid l = None <-> Forall (fun q => is_visible_solid q = false) l.
Proof.
  unfold find_solid. induction l as [|q l IH]; simpl.
  - split; [constructor | reflexivity].
  - destruct (is_visible_solid q) eqn:E.
    + split; [discriminate | intros H; inversion H; congruence].
    + rewrite IH. split; [by constructor | intros H; by inversion H].
Qed.

(** ** C3 and C10: the button-style rule *)

(** The flag the rule computes is the condition of the specification. *)
Lemma incorrect_flagged (p : RGB) (l : list Paint) :
  in_gamut p = true ->
  (forall f, first_visible_solid l f -> in_gamut (color f) = true) ->
  match find_solid l with
  | Some f => negb (matches_colour (color f) p)
  | None => (0 <? length l)%nat
  end = true <-> flagged p l.
Proof.
  intros Hp Hl. unfold flagged.
  destruct (find_solid l) as [f|] eqn:E.
  - pose proof (proj1 (find_solid_first l f) E) as Hf.
    rewrite (matches_mismatch _ _ (Hl f Hf) Hp), negb_involutive.
    split.
    + intros Hm. left. by exists f.
    + intros [(f' & Hf' & Hm) | [_ Hnone]].
      * apply find_solid_first in Hf'. congruence.
      * apply find_solid_none in Hnone. congruence.
  - split.
    + intros Hlen. right. split; [|by apply find_solid_none].
      intros ->. discriminate.
    + intros [(f' & Hf' & _) | [Hne _]].
      * apply find_solid_first in Hf'. congruence.
      * destruct l; [congruence | reflexivity].
Qed.

Lemma local_primary_in_gamut : in_gamut LocalRules.PRIMARY_BUTTON_COLOR_RGB = true.
Proof. vm_compute. reflexivity. Qed.

(** C3. On a visited node whose name contains 'button' or 'btn' whatever
    the case, whose type is RECTANGLE and which exposes a fills array:
    with no fill-style reference attached, the button-style rule emits an
    issue if and only if (a) the first visible solid fill differs from the
    primary-button colour by at least 0.01 in some RGB channel or (b) the
    array is not empty but holds no visible solid fill; with a fill-style
    reference attached the rule never fires, whatever the store holds.
    The primary-button colour is the constant of [code.ts], and in the
    token-aware implementation the store's 'Primary/Blue/600' (its absence
    is C10); colour channels are numbers of [0, 1]. *)
Theorem C3_button_style_rule :
  forall (node : Node) (l : list Paint),
    button_name (name node) = true ->
    type node = "RECTANGLE" ->
    fills node = Val l ->
    (not_truthy (fillStyleId node) = Normal true ->
     (forall f, first_visible_solid l f -> in_gamut (color f) = true) ->
     (forall acc,
         (flagged LocalRules.PRIMARY_BUTTON_COLOR_RGB l ->
          LocalRules.rule6 node acc = (Normal tt, (acc ++ [button_style_issue node])%list))
         /\ (~ flagged LocalRules.PRIMARY_BUTTON_COLOR_RGB l ->
             LocalRules.rule6 node acc = (Normal tt, acc)))
     /\ (forall cfg p acc,
           TokenAware.colourTokens cfg !! "Primary/Blue/600" = Some p ->
           in_gamut p = true ->
           (flagged p l ->
            TokenAware.button_rule cfg node acc
            = (Normal tt, (acc ++ [button_style_issue node])%list))
           /\ (~ flagged p l ->
               TokenAware.button_rule cfg node acc = (Normal tt, acc))))
    /\ (not_truthy (fillStyleId node) = Normal false ->
        forall acc,
          LocalRules.rule6 node acc = (Normal tt, acc)
          /\ forall cfg, TokenAware.button_rule cfg node acc = (Normal tt, acc)).
Proof.
  intros node l Hn Ht Hf. split.
  - intros Hs Hl. split.
    + intros acc.
      pose proof (incorrect_flagged _ l local_primary_in_gamut Hl) as Hiff.
      unfold LocalRules.rule6, bind, lift. rewrite Hn, Ht, Hf, Hs. simpl.
      destruct (match find_solid l with Some _ => _ | None => _ end).
      * split; [reflexivity | intros Hno; exfalso; apply Hno, Hiff; reflexivity].
      * split; [intros Hyes; apply Hiff in Hyes; discriminate | reflexivity].
    + intros cfg p acc Hp Hg.
      pose proof (incorrect_flagged p l Hg Hl) as Hiff.
      unfold TokenAware.button_rule, bind, lift. rewrite Hn, Ht, Hf, Hs, Hp. simpl.
      destruct (match find_solid l with Some _ => _ | None => _ end).
      * split; [reflexivity | intros Hno; exfalso; apply Hno, Hiff; reflexivity].
      * split; [intros Hyes; apply Hiff in Hyes; discriminate | reflexivity].
  - intros Hs acc.
    unfold LocalRules.rule6, TokenAware.button_rule, bind, lift.
    by rewrite Hn, Ht, Hf, Hs.
Qed.

Lemma grey_first : first_visible_solid [solid grey] (solid grey).
Proof. exists [], []. by repeat split. Qed.

Lemma only_grey (f : Paint) : first_visible_solid [solid grey] f -> f = solid grey.
Proof. intros H. apply find_solid_first in H. by injection H. Qed.

(** The grey button is flagged by (a): its green channel, 0.5, is 0.225
    away from the 0.275 of the constant. *)
Lemma C3_witness :
  LocalRules.rule6 primary_button []
  = (Normal tt, [button_style_issue primary_button]).
Proof.
  refine (proj1 (proj1 (proj1 (C3_button_style_rule primary_button [solid grey]
                                 eq_refl eq_refl eq_refl) eq_refl _) []) _).
  - intros f Hf. rewrite (only_grey f Hf). vm_compute. reflexivity.
  - left. exists (solid grey). split; [exact grey_first | vm_compute; reflexivity].
Defined.

(** C10. In the token-aware implementation, when the store has no entry
    for 'Primary/Blue/600', the button-style rule flags every candidate
    node (a rectangle named with 'button' or 'btn', exposing a fills array
    and no fill-style reference) that has a visible solid fill, whatever
    the colour of that fill. *)
Theorem C10_missing_primary_token :
  forall (cfg : TokenAware.DesignSystemConfig) (node : Node) (l : list Paint) (f : Paint)
         (acc : list DesignIssue),
    TokenAware.colourTokens cfg !! "Primary/Blue/600" = None ->
    button_name (name node) = true ->
    type node = "RECTANGLE" ->
    fills node = Val l ->
    not_truthy (fillStyleId node) = Normal true ->
    first_visible_solid l f ->
    TokenAware.button_rule cfg node acc
    = (Normal tt, (acc ++ [button_style_issue node])%list).
Proof.
  intros cfg node l f acc Hp Hn Ht Hf Hs Hfirst.
  apply find_solid_first in Hfirst.
  unfold TokenAware.button_rule, bind, lift.
  rewrite Hn, Ht, Hf. simpl. rewrite Hs. simpl. by rewrite Hfirst, Hp.
Qed.

(** With no entry in the default store, a button filled with the very
    colour the fix would write is flagged. *)
Lemma C10_witness :
  TokenAware.button_rule TokenAware.DEFAULT_CONFIG blue_button []
  = (Normal tt, [button_style_issue blue_button]).
Proof.
  apply (C10_missing_primary_token TokenAware.DEFAULT_CONFIG blue_button
           [solid {| r := 0.196; g := 0.275; b := 0.898 |}]
           (solid {| r := 0.196; g := 0.275; b := 0.898 |}) []);
    try (vm_compute; reflexivity).
  exists [], []. by repeat split.
Defined.

(** ** C8: the token loader *)

Lemma try_catch_total {S} (m : M S unit) (h : string -> M S unit) (s : S) :
  (forall e s', fst (h e s') = Normal tt) -> fst (try_catch m h s) = Normal tt.
Proof.
  intros Hh. unfold try_catch. destruct (m s) as [[[]|e] s']; [reflexivity | apply Hh].
Qed.

Lemma local_total (w : TokenAware.World) (st : TokenAware.State) :
  fst (TokenAware.loadLocalDesignSystem w st) = Normal tt.
Proof. by apply try_catch_total. Qed.

Lemma mock_total (w : TokenAware.World) (st : TokenAware.State) :
  fst (TokenAware.loadMockDesignSystem w st) = Normal tt.
Proof. apply try_catch_total. intros _ s'. apply local_total. Qed.

Lemma load_total (w : TokenAware.World) (st : TokenAware.State) :
  fst (TokenAware.loadDesignSystemViaMCP w st) = Normal tt.
Proof. apply try_catch_total. intros _ s'. apply mock_total. Qed.

Lemma silent_ret {A} (a : A) : silent (ret a).
Proof. by intros st. Qed.

Lemma silent_throw {A} (e : string) : silent (@throw _ A e).
Proof. by intros st. Qed.

Lemma silent_lift {A} (c : completion A) : silent (lift c).
Proof. by intros st. Qed.

Lemma silent_update (f : TokenAware.DesignSystemConfig -> TokenAware.DesignSystemConfig) :
  silent (TokenAware.update_config f).
Proof. by intros st. Qed.

Lemma silent_bind {A B} (m : M TokenAware.State A) (k : A -> M TokenAware.State B) :
  silent m -> (forall a, silent (k a)) -> silent (bind m k).
Proof.
  intros Hm Hk st. unfold bind. specialize (Hm st).
  destruct (m st) as [[a|e] st']; simpl in *; [by rewrite Hk | exact Hm].
Qed.

Lemma silent_try_catch {A} (m : M TokenAware.State A) (h : string -> M TokenAware.State A) :
  silent m -> (forall e, silent (h e)) -> silent (try_catch m h).
Proof.
  intros Hm Hh st. unfold try_catch. specialize (Hm st).
  destruct (m st) as [[a|e] st']; simpl in *; [exact Hm | by rewrite Hh].
Qed.

Lemma silent_for_of {A} (l : list A) (f : A -> M TokenAware.State unit) :
  (forall x, silent (f x)) -> silent (for_of l f).
Proof.
  intros Hf. induction l as [|x t IH]; simpl; [apply silent_ret|].
  apply silent_bind; [apply Hf | intros _; exact IH].
Qed.

Ltac silent_tac :=
  repeat first
    [ apply silent_ret | apply silent_throw | apply silent_lift | apply silent_update
    | apply silent_bind; [ | intros ? ]
    | apply silent_try_catch; [ | intros ? ]
    | apply silent_for_of; intros ?
    | match goal with
      | |- silent (match ?x with _ => _ end) => destruct x
      | |- silent (if ?x then _ else _) => destruct x
      end ].

Lemma local_silent (w : TokenAware.World) : silent (TokenAware.loadLocalDesignSystem w).
Proof. unfold TokenAware.loadLocalDesignSystem. silent_tac. Qed.

Lemma mock_silent (w : TokenAware.World) : silent (TokenAware.loadMockDesignSystem w).
Proof.
  unfold TokenAware.loadMockDesignSystem.
  apply silent_try_catch; [silent_tac | intros _; apply local_silent].
Qed.

Lemma blank_token_spec (c : TokenAware.MCPConfig) :
  absent_or_blank c <-> TokenAware.blank_token c = true.
Proof.
  unfold absent_or_blank, TokenAware.blank_token.
  destruct (TokenAware.figmaToken c) as [t|]; [|split; [reflexivity | by left]].
  split.
  - intros [H | (t' & [= <-] & H)]; [discriminate | by rewrite H, orb_true_r].
  - intros H. right. exists t. split; [reflexivity|].
    destruct t as [|ch t]; [reflexivity | exact H].
Qed.

Lemma try_catch_normal {S} (m : M S unit) (h : string -> M S unit) (s : S) :
  fst (m s) = Normal tt -> try_catch m h s = m s.
Proof. unfold try_catch. destruct (m s) as [[[]|e] s']; [reflexivity | discriminate]. Qed.

(** The loop of the local fallback over the paint styles. *)
Lemma local_colours_loop (ps : list TokenAware.PaintStyle) (st : TokenAware.State) :
  for_of ps (fun style =>
    match TokenAware.paints style with
    | paint :: _ =>
        if String.eqb (paint_type paint) "SOLID"
        then TokenAware.update_config
               (TokenAware.set_colour (TokenAware.ps_name style) (color paint))
        else ret tt
    | [] => ret tt
    end) st
  = (Normal tt, TokenAware.with_config (local_colours ps) st).
Proof.
  revert st. induction ps as [|style ps IH]; intros st; simpl.
  - by destruct st.
  - unfold bind, TokenAware.with_config, local_colours. simpl.
    destruct (TokenAware.paints style) as [|paint rest]; simpl.
    + by rewrite IH.
    + destruct (String.eqb (paint_type paint) "SOLID"); simpl; by rewrite IH.
Qed.

Lemma race_first_request (w : TokenAware.World) (c : TokenAware.MCPConfig)
    (st : TokenAware.State) :
  (TokenAware.deadline w = Some 0 ->
   exists st1, TokenAware.race w c st = (Throw "API timeout", st1)
               /\ TokenAware.requests st1 = (TokenAware.requests st ++ [file_url c])%list)
  /\ (forall e, TokenAware.deadline w <> Some 0 ->
        TokenAware.net w (file_url c) = Throw e ->
        exists st1, TokenAware.race w c st = (Throw e, st1)
                    /\ TokenAware.requests st1 = (TokenAware.requests st ++ [file_url c])%list).
Proof.
  unfold TokenAware.race, TokenAware.loadFigmaDesignSystem, TokenAware.fetch,
    TokenAware.net_await, file_url.
  split.
  - intros Hd. unfold bind, modify, try_catch, get, throw. simpl. rewrite Hd. simpl. eauto.
  - intros e Hd Hnet. unfold bind, modify, try_catch, get, throw, put, lift, ret. simpl.
    destruct (TokenAware.deadline w) as [[|d]|]; [congruence | |]; simpl;
      rewrite Hnet; simpl; eauto.
Qed.

(** C8. The token loader never throws.  With a credential that is absent
    or blank it goes to the mock data and sends no request.  With a
    credential, when the race of the remote load against the timer is lost
    or the load rejects (the timer firing before the first response, or
    the first fetch rejecting, among the ways), it falls back to the mock
    data.  The mock data replace the store; when building them fails the
    loader falls back to the local styles of the document, a step that
    never throws and leaves the store as far as it got: untouched when the
    paint styles cannot be read, with the local colours when the text
    styles cannot. *)
Theorem C8_token_loader_fallbacks :
  (forall w st, fst (TokenAware.loadDesignSystemViaMCP w st) = Normal tt)
  /\ (forall w st c,
        TokenAware.globalConfig st = Some c -> absent_or_blank c ->
        TokenAware.loadDesignSystemViaMCP w st = TokenAware.loadMockDesignSystem w st
        /\ TokenAware.requests (snd (TokenAware.loadDesignSystemViaMCP w st))
           = TokenAware.requests st)
  /\ (forall w st c,
        TokenAware.globalConfig st = Some c -> ~ absent_or_blank c ->
        (forall e st1,
            TokenAware.race w c st = (Throw e, st1) ->
            TokenAware.loadDesignSystemViaMCP w st = TokenAware.loadMockDesignSystem w st1)
        /\ (TokenAware.deadline w = Some 0 ->
            exists st1, TokenAware.race w c st = (Throw "API timeout", st1))
        /\ (forall e, TokenAware.deadline w <> Some 0 ->
              TokenAware.net w (file_url c) = Throw e ->
              exists st1, TokenAware.race w c st = (Throw e, st1)))
  /\ (forall w st,
        TokenAware.mock_fault w = None ->
        TokenAware.loadMockDesignSystem w st
        = (Normal tt, TokenAware.with_config (fun _ => TokenAware.mockData) st))
  /\ (forall w st e,
        TokenAware.mock_fault w = Some e ->
        TokenAware.loadMockDesignSystem w st = TokenAware.loadLocalDesignSystem w st
        /\ fst (TokenAware.loadLocalDesignSystem w st) = Normal tt
        /\ (forall e', TokenAware.getLocalPaintStyles w = Throw e' ->
              TokenAware.loadLocalDesignSystem w st = (Normal tt, st))
        /\ (forall ps e', TokenAware.getLocalPaintStyles w = Normal ps ->
              TokenAware.getLocalTextStyles w = Throw e' ->
              TokenAware.loadLocalDesignSystem w st
              = (Normal tt, TokenAware.with_config (local_colours ps) st))).
Proof.
  split; [exact load_total|]. split; [|split; [|split]].
  - intros w st c Hc Hb. apply blank_token_spec in Hb.
    assert (Heq : TokenAware.loadDesignSystemViaMCP w st
                  = TokenAware.loadMockDesignSystem w st).
    { unfold TokenAware.loadDesignSystemViaMCP.
      rewrite try_catch_normal; unfold bind, get; rewrite Hc, Hb;
        [reflexivity | apply mock_total]. }
    split; [exact Heq | rewrite Heq; apply mock_silent].
  - intros w st c Hc Hb.
    assert (Hnb : TokenAware.blank_token c = false).
    { destruct (TokenAware.blank_token c) eqn:E; [|reflexivity].
      exfalso. by apply Hb, blank_token_spec. }
    destruct (race_first_request w c st) as [Htimer Hreject].
    split; [|split].
    + intros e st1 Hrace.
      unfold TokenAware.loadDesignSystemViaMCP.
      rewrite try_catch_normal; unfold bind, get; rewrite Hc, Hnb;
        unfold try_catch at 1; rewrite Hrace; [reflexivity | apply mock_total].
    + intros Hd. destruct (Htimer Hd) as (st1 & H1 & _). eauto.
    + intros e Hd Hnet. destruct (Hreject e Hd Hnet) as (st1 & H1 & _). eauto.
  - intros w st Hm. unfold TokenAware.loadMockDesignSystem, try_catch. by rewrite Hm.
  - intros w st e Hm.
    split; [unfold TokenAware.loadMockDesignSystem, try_catch; by rewrite Hm|].
    split; [apply local_total|]. split.
    + intros e' Hp. unfold TokenAware.loadLocalDesignSystem, try_catch, bind, lift.
      by rewrite Hp.
    + intros ps e' Hp Ht.
      unfold TokenAware.loadLocalDesignSystem, try_catch. unfold bind at 1. unfold lift at 1.
      rewrite Hp. unfold bind at 1. rewrite local_colours_loop.
      unfold bind, lift. by rewrite Ht.
Qed.

(** With a credential and a timer that fires before the first response,
    the loader ends on the mock data after one request; and when the mock
    tables cannot be built and the text styles cannot be read, the local
    fallback keeps the colour it had already taken. *)
Lemma C8_witness :
  TokenAware.loadDesignSystemViaMCP slow with_credential
  = TokenAware.loadMockDesignSystem slow
      {| TokenAware.designSystemConfig := TokenAware.DEFAULT_CONFIG;
         TokenAware.globalConfig := TokenAware.globalConfig with_credential;
         TokenAware.requests := ["https://api.figma.com/v1/files/KkqX7OKAggFzvfB0CMUwBz"];
         TokenAware.settled := 0 |}
  /\ TokenAware.loadLocalDesignSystem faulty TokenAware.initial
     = (Normal tt, TokenAware.with_config (local_colours [brand]) TokenAware.initial).
Proof.
  split.
  - refine (proj1 (proj1 (proj2 (proj2 C8_token_loader_fallbacks))
                     slow with_credential _ eq_refl _) "API timeout" _ _).
    + intros [H | (t & H & Hb)]; [discriminate|].
      injection H as <-. vm_compute in Hb. discriminate.
    + vm_compute. reflexivity.
  - refine (proj2 (proj2 (proj2 (proj2 (proj2 (proj2 (proj2 C8_token_loader_fallbacks)))
                     faulty TokenAware.initial _ eq_refl))) [brand] _ eq_refl eq_refl).
Defined.

(** ** C9: the store after a load with a blank credential, and the
    default of the colour fixes *)

(** After a load with the empty credential of the initial state, the
    store has no 'Functional/Carbon' entry, and no key naming carbon at
    all. *)
Lemma C9_counterexample :
  TokenAware.requests (snd (TokenAware.loadDesignSystemViaMCP offline TokenAware.initial)) = []
  /\ TokenAware.colourTokens
       (TokenAware.designSystemConfig
          (snd (TokenAware.loadDesignSystemViaMCP offline TokenAware.initial)))
     !! "Functional/Carbon" = None
  /\ List.filter (fun k => Js.includes (Js.toLowerCase k) "carbon")
       (map fst TokenAware.mock_colourTokens) = [].
Proof. vm_compute. repeat split; reflexivity. Qed.

Ltac fix_cases :=
  repeat match goal with
         | |- context [match ?x with _ => _ end] => destruct x eqn:?; simpl
         | H : context [match ?x with _ => _ end] |- _ => destruct x eqn:?; simpl in H
         end.

(** The outcome of a colour fix does not depend on the store. *)
Lemma colour_fix_outcome (lf : FontName -> completion unit)
    (cfg cfg' : TokenAware.DesignSystemConfig) (nodeId issueType : string) (doc : Document) :
  issueType = "Text/Colour" \/ issueType = "Colour/Token" ->
  fst (TokenAware.applyFix lf cfg nodeId issueType doc)
  = fst (TokenAware.applyFix lf cfg' nodeId issueType doc).
Proof.
  intros [-> | ->];
    unfold TokenAware.applyFix, TokenAware.dispatch, try_catch, bind, get, lift, ret,
      modify, runtime_error, font_guard, instance_guard, throw; simpl;
    fix_cases; congruence.
Qed.

(** A colour fix that succeeds while the store has no 'Functional/Carbon'
    has written the built-in default. *)
Lemma colour_fix_default (lf : FontName -> completion unit)
    (cfg : TokenAware.DesignSystemConfig) (nodeId issueType : string) (doc doc' : Document)
    (node : Node) (msg : string) :
  TokenAware.colourTokens cfg !! "Functional/Carbon" = None ->
  issueType = "Text/Colour" \/ issueType = "Colour/Token" ->
  doc !! nodeId = Some node ->
  TokenAware.applyFix lf cfg nodeId issueType doc = (Normal (succeeded msg), doc') ->
  doc' = <[nodeId := set_fills node (solid_fill TokenAware.default_carbon)]> doc.
Proof.
  intros Hc Hty Hdoc.
  unfold TokenAware.applyFix, bind, get, lift. rewrite Hdoc.
  destruct (in_and_truthy (locked node)) as [[]|e]; try discriminate.
  unfold TokenAware.dispatch, TokenAware.token_or, try_catch, bind, lift, ret, modify,
    runtime_error, font_guard, instance_guard, throw, no_change, failed, succeeded.
  rewrite Hc.
  destruct Hty as [-> | ->]; simpl; intros H; fix_cases; try discriminate.
  all: unfold ret in *; simplify_eq; reflexivity.
Qed.

(** C9, as the code has it.  After a load with an absent or blank
    credential, which sends no request, the store holds the
    primary-button colour token 'Primary/Blue/600' (the mock data define
    no 'Functional/Carbon' token).  A colour fix looks the Carbon token up
    and, when it is absent, uses the built-in default near-black (0.1,
    0.1, 0.1): the outcome of the fix does not depend on the store, a fix
    that succeeds has written one opaque solid paint of the default
    colour (the node read back from the document has that one paint and
    is otherwise unchanged), and the text-colour fix of a text node in
    one loadable font,
    and the colour-token fix of a rectangle, do succeed. *)
Theorem C9_blank_load_and_carbon_default :
  (forall w st c,
      TokenAware.globalConfig st = Some c -> absent_or_blank c ->
      TokenAware.mock_fault w = None ->
      TokenAware.requests (snd (TokenAware.loadDesignSystemViaMCP w st))
      = TokenAware.requests st
      /\ TokenAware.colourTokens
           (TokenAware.designSystemConfig (snd (TokenAware.loadDesignSystemViaMCP w st)))
         !! "Primary/Blue/600" = Some {| r := 0.157; g := 0.220; b := 0.718 |})
  /\ (forall lf cfg cfg' nodeId issueType (doc : Document),
        issueType = "Text/Colour" \/ issueType = "Colour/Token" ->
        fst (TokenAware.applyFix lf cfg nodeId issueType doc)
        = fst (TokenAware.applyFix lf cfg' nodeId issueType doc))
  /\ (forall lf cfg nodeId issueType (doc doc' : Document) node msg,
        TokenAware.colourTokens cfg !! "Functional/Carbon" = None ->
        issueType = "Text/Colour" \/ issueType = "Colour/Token" ->
        doc !! nodeId = Some node ->
        TokenAware.applyFix lf cfg nodeId issueType doc = (Normal (succeeded msg), doc') ->
        doc' = <[nodeId := set_fills node (solid_fill TokenAware.default_carbon)]> doc
        /\ painted {| r := 0.1; g := 0.1; b := 0.1 |} nodeId node doc doc')
  /\ (forall lf cfg (doc : Document) node l,
        TokenAware.colourTokens cfg !! "Functional/Carbon" = None ->
        doc !! id node = Some node ->
        in_and_truthy (locked node) = Normal false ->
        fills node = Val l ->
        (forall font,
            type node = "TEXT" -> fontName node = Val (OneFont font) ->
            lf font = Normal tt ->
            TokenAware.applyFix lf cfg (id node) "Text/Colour" doc
            = (Normal (succeeded "Applied Functional/Carbon colour to text."),
               <[id node := set_fills node (solid_fill TokenAware.default_carbon)]> doc))
        /\ (type node = "RECTANGLE" ->
            TokenAware.applyFix lf cfg (id node) "Colour/Token" doc
            = (Normal (succeeded "Applied Functional/Carbon colour fill."),
               <[id node := set_fills node (solid_fill TokenAware.default_carbon)]> doc))).
Proof.
  split; [|split; [|split]].
  - intros w st c Hc Hb Hm.
    rewrite (load_blank w st c Hc (proj1 (blank_token_spec c) Hb) Hm).
    cbv beta iota zeta delta [snd TokenAware.with_config TokenAware.designSystemConfig
                               TokenAware.requests].
    split; [reflexivity | vm_compute; reflexivity].
  - intros lf cfg cfg' nodeId issueType doc. apply colour_fix_outcome.
  - intros lf cfg nodeId issueType doc doc' node msg Hc Hty Hdoc Hfix.
    rewrite (colour_fix_default lf cfg nodeId issueType doc doc' node msg Hc Hty Hdoc Hfix).
    split; [reflexivity | apply (painted_set_fills TokenAware.default_carbon)].
  - intros lf cfg doc node l Hc Hdoc Hlock Hf.
    unfold TokenAware.applyFix, bind, get, lift. rewrite Hdoc, Hlock.
    unfold try_catch, TokenAware.dispatch, TokenAware.token_or. rewrite Hc. simpl.
    split.
    + intros font Ht Hfn Hlf. rewrite Ht. simpl.
      unfold bind, font_guard, lift. by rewrite Hfn, Hlf, Hf.
    + intros Ht. rewrite Ht. simpl.
      unfold bind, lift, instance_guard. by rewrite Hf, Ht.
Qed.

(** The heading's text-colour fix against the store of a load with the
    empty credential: it succeeds with the default colour. *)
Lemma C9_witness :
  TokenAware.applyFix fonts_load
    (TokenAware.designSystemConfig
       (snd (TokenAware.loadDesignSystemViaMCP offline TokenAware.initial)))
    "1:3" "Text/Colour" {["1:3" := heading]}
  = (Normal (succeeded "Applied Functional/Carbon colour to text."),
     <["1:3" := set_fills heading (solid_fill {| r := 0.1; g := 0.1; b := 0.1 |})]>
       {["1:3" := heading]}).
Proof.
  refine (proj1 (proj2 (proj2 (proj2 C9_blank_load_and_carbon_default))
                   fonts_load _ {["1:3" := heading]} heading [solid grey] _ _ _ _)
            inter _ _ _);
    try (vm_compute; reflexivity).
Defined.

(** ** The token-aware analysis has no typography rule *)

Lemma token_rules_no_typography (cfg : TokenAware.DesignSystemConfig) (n : Node) :
  of_type "Typography" (emitted (TokenAware.rules cfg n)) = [].
Proof.
  unfold emitted, TokenAware.rules, TokenAware.fill_rule, TokenAware.button_rule,
    bind, lift, ret, push, modify.
  fix_cases; simplify_eq; reflexivity.
Qed.

(* ================================================================= *)
(** * Further properties of the analysis *)

Lemma emitted_bind {A B} (m : M (list DesignIssue) A) (k : A -> M (list DesignIssue) B) :
  (forall a, appends (k a)) ->
  emitted (bind m k)
  = (emitted m ++ match fst (m []) with
                  | Normal a => emitted (k a)
                  | Throw _ => []
                  end)%list.
Proof.
  intros Hk. unfold emitted, bind.
  destruct (m []) as [[a|e] out]; simpl; [|by rewrite app_nil_r].
  by rewrite (Hk a out).
Qed.


Lemma length_for_of {A} (w : A -> nat) (l : list A) (f : A -> M (list DesignIssue) unit) :
  (forall x, appends (f x)) ->
  Forall (fun x => length (emitted (f x)) <= w x) l ->
  length (emitted (for_of l f)) <= list_sum (map w l).
Proof.
  intros Hf. induction 1 as [|x t Hx Ht IH]; simpl; [lia|].
  rewrite emitted_bind.
  - rewrite length_app. destruct (fst (f x [])); simpl; lia.
  - intros _. apply appends_for_of, Forall_forall. intros y _. apply Hf.
Qed.

Section WalkIssues.

Variable rules : Node -> M (list DesignIssue) unit.
Hypothesis rules_append : forall n, appends (rules n).



(** With at most [bound] issues of the rules on a node, a traversal emits
    at most [bound] issues for each visited node. *)
Lemma traverse_length (bound : nat) :
  (forall n, length (emitted (rules n)) <= bound) ->
  forall n, length (emitted (Walk.traverse rules n)) <= bound * length (visited n).
Proof.
  intros Hb. induction n as [n IH] using Node_nested_ind.
  rewrite traverse_eq, visited_eq.
  rewrite emitted_bind; [|intros []; auto with appends].
  2:{ apply appends_bind; [apply rules_append | intros _].
      destruct (children n); auto with appends. by apply walk_appends. }
  change (emitted (lift (skipped n))) with (@nil DesignIssue). simpl.
  destruct (skipped n) as [[]|e] eqn:Hs; simpl; try lia.
  apply skipped_visited in Hs. apply (f_equal negb) in Hs.
  rewrite negb_involutive in Hs. simpl in Hs. rewrite <- Hs.
  rewrite emitted_bind.
  2:{ intros _. destruct (children n); auto with appends. by apply walk_appends. }
  rewrite length_app. simpl length. specialize (Hb n).
  assert (Hkids : length (match fst (rules n []) with
                          | Normal _ => emitted (match children n with
                                                 | Absent => ret tt
                                                 | Mixed => throw TypeError_not_iterable
                                                 | Val cs => Walk.walk rules cs
                                                 | Raises e => throw e
                                                 end)
                          | Throw _ => []
                          end)
                  <= bound * length (match children n with
                                     | Val cs => flat_map visited cs
                                     | _ => []
                                     end)).
  { destruct (fst (rules n [])); [|simpl; lia].
    destruct (children n) as [| |cs|e] eqn:Hc; simpl; try lia.
    specialize (IH cs eq_refl). clear Hc.
    unfold Walk.walk.
    etransitivity;
      [apply (length_for_of (fun c => bound * length (visited c)));
       [apply traverse_appends, rules_append | exact IH]|].
    clear IH. induction cs as [|c cs IHcs]; simpl; [lia|].
    rewrite length_app. lia. }
  lia.
Qed.

Lemma walk_length (bound : nat) (roots : list Node) :
  (forall n, length (emitted (rules n)) <= bound) ->
  length (emitted (Walk.walk rules roots)) <= bound * length (flat_map visited roots).
Proof.
  intros Hb. unfold Walk.walk.
  etransitivity;
    [apply (length_for_of (fun c => bound * length (visited c)));
     [apply traverse_appends, rules_append
     | apply Forall_forall; intros c _; by apply traverse_length]|].
  induction roots as [|c cs IH]; simpl; [lia|].
  rewrite length_app. lia.
Qed.

End WalkIssues.



Lemma local_runAnalysis_eq (nodes : list Node) :
  LocalRules.runAnalysis nodes = Normal (emitted (LocalRules.walk nodes)).
Proof.
  unfold LocalRules.runAnalysis.
  pose proof (snd_try_catch_ret (LocalRules.walk nodes) []) as H.
  destruct (try_catch _ _ _) as [c out]. simpl in H. by rewrite H.
Qed.

Lemma token_analyse_eq (cfg : TokenAware.DesignSystemConfig) (nodes : list Node) :
  TokenAware.analyse cfg nodes = emitted (TokenAware.walk cfg nodes).
Proof. unfold TokenAware.analyse. apply snd_try_catch_ret. Qed.


Section WalkBlocks.

Variable rules : Node -> M (list DesignIssue) unit.
Hypothesis rules_append : forall n, appends (rules n).




End WalkBlocks.





(** The selection is walked root after root: when the walk of the first
    roots completes, the issues of a longer selection are theirs followed
    by those of the remaining roots walked alone. *)
Theorem selection_concatenates :
  forall (first rest : list Node) (found : list DesignIssue),
    (LocalRules.walk first [] = (Normal tt, found) ->
     exists more,
       LocalRules.runAnalysis rest = Normal more
       /\ LocalRules.runAnalysis (first ++ rest) = Normal (found ++ more)%list)
    /\ (forall cfg,
          TokenAware.walk cfg first [] = (Normal tt, found) ->
          TokenAware.analyse cfg (first ++ rest)
          = (found ++ TokenAware.analyse cfg rest)%list).
Proof.
  intros first rest found. split.
  - intros Hw. exists (emitted (LocalRules.walk rest)).
    split; [apply local_runAnalysis_eq|].
    rewrite local_runAnalysis_eq. f_equal.
    unfold emitted, LocalRules.walk, Walk.walk in *. rewrite for_of_app, Hw.
    pose proof (walk_appends LocalRules.rules local_rules_append rest found) as Ha.
    unfold Walk.walk in Ha. by rewrite Ha.
  - intros cfg Hw. rewrite !token_analyse_eq.
    unfold emitted, TokenAware.walk, Walk.walk in *. rewrite for_of_app, Hw.
    pose proof (walk_appends (TokenAware.rules cfg) (token_rules_append cfg) rest found)
      as Ha.
    unfold Walk.walk in Ha. by rewrite Ha.
Qed.

Lemma selection_concatenates_witness :
  LocalRules.runAnalysis ([primary_button] ++ [heading])
  = Normal ([hardcoded_fill_issue primary_button; button_style_issue primary_button]
            ++ [hardcoded_fill_issue heading; typography_issue heading "18"])%list.
Proof.
  destruct (proj1 (selection_concatenates [primary_button] [heading]
                     [hardcoded_fill_issue primary_button; button_style_issue primary_button]))
    as (more & Hmore & Hall); [vm_compute; reflexivity|].
  rewrite Hall. f_equal. f_equal.
  assert (Hh : LocalRules.runAnalysis [heading]
               = Normal [hardcoded_fill_issue heading; typography_issue heading "18"])
    by (vm_compute; reflexivity).
  congruence.
Defined.

(** ** The hardcoded-fill rule and the typography rule *)

Lemma is_visible_solid_spec (p : Paint) :
  is_visible_solid p = true <-> paint_type p = "SOLID" /\ paint_visible p = true.
Proof.
  unfold is_visible_solid. rewrite andb_true_iff, String.eqb_eq. reflexivity.
Qed.

Lemma find_solid_exists (l : list Paint) :
  (exists f, find_solid l = Some f)
  <-> Exists (fun p => paint_type p = "SOLID" /\ paint_visible p = true) l.
Proof.
  unfold find_solid. induction l as [|q l IH]; simpl.
  - split; [intros [f H]; discriminate | intros H; inversion H].
  - destruct (is_visible_solid q) eqn:E.
    + split; [|eauto]. intros _. left. by apply is_visible_solid_spec.
    + rewrite IH. split; [by right|].
      intros H. inversion H as [? ? Hq|]; subst; [|assumption].
      apply is_visible_solid_spec in Hq. congruence.
Qed.

Lemma unstyled_solid_find (node : Node) :
  unstyled_solid node <-> hardcoded_fill node.
Proof.
  unfold unstyled_solid, hardcoded_fill. split.
  - intros (l & Hf & Hs & He). apply find_solid_exists in He as [f He]. eauto.
  - intros (l & f & Hf & He & Hs). exists l. repeat split; try assumption.
    apply find_solid_exists. eauto.
Qed.

(** The hardcoded-fill rule fires exactly on a node that exposes a fill
    array, has no fill-style reference (an empty or absent [fillStyleId];
    [figma.mixed] counts as a reference) and holds a visible solid paint
    anywhere in the array: paints before it that are hidden or not solid
    do not hide it.  The issue is 'Colour/Token' in [code.ts]; in the
    token-aware file it is 'Text/Colour' on a text node and 'Colour/Token'
    on any other. *)
Theorem fill_rule_fires_iff :
  forall node : Node,
    (unstyled_solid node ->
     forall acc,
       LocalRules.rule4 node acc = (Normal tt, (acc ++ [hardcoded_fill_issue node])%list)
       /\ TokenAware.fill_rule node acc
          = (Normal tt, (acc ++ [token_fill_issue node])%list))
    /\ (~ unstyled_solid node ->
        emitted (LocalRules.rule4 node) = []
        /\ emitted (TokenAware.fill_rule node) = []).
Proof.
  intros node. split.
  - intros H. apply unstyled_solid_find in H as (l & f & Hf & He & Hs). intros acc.
    unfold LocalRules.rule4, TokenAware.fill_rule, token_fill_issue, bind, lift.
    rewrite Hf. simpl. rewrite Hs. simpl. rewrite He.
    split; [reflexivity | by destruct (String.eqb (type node) "TEXT")].
  - intros H.
    assert (Hno : forall l, fills node = Val l ->
                            not_truthy (fillStyleId node) = Normal true ->
                            find_solid l = None).
    { intros l Hf Hs. destruct (find_solid l) as [f|] eqn:He; [|reflexivity].
      exfalso. apply H, unstyled_solid_find. exists l, f. by repeat split. }
    unfold emitted, LocalRules.rule4, TokenAware.fill_rule, bind, lift.
    destruct (fills node) as [| |l|e]; simpl; try (split; reflexivity).
    destruct (not_truthy (fillStyleId node)) as [[]|e]; simpl; try (split; reflexivity).
    by rewrite (Hno l eq_refl eq_refl).
Qed.

(** A hidden gradient in front of a visible solid paint does not hide it. *)
Lemma fill_rule_fires_iff_witness :
  LocalRules.rule4
    (set_fills primary_button
       [ {| paint_type := "GRADIENT_LINEAR"; color := grey; opacity := 1;
            paint_visible := true; blendMode := "NORMAL" |};
         {| paint_type := "SOLID"; color := grey; opacity := 1;
            paint_visible := false; blendMode := "NORMAL" |};
         solid grey ])
    []
  = (Normal tt, [hardcoded_fill_issue primary_button]).
Proof.
  refine (proj1 (proj1 (fill_rule_fires_iff _) _ [])).
  eexists. repeat split; [reflexivity..|].
  right. right. left. by split.
Defined.

(** The typography rule of [code.ts] fires exactly on a text node whose
    font size is a number other than 14: the size is rendered in the
    detail as JavaScript prints it; a size of 14, a [figma.mixed] size and
    a node that is not text give no issue; a NaN size is flagged. *)
Theorem typography_rule_fires_iff :
  forall node : Node,
    (forall x acc,
        type node = "TEXT" -> fontSize node = Val x ->
        (x =? 14)%float = false ->
        LocalRules.rule5 node acc
        = (Normal tt, (acc ++ [typography_issue node (Js.Number_toString x)])%list))
    /\ (forall acc,
          type node <> "TEXT" \/ fontSize node = Mixed \/ fontSize node = Absent
          \/ (exists x, fontSize node = Val x /\ (x =? 14)%float = true) ->
          LocalRules.rule5 node acc = (Normal tt, acc)).
Proof.
  intros node. split.
  - intros x acc Ht Hz Hx.
    assert (H14 : Js.Number_toString LocalRules.APPROVED_FONT_SIZE = "14")
      by (vm_compute; reflexivity).
    unfold LocalRules.rule5, bind, lift, typography_issue. rewrite Ht, Hz. simpl.
    unfold LocalRules.APPROVED_FONT_SIZE in *. by rewrite Hx, H14.
  - intros acc H. unfold LocalRules.rule5, bind, lift.
    destruct (String.eqb_spec (type node) "TEXT") as [Ht|Ht]; [|reflexivity].
    destruct H as [H | [-> | [-> | (x & -> & Hx)]]]; try reflexivity; [contradiction|].
    simpl. unfold LocalRules.APPROVED_FONT_SIZE. by rewrite Hx.
Qed.

(** A text node whose size is not a number is flagged, with "NaN" in the
    detail. *)
Lemma typography_rule_fires_iff_witness :
  LocalRules.rule5 (set_fontSize heading nan) []
  = (Normal tt, [typography_issue heading "NaN"]).
Proof.
  refine (proj1 (typography_rule_fires_iff (set_fontSize heading nan)) nan [] _ _ _);
    reflexivity.
Defined.

(* ================================================================= *)
(** * Further properties of the fix engine *)

Ltac fix_paths H :=
  repeat match type of H with
         | context [match ?x with _ => _ end] =>
             lazymatch x with
             | context [match _ with _ => _ end] => fail
             | _ => destruct x eqn:?; simpl in H
             end
         end.

(** ** A fix that fails changes nothing *)

Lemma local_failed_fix (lf : FontName -> completion unit) (nodeId issueType : string)
    (doc doc' : Document) (c : completion FixResult) :
  LocalRules.applyFix lf nodeId issueType doc = (c, doc') ->
  (forall msg, c <> Normal (succeeded msg)) ->
  doc' = doc.
Proof.
  intros H Hne.
  unfold LocalRules.applyFix, LocalRules.dispatch, try_catch, bind, get, lift, ret, modify,
    runtime_error, font_guard, instance_guard, throw in H.
  fix_paths H; unfold ret in *; simplify_eq; try reflexivity;
    exfalso; eapply Hne; reflexivity.
Qed.

Lemma token_failed_fix (lf : FontName -> completion unit)
    (cfg : TokenAware.DesignSystemConfig) (nodeId issueType : string)
    (doc doc' : Document) (c : completion FixResult) :
  TokenAware.applyFix lf cfg nodeId issueType doc = (c, doc') ->
  (forall msg, c <> Normal (succeeded msg)) ->
  doc' = doc.
Proof.
  intros H Hne.
  unfold TokenAware.applyFix, TokenAware.dispatch, try_catch, bind, get, lift, ret, modify,
    runtime_error, font_guard, instance_guard, throw in H.
  fix_paths H; unfold ret in *; simplify_eq; try reflexivity;
    exfalso; eapply Hne; reflexivity.
Qed.

(** A fix that does not return success, be it an error outcome or an
    exception out of [applyFix], leaves every node of the document as it
    was: no path mutates before it refuses. *)
Theorem failed_fix_changes_nothing :
  forall (lf : FontName -> completion unit) (cfg : TokenAware.DesignSystemConfig)
         (nodeId issueType : string) (doc doc' : Document) (c : completion FixResult),
    (forall msg, c <> Normal (succeeded msg)) ->
    (LocalRules.applyFix lf nodeId issueType doc = (c, doc') -> doc' = doc)
    /\ (TokenAware.applyFix lf cfg nodeId issueType doc = (c, doc') -> doc' = doc).
Proof.
  intros lf cfg nodeId issueType doc doc' c Hne. split; intros H.
  - by apply (local_failed_fix lf nodeId issueType doc doc' c).
  - by apply (token_failed_fix lf cfg nodeId issueType doc doc' c).
Qed.

Lemma failed_fix_changes_nothing_witness :
  snd (LocalRules.applyFix fonts_load "1:4" "Colour/Token" {["1:4" := mixed_text]})
  = {["1:4" := mixed_text]}.
Proof.
  refine (proj1 (failed_fix_changes_nothing fonts_load TokenAware.DEFAULT_CONFIG
                   "1:4" "Colour/Token" {["1:4" := mixed_text]} _
                   (Normal (failed "Text layer uses mixed fonts (figma.mixed) and cannot be auto-fixed."))
                   _) _).
  - intros msg H. inversion H.
  - vm_compute. reflexivity.
Defined.

(** ** A fix that succeeds: what it writes, and applying it again *)

Ltac replay_fix :=
  rewrite lookup_insert_eq;
  cbn [id name type visible locked fills fillStyleId fontSize fontName children
       set_fills set_fontSize in_and_isArray in_and_truthy existsb fillableTypes];
  repeat match goal with
         | H : ?x = _ |- context [?x] =>
             rewrite H;
             cbn [id name type visible locked fills fillStyleId fontSize fontName children
                  set_fills set_fontSize in_and_isArray in_and_truthy existsb fillableTypes
                  negb]
         end.

Lemma local_fix_success (lf : FontName -> completion unit) (nodeId issueType : string)
    (doc doc' : Document) (msg : string) :
  LocalRules.applyFix lf nodeId issueType doc = (Normal (succeeded msg), doc') ->
  exists node node',
    doc !! nodeId = Some node
    /\ doc' = <[nodeId := node']> doc
    /\ (issueType = "Colour/Token"
        /\ node' = set_fills node (solid_fill LocalRules.GRAY_500_RGB)
        \/ issueType = "Button/Style"
           /\ node' = set_fills node (solid_fill LocalRules.PRIMARY_BUTTON_COLOR_RGB)
        \/ issueType = "Typography"
           /\ node' = set_fontSize node LocalRules.APPROVED_FONT_SIZE)
    /\ LocalRules.applyFix lf nodeId issueType doc' = (Normal (succeeded msg), doc').
Proof.
  intros H.
  unfold LocalRules.applyFix, LocalRules.dispatch, try_catch, bind, get, lift, ret, modify,
    runtime_error, font_guard, instance_guard, throw, no_change, failed, succeeded in H.
  fix_paths H; unfold ret in *; simplify_eq.
  all: eexists _, _; split; [reflexivity|]; split; [reflexivity|]; split;
    [ first [ left; split; [by apply String.eqb_eq | reflexivity]
            | right; left; split; [by apply String.eqb_eq | reflexivity]
            | right; right; split; [by apply String.eqb_eq | reflexivity] ] |].
  all: unfold LocalRules.applyFix, LocalRules.dispatch, try_catch, bind, get, lift, ret,
         modify, font_guard, instance_guard; replay_fix.
  all: unfold ret; cbv beta iota; by rewrite insert_insert_eq.
Qed.

Lemma token_fix_success (lf : FontName -> completion unit)
    (cfg : TokenAware.DesignSystemConfig) (nodeId issueType : string)
    (doc doc' : Document) (msg : string) :
  TokenAware.applyFix lf cfg nodeId issueType doc = (Normal (succeeded msg), doc') ->
  exists node node',
    doc !! nodeId = Some node
    /\ doc' = <[nodeId := node']> doc
    /\ (issueType = "Text/Colour"
        /\ node' = set_fills node
                     (solid_fill (TokenAware.token_or cfg "Functional/Carbon"
                                    TokenAware.default_carbon))
        \/ issueType = "Colour/Token"
           /\ node' = set_fills node
                        (solid_fill (TokenAware.token_or cfg "Functional/Carbon"
                                       TokenAware.default_carbon))
        \/ issueType = "Button/Style"
           /\ node' = set_fills node
                        (solid_fill (TokenAware.token_or cfg "Primary/Blue/600"
                                       TokenAware.default_primary)))
    /\ TokenAware.applyFix lf cfg nodeId issueType doc' = (Normal (succeeded msg), doc').
Proof.
  intros H.
  unfold TokenAware.applyFix, TokenAware.dispatch, try_catch, bind, get, lift, ret, modify,
    runtime_error, font_guard, instance_guard, throw, no_change, failed, succeeded in H.
  fix_paths H; unfold ret in *; simplify_eq.
  all: eexists _, _; split; [reflexivity|]; split; [reflexivity|]; split;
    [ first [ left; split; [by apply String.eqb_eq | reflexivity]
            | right; left; split; [by apply String.eqb_eq | reflexivity]
            | right; right; split; [by apply String.eqb_eq | reflexivity] ] |].
  all: unfold TokenAware.applyFix, TokenAware.dispatch, try_catch, bind, get, lift, ret,
         modify, font_guard, instance_guard; replay_fix.
  all: unfold ret; cbv beta iota; by rewrite insert_insert_eq.
Qed.



(** Applying a fix that succeeded once more succeeds with the same
    message and leaves the document as the first application left it. *)
Theorem fix_is_idempotent :
  forall (lf : FontName -> completion unit) (cfg : TokenAware.DesignSystemConfig)
         (nodeId issueType : string) (doc doc' : Document) (msg : string),
    (LocalRules.applyFix lf nodeId issueType doc = (Normal (succeeded msg), doc') ->
     LocalRules.applyFix lf nodeId issueType doc' = (Normal (succeeded msg), doc'))
    /\ (TokenAware.applyFix lf cfg nodeId issueType doc = (Normal (succeeded msg), doc') ->
        TokenAware.applyFix lf cfg nodeId issueType doc' = (Normal (succeeded msg), doc')).
Proof.
  intros lf cfg nodeId issueType doc doc' msg. split; intros H.
  - by apply local_fix_success in H as (node & node' & _ & _ & _ & H2).
  - by apply token_fix_success in H as (node & node' & _ & _ & _ & H2).
Qed.

Lemma fix_is_idempotent_witness :
  LocalRules.applyFix fonts_load "1:3" "Typography"
    (<["1:3" := set_fontSize heading 14]> {["1:3" := heading]})
  = (Normal (succeeded "Set font size to 14px."),
     <["1:3" := set_fontSize heading 14]> {["1:3" := heading]}).
Proof.
  refine (proj1 (fix_is_idempotent fonts_load TokenAware.DEFAULT_CONFIG "1:3" "Typography"
                   {["1:3" := heading]} _ "Set font size to 14px.") _).
  vm_compute. reflexivity.
Defined.

(** ** Analysing again after a fix *)

Lemma unstyled_solid_fires (node : Node) (acc : list DesignIssue) :
  unstyled_solid node ->
  LocalRules.rule4 node acc = (Normal tt, (acc ++ [hardcoded_fill_issue node])%list)
  /\ TokenAware.fill_rule node acc = (Normal tt, (acc ++ [token_fill_issue node])%list).
Proof.
  intros H. apply unstyled_solid_find in H as (l & f & Hf & He & Hs).
  unfold LocalRules.rule4, TokenAware.fill_rule, token_fill_issue, bind, lift.
  rewrite Hf. simpl. rewrite Hs. simpl. rewrite He.
  split; [reflexivity | by destruct (String.eqb (type node) "TEXT")].
Qed.

Lemma unstyled_solid_set_fills (node : Node) (c : RGB) :
  unstyled_solid node -> unstyled_solid (set_fills node (solid_fill c)).
Proof.
  intros (l & _ & Hs & _). exists (solid_fill c).
  split; [reflexivity|]. split; [exact Hs|]. left. by split.
Qed.

Lemma not_success (c : completion FixResult) :
  (exists msg, c = Normal (succeeded msg)) \/ (forall msg, c <> Normal (succeeded msg)).
Proof.
  destruct c as [[[] m]|e]; [left; by exists m | right; intros msg H; inversion H
                            | right; intros msg H; inversion H].
Qed.

(** The colour fixes write a hardcoded solid paint and attach no fill
    style: a node the hardcoded-fill rule reports is still reported after
    its fix, whether the fix succeeded or was refused.  So is it in
    [code.ts] after 'Colour/Token', and in the token-aware file after
    'Text/Colour' and 'Colour/Token'. *)
Theorem colour_fix_keeps_issue :
  forall (lf : FontName -> completion unit) (cfg : TokenAware.DesignSystemConfig)
         (nodeId : string) (doc doc' : Document) (node : Node) (c : completion FixResult),
    doc !! nodeId = Some node ->
    unstyled_solid node ->
    (LocalRules.applyFix lf nodeId "Colour/Token" doc = (c, doc') ->
     exists node',
       doc' !! nodeId = Some node'
       /\ LocalRules.rule4 node' [] = (Normal tt, [hardcoded_fill_issue node']))
    /\ (forall issueType,
          issueType = "Text/Colour" \/ issueType = "Colour/Token" ->
          TokenAware.applyFix lf cfg nodeId issueType doc = (c, doc') ->
          exists node',
            doc' !! nodeId = Some node'
            /\ TokenAware.fill_rule node' [] = (Normal tt, [token_fill_issue node'])).
Proof.
  intros lf cfg nodeId doc doc' node c Hd Hu. split.
  - intros H. destruct (not_success c) as [[msg ->] | Hne].
    + apply local_fix_success in H as (n & n' & Hd' & -> & Hn & _).
      assert (n = node) as -> by congruence.
      exists n'. split; [apply lookup_insert_eq|].
      destruct Hn as [[_ ->] | [[Hty _] | [Hty _]]]; try discriminate.
      apply (unstyled_solid_fires _ []). by apply unstyled_solid_set_fills.
    + rewrite (local_failed_fix lf nodeId _ doc doc' c H Hne).
      exists node. split; [exact Hd|]. by apply (unstyled_solid_fires _ []).
  - intros issueType Hty H. destruct (not_success c) as [[msg ->] | Hne].
    + apply token_fix_success in H as (n & n' & Hd' & -> & Hn & _).
      assert (n = node) as -> by congruence.
      exists n'. split; [apply lookup_insert_eq|].
      destruct Hn as [[_ ->] | [[_ ->] | [Hb _]]].
      * apply (unstyled_solid_fires _ []). by apply unstyled_solid_set_fills.
      * apply (unstyled_solid_fires _ []). by apply unstyled_solid_set_fills.
      * destruct Hty as [-> | ->]; discriminate.
    + rewrite (token_failed_fix lf cfg nodeId _ doc doc' c H Hne).
      exists node. split; [exact Hd|]. by apply (unstyled_solid_fires _ []).
Qed.

Lemma primary_button_unstyled : unstyled_solid primary_button.
Proof. exists [solid grey]. split; [reflexivity|]. split; [reflexivity|]. left. by split. Qed.

(** After the colour fix of the grey button, the button is reported again. *)
Lemma colour_fix_keeps_issue_witness :
  exists node',
    snd (LocalRules.applyFix fonts_load "1:2" "Colour/Token" {["1:2" := primary_button]})
      !! "1:2" = Some node'
    /\ LocalRules.rule4 node' [] = (Normal tt, [hardcoded_fill_issue node']).
Proof.
  refine (proj1 (colour_fix_keeps_issue fonts_load TokenAware.DEFAULT_CONFIG "1:2"
                   {["1:2" := primary_button]} _ primary_button _ eq_refl
                   primary_button_unstyled) _).
  apply surjective_pairing.
Defined.








(** ** Refusals of the fix engine *)

Ltac enter_fix Hd Hl :=
  unfold LocalRules.applyFix, TokenAware.applyFix, bind, get, lift;
  rewrite Hd, Hl;
  unfold try_catch, LocalRules.dispatch, TokenAware.dispatch, bind, lift.

(** On a node that resolves and is not locked, [applyFix] refuses, with
    the document unchanged: the colour-token fix of a node whose type is
    outside the allow-list, with the type in the message and before the
    fills are read; the colour-token and button-style fixes of a
    component instance without fill style; and every fix that reaches a
    text node whose font cannot be loaded. *)
Theorem fix_refusals :
  forall (lf : FontName -> completion unit) (cfg : TokenAware.DesignSystemConfig)
         (nodeId : string) (doc : Document) (node : Node),
    doc !! nodeId = Some node ->
    in_and_truthy (locked node) = Normal false ->
    (existsb (String.eqb (type node)) fillableTypes = false ->
     LocalRules.applyFix lf nodeId "Colour/Token" doc
     = (Normal (failed ("Cannot apply fill fix to node type: " ++ type node ++ ".")), doc)
     /\ TokenAware.applyFix lf cfg nodeId "Colour/Token" doc
        = (Normal (failed ("Cannot apply fill fix to node type: " ++ type node ++ ".")), doc))
    /\ (forall l issueType,
          type node = "INSTANCE" -> fills node = Val l ->
          not_truthy (fillStyleId node) = Normal true ->
          issueType = "Colour/Token" \/ issueType = "Button/Style" ->
          LocalRules.applyFix lf nodeId issueType doc
          = (Normal (failed "Instance property may be locked or unoverrideable."), doc)
          /\ TokenAware.applyFix lf cfg nodeId issueType doc
             = (Normal (failed "Instance property may be locked or unoverrideable."), doc))
    /\ (forall l issueType,
          type node = "TEXT" -> fills node = Val l -> font_unavailable lf node ->
          (In issueType local_cases ->
           LocalRules.applyFix lf nodeId issueType doc
           = (Normal (failed "Failed to load font for text layer. Manual fix required."), doc))
          /\ (In issueType token_cases ->
              TokenAware.applyFix lf cfg nodeId issueType doc
              = (Normal (failed "Failed to load font for text layer. Manual fix required."),
                 doc))).
Proof.
  intros lf cfg nodeId doc node Hd Hl. split; [|split].
  - intros Ht. enter_fix Hd Hl. rewrite Ht. split; reflexivity.
  - intros l issueType Ht Hf Hs Hty. enter_fix Hd Hl.
    unfold instance_guard. rewrite Ht, Hf, Hs.
    destruct Hty as [-> | ->]; split; reflexivity.
  - intros l issueType Ht Hf Hfont.
    assert (Hg : forall doc0 : Document,
               font_guard lf node doc0
               = (Normal (Some (failed "Failed to load font for text layer. Manual fix required.")),
                  doc0)).
    { intros doc0. unfold font_guard.
      destruct Hfont as [-> | (f & e & -> & ->)]; reflexivity. }
    split; intros Hin; simpl in Hin; enter_fix Hd Hl; unfold instance_guard;
      rewrite Ht, Hf;
      repeat destruct Hin as [<- | Hin]; try contradiction; simpl;
      unfold bind; by rewrite Hg.
Qed.

(** A group is outside the allow-list of the colour-token fix. *)
Lemma fix_refusals_witness :
  LocalRules.applyFix fonts_load "1:7" "Colour/Token" {["1:7" := hidden_group]}
  = (Normal (failed "Cannot apply fill fix to node type: GROUP."), {["1:7" := hidden_group]}).
Proof.
  refine (proj1 (proj1 (fix_refusals fonts_load TokenAware.DEFAULT_CONFIG "1:7"
                          {["1:7" := hidden_group]} hidden_group _ _) _));
    vm_compute; reflexivity.
Defined.

(** On a node that resolves and is not locked, a fix whose case does not
    apply ends with 'Fix logic did not apply any changes.' and the
    document unchanged: the typography fix (and the text-colour fix of
    the token-aware file) on a node that is not text; the button-style
    fix on a node whose fills are not an array, absent or [figma.mixed];
    and the colour-token fix on such a node when its type is in the
    allow-list (a type outside it is refused first, with the message
    that names the type). *)
Theorem fix_without_effect :
  forall (lf : FontName -> completion unit) (cfg : TokenAware.DesignSystemConfig)
         (nodeId : string) (doc : Document) (node : Node),
    doc !! nodeId = Some node ->
    in_and_truthy (locked node) = Normal false ->
    (type node <> "TEXT" ->
     LocalRules.applyFix lf nodeId "Typography" doc = (Normal no_change, doc)
     /\ TokenAware.applyFix lf cfg nodeId "Typography" doc = (Normal no_change, doc)
     /\ TokenAware.applyFix lf cfg nodeId "Text/Colour" doc = (Normal no_change, doc))
    /\ (in_and_isArray (fills node) = Normal None ->
        (LocalRules.applyFix lf nodeId "Button/Style" doc = (Normal no_change, doc)
         /\ TokenAware.applyFix lf cfg nodeId "Button/Style" doc = (Normal no_change, doc))
        /\ (existsb (String.eqb (type node)) fillableTypes = true ->
            LocalRules.applyFix lf nodeId "Colour/Token" doc = (Normal no_change, doc)
            /\ TokenAware.applyFix lf cfg nodeId "Colour/Token" doc
               = (Normal no_change, doc))).
Proof.
  intros lf cfg nodeId doc node Hd Hl. split.
  - intros Ht. apply String.eqb_neq in Ht. enter_fix Hd Hl. simpl. by rewrite Ht.
  - intros Hf. split; [|intros Ht]; enter_fix Hd Hl.
    + rewrite Hf. split; reflexivity.
    + rewrite Ht, Hf. split; reflexivity.
Qed.

(** A group has no fills: its button-style fix does nothing. *)
Lemma fix_without_effect_witness :
  LocalRules.applyFix fonts_load "1:7" "Button/Style" {["1:7" := hidden_group]}
  = (Normal no_change, {["1:7" := hidden_group]}).
Proof.
  refine (proj1 (proj1 (proj2 (fix_without_effect fonts_load TokenAware.DEFAULT_CONFIG "1:7"
                                 {["1:7" := hidden_group]} hidden_group _ _) _)));
    vm_compute; reflexivity.
Defined.

(** A getter that throws while the case of the fix runs is caught by the
    handler of [applyFix] and becomes the error outcome 'Runtime error
    during fix: <message>' ('An unknown error occurred.' for an empty
    message), the document unchanged; the lock is read before the [try],
    and a lock getter that throws makes [applyFix] itself throw. *)
Theorem fix_runtime_errors :
  forall (lf : FontName -> completion unit) (cfg : TokenAware.DesignSystemConfig)
         (nodeId : string) (doc : Document) (node : Node) (e : string),
    doc !! nodeId = Some node ->
    (forall issueType,
        locked node = Raises e ->
        LocalRules.applyFix lf nodeId issueType doc = (Throw e, doc)
        /\ TokenAware.applyFix lf cfg nodeId issueType doc = (Throw e, doc))
    /\ (in_and_truthy (locked node) = Normal false ->
        (fills node = Raises e ->
         (LocalRules.applyFix lf nodeId "Button/Style" doc
          = (Normal (failed (runtime_message e)), doc)
          /\ TokenAware.applyFix lf cfg nodeId "Button/Style" doc
             = (Normal (failed (runtime_message e)), doc))
         /\ (existsb (String.eqb (type node)) fillableTypes = true ->
             LocalRules.applyFix lf nodeId "Colour/Token" doc
             = (Normal (failed (runtime_message e)), doc)
             /\ TokenAware.applyFix lf cfg nodeId "Colour/Token" doc
                = (Normal (failed (runtime_message e)), doc)))
        /\ (type node = "TEXT" -> fontName node = Raises e ->
            LocalRules.applyFix lf nodeId "Typography" doc
            = (Normal (failed (runtime_message e)), doc)
            /\ TokenAware.applyFix lf cfg nodeId "Typography" doc
               = (Normal (failed (runtime_message e)), doc)
            /\ TokenAware.applyFix lf cfg nodeId "Text/Colour" doc
               = (Normal (failed (runtime_message e)), doc))).
Proof.
  intros lf cfg nodeId doc node e Hd. split.
  - intros issueType Hl.
    unfold LocalRules.applyFix, TokenAware.applyFix, bind, get, lift.
    by rewrite Hd, Hl.
  - intros Hl. split.
    + intros Hf. split; [|intros Ht]; enter_fix Hd Hl.
      * rewrite Hf. split; reflexivity.
      * rewrite Ht, Hf. split; reflexivity.
    + intros Ht Hf. enter_fix Hd Hl. unfold font_guard. rewrite Ht, Hf.
      repeat split; reflexivity.
Qed.

(** The frame whose [children] getter throws resolves; with a lock getter
    that throws, its fix throws. *)
Lemma fix_runtime_errors_witness :
  LocalRules.applyFix fonts_load "1:6" "Colour/Token"
    {["1:6" := set_locked broken_frame (Raises "node was removed")]}
  = (Throw "node was removed",
     {["1:6" := set_locked broken_frame (Raises "node was removed")]}).
Proof.
  refine (proj1 (proj1 (fix_runtime_errors fonts_load TokenAware.DEFAULT_CONFIG "1:6"
                          {["1:6" := set_locked broken_frame (Raises "node was removed")]}
                          (set_locked broken_frame (Raises "node was removed"))
                          "node was removed" _) "Colour/Token" _));
    vm_compute; reflexivity.
Defined.

(* ================================================================= *)
(** * Further properties of the token loader *)

(** ** Loads that only add tokens *)

Lemma keeps_keys_refl {A} (m : gmap string A) : keeps_keys m m.
Proof. by intros k. Qed.

Lemma keeps_keys_insert {A} (m : gmap string A) (k : string) (a : A) :
  keeps_keys m (<[k := a]> m).
Proof.
  intros k' H. destruct (decide (k = k')) as [->|Hne].
  - rewrite lookup_insert_eq. eauto.
  - by rewrite lookup_insert_ne.
Qed.

Lemma store_grows_refl (cfg : TokenAware.DesignSystemConfig) : store_grows cfg cfg.
Proof. repeat split; apply keeps_keys_refl. Qed.

Lemma store_grows_trans (c1 c2 c3 : TokenAware.DesignSystemConfig) :
  store_grows c1 c2 -> store_grows c2 c3 -> store_grows c1 c3.
Proof.
  intros (A1 & B1 & C1 & D1) (A2 & B2 & C2 & D2).
  repeat split; try (intros k H; auto); congruence.
Qed.

Lemma growing_ret {A} (a : A) : growing (ret a).
Proof. intros st. apply store_grows_refl. Qed.

Lemma growing_throw {A} (e : string) : growing (@throw _ A e).
Proof. intros st. apply store_grows_refl. Qed.

Lemma growing_lift {A} (c : completion A) : growing (lift c).
Proof. intros st. apply store_grows_refl. Qed.

Lemma growing_bind {A B} (m : M TokenAware.State A) (k : A -> M TokenAware.State B) :
  growing m -> (forall a, growing (k a)) -> growing (bind m k).
Proof.
  intros Hm Hk st. unfold bind. specialize (Hm st).
  destruct (m st) as [[a|e] st']; simpl in *; [|exact Hm].
  eapply store_grows_trans; [exact Hm | apply Hk].
Qed.

Lemma growing_try_catch {A} (m : M TokenAware.State A) (h : string -> M TokenAware.State A) :
  growing m -> (forall e, growing (h e)) -> growing (try_catch m h).
Proof.
  intros Hm Hh st. unfold try_catch. specialize (Hm st).
  destruct (m st) as [[a|e] st']; simpl in *; [exact Hm|].
  eapply store_grows_trans; [exact Hm | apply Hh].
Qed.

Lemma growing_for_of {A} (l : list A) (f : A -> M TokenAware.State unit) :
  (forall x, growing (f x)) -> growing (for_of l f).
Proof.
  intros Hf. induction l as [|x t IH]; simpl; [apply growing_ret|].
  apply growing_bind; [apply Hf | intros _; exact IH].
Qed.

Lemma growing_set_colour (k : string) (c : RGB) :
  growing (TokenAware.update_config (TokenAware.set_colour k c)).
Proof.
  intros st. repeat split; simpl; try apply keeps_keys_refl. apply keeps_keys_insert.
Qed.

Lemma growing_set_textStyle (k : string) (t : TokenAware.CustomTextStyle) :
  growing (TokenAware.update_config (TokenAware.set_textStyle k t)).
Proof.
  intros st. repeat split; simpl; try apply keeps_keys_refl. apply keeps_keys_insert.
Qed.

Lemma growing_set_component (k : string) (t : TokenAware.ComponentToken) :
  growing (TokenAware.update_config (TokenAware.set_component k t)).
Proof.
  intros st. repeat split; simpl; try apply keeps_keys_refl. apply keeps_keys_insert.
Qed.

Lemma growing_net_await (w : TokenAware.World) : growing (TokenAware.net_await w).
Proof.
  intros st. unfold TokenAware.net_await, bind, get, put, throw, ret.
  destruct (TokenAware.deadline w) as [d|]; [destruct (d <=? _)%nat|]; simpl;
    apply store_grows_refl.
Qed.

Lemma growing_fetch (w : TokenAware.World) (url : string) : growing (TokenAware.fetch w url).
Proof.
  unfold TokenAware.fetch.
  apply growing_bind; [intros st; apply store_grows_refl | intros _].
  apply growing_bind; [apply growing_net_await | intros _; apply growing_lift].
Qed.

Lemma growing_json (w : TokenAware.World) (resp : TokenAware.Response) :
  growing (TokenAware.response_json w resp).
Proof.
  unfold TokenAware.response_json.
  apply growing_bind; [apply growing_net_await | intros _; apply growing_lift].
Qed.

Ltac growing_tac :=
  repeat first
    [ apply growing_ret | apply growing_throw | apply growing_lift
    | apply growing_set_colour | apply growing_set_textStyle | apply growing_set_component
    | apply growing_fetch | apply growing_json
    | apply growing_bind; [ | intros ? ]
    | apply growing_try_catch; [ | intros ? ]
    | apply growing_for_of; intros ?
    | match goal with
      | |- growing (match ?x with _ => _ end) => destruct x
      | |- growing (if ?x then _ else _) => destruct x
      | |- growing (let _ := _ in _) => cbv zeta
      end ].

Lemma remote_growing (w : TokenAware.World) (c : TokenAware.MCPConfig) :
  growing (TokenAware.loadFigmaDesignSystem w c).
Proof.
  unfold TokenAware.loadFigmaDesignSystem, TokenAware.loadStylesFromAPI,
    TokenAware.loadComponentsFromAPI.
  growing_tac.
Qed.

Lemma local_growing (w : TokenAware.World) : growing (TokenAware.loadLocalDesignSystem w).
Proof. unfold TokenAware.loadLocalDesignSystem. growing_tac. Qed.

(** The remote load, however far it gets and however it ends, and the
    local fallback only set tokens: every colour, text-style and
    component key of the store before is a key after, and the spacing
    tokens are left as they were (only the mock data define any). *)
Theorem loads_only_add_tokens :
  forall (w : TokenAware.World) (c : TokenAware.MCPConfig) (st : TokenAware.State),
    store_grows (TokenAware.designSystemConfig st)
                (TokenAware.designSystemConfig (snd (TokenAware.race w c st)))
    /\ store_grows (TokenAware.designSystemConfig st)
                   (TokenAware.designSystemConfig
                      (snd (TokenAware.loadLocalDesignSystem w st))).
Proof.
  intros w c st. split; [|apply local_growing].
  unfold TokenAware.race.
  apply growing_bind; [intros st0; apply store_grows_refl | intros _].
  apply remote_growing.
Qed.

(** ** The remote load when it succeeds *)

(** When the remote load wins the race against the timer and fulfils,
    the loader ends in the state the remote load left: the mock data are
    not loaded, so the store holds what it held before and what the API
    gave. *)
Theorem remote_success_skips_mock :
  forall (w : TokenAware.World) (st st1 : TokenAware.State) (c : TokenAware.MCPConfig),
    TokenAware.globalConfig st = Some c -> ~ absent_or_blank c ->
    TokenAware.race w c st = (Normal tt, st1) ->
    TokenAware.loadDesignSystemViaMCP w st = (Normal tt, st1).
Proof.
  intros w st st1 c Hc Hb Hr.
  assert (Hf : TokenAware.blank_token c = false).
  { destruct (TokenAware.blank_token c) eqn:E; [|reflexivity].
    exfalso. apply Hb. by apply blank_token_spec. }
  unfold TokenAware.loadDesignSystemViaMCP, try_catch, bind, get.
  rewrite Hc, Hf. unfold try_catch. by rewrite Hr.
Qed.

Lemma remote_success_skips_mock_witness :
  exists st1,
    TokenAware.race online
      {| TokenAware.figmaToken := Some "figd_token";
         TokenAware.fileKey := "KkqX7OKAggFzvfB0CMUwBz";
         TokenAware.baseUrl := "https://api.figma.com/v1" |} with_credential
    = (Normal tt, st1)
    /\ TokenAware.loadDesignSystemViaMCP online with_credential = (Normal tt, st1).
Proof.
  eexists. split.
  - vm_compute. reflexivity.
  - apply (remote_success_skips_mock online with_credential _ _ eq_refl).
    + intros [H | (t & H & Hb)]; [discriminate|].
      injection H as <-. vm_compute in Hb. discriminate.
    + vm_compute. reflexivity.
Defined.

(** ** The remote load when the API answers with an error *)

(** With a credential, when the timer has not fired before the first
    response and the response to the file request is not ok, the remote
    load rejects with 'Failed to fetch file: ' followed by the status
    text, after that one request and without touching the store, and the
    loader falls back to the mock data from there. *)
Theorem http_error_falls_back :
  forall (w : TokenAware.World) (st : TokenAware.State) (c : TokenAware.MCPConfig)
         (resp : TokenAware.Response),
    TokenAware.globalConfig st = Some c -> ~ absent_or_blank c ->
    TokenAware.deadline w <> Some 0 ->
    TokenAware.net w (file_url c) = Normal resp ->
    TokenAware.ok resp = false ->
    exists st1,
      TokenAware.race w c st
      = (Throw ("Failed to fetch file: " ++ TokenAware.statusText resp), st1)
      /\ TokenAware.requests st1 = (TokenAware.requests st ++ [file_url c])%list
      /\ TokenAware.designSystemConfig st1 = TokenAware.designSystemConfig st
      /\ TokenAware.loadDesignSystemViaMCP w st = TokenAware.loadMockDesignSystem w st1.
Proof.
  intros w st c resp Hc Hb Hd Hn Hok.
  assert (Hf : TokenAware.blank_token c = false).
  { destruct (TokenAware.blank_token c) eqn:E; [|reflexivity].
    exfalso. apply Hb. by apply blank_token_spec. }
  assert (Hr : exists st1,
    TokenAware.race w c st
    = (Throw ("Failed to fetch file: " ++ TokenAware.statusText resp), st1)
    /\ TokenAware.requests st1 = (TokenAware.requests st ++ [file_url c])%list
    /\ TokenAware.designSystemConfig st1 = TokenAware.designSystemConfig st).
  { unfold TokenAware.race, TokenAware.loadFigmaDesignSystem, TokenAware.fetch,
      TokenAware.net_await, try_catch, bind, modify, get, put, lift, throw, ret.
    fold (file_url c). simpl.
    destruct (TokenAware.deadline w) as [[|d]|]; [congruence| |];
      simpl; rewrite Hn, Hok; simpl; eexists; repeat split; reflexivity. }
  destruct Hr as (st1 & Hr & Hq & Hs). exists st1. repeat split; try assumption.
  unfold TokenAware.loadDesignSystemViaMCP.
  rewrite try_catch_normal.
  - unfold bind, get. rewrite Hc, Hf. unfold try_catch at 1. by rewrite Hr.
  - unfold bind, get. rewrite Hc, Hf. unfold try_catch at 1. rewrite Hr.
    apply mock_total.
Qed.

Lemma http_error_falls_back_witness :
  exists st1,
    TokenAware.race forbidden
      {| TokenAware.figmaToken := Some "figd_token";
         TokenAware.fileKey := "KkqX7OKAggFzvfB0CMUwBz";
         TokenAware.baseUrl := "https://api.figma.com/v1" |} with_credential
    = (Throw "Failed to fetch file: Forbidden", st1)
    /\ TokenAware.requests st1
       = ["https://api.figma.com/v1/files/KkqX7OKAggFzvfB0CMUwBz"]
    /\ TokenAware.designSystemConfig st1 = TokenAware.DEFAULT_CONFIG
    /\ TokenAware.loadDesignSystemViaMCP forbidden with_credential
       = TokenAware.loadMockDesignSystem forbidden st1.
Proof.
  refine (http_error_falls_back forbidden with_credential _ _ eq_refl _ _ eq_refl eq_refl).
  - intros [H | (t & H & Hb)]; [discriminate|].
    injection H as <-. vm_compute in Hb. discriminate.
  - discriminate.
Defined.

(** ** One style of the file *)

Section OneStyle.

Variables (w : TokenAware.World) (c : TokenAware.MCPConfig).
Hypothesis timer_never_fires : TokenAware.deadline w = None.

Lemma fetch_eq (url : string) (st : TokenAware.State) :
  TokenAware.fetch w url st
  = match TokenAware.net w url with
    | Normal resp => (Normal resp, requested url st)
    | Throw e => (Throw e, requested url st)
    end.
Proof.
  unfold TokenAware.fetch, TokenAware.net_await, bind, modify, get, lift, ret.
  rewrite timer_never_fires. simpl. by destruct (TokenAware.net w url).
Qed.

Lemma response_json_eq (resp : TokenAware.Response) (st : TokenAware.State) :
  TokenAware.response_json w resp st
  = match TokenAware.json resp with
    | Normal body => (Normal body, st)
    | Throw e => (Throw e, st)
    end.
Proof.
  unfold TokenAware.response_json, TokenAware.net_await, bind, get, lift, ret.
  rewrite timer_never_fires. simpl. by destruct (TokenAware.json resp).
Qed.

Lemma styles_snoc (pre : list (string * TokenAware.StyleMeta))
    (x : string * TokenAware.StyleMeta) (st st1 : TokenAware.State) :
  TokenAware.loadStylesFromAPI w pre c st = (Normal tt, st1) ->
  TokenAware.loadStylesFromAPI w (pre ++ [x]) c st
  = TokenAware.loadStylesFromAPI w [x] c st1.
Proof.
  unfold TokenAware.loadStylesFromAPI. intros H. by rewrite for_of_app, H.
Qed.

End OneStyle.

(** When the timer does not fire, the loop over the styles of the file
    treats a style that follows styles already loaded as follows.  A
    style of type 'FILL' costs one request for its details; when the
    response is ok and the first of its fills is solid, the colour of
    that fill is afterwards found in the store under the name of the
    style; when the response is not ok the store is left as it was.  A
    style of any type other than 'FILL' and 'TEXT' costs no request and
    changes nothing. *)
Theorem style_of_the_file :
  forall (w : TokenAware.World) (c : TokenAware.MCPConfig)
         (pre : list (string * TokenAware.StyleMeta)) (styleId : string)
         (meta : TokenAware.StyleMeta) (st st1 : TokenAware.State),
    TokenAware.deadline w = None ->
    TokenAware.loadStylesFromAPI w pre c st = (Normal tt, st1) ->
    (forall resp details first rest,
        TokenAware.styleType meta = "FILL" ->
        TokenAware.net w (style_url c styleId) = Normal resp ->
        TokenAware.ok resp = true ->
        TokenAware.json resp = Normal (TokenAware.StyleBody details) ->
        TokenAware.sd_fills details = Some (first :: rest) ->
        TokenAware.pj_type first = "SOLID" ->
        exists st2,
          TokenAware.loadStylesFromAPI w (pre ++ [(styleId, meta)]) c st = (Normal tt, st2)
          /\ TokenAware.colourTokens (TokenAware.designSystemConfig st2)
             !! TokenAware.style_name meta = Some (TokenAware.pj_color first)
          /\ TokenAware.requests st2 = (TokenAware.requests st1 ++ [style_url c styleId])%list)
    /\ (forall resp,
          TokenAware.styleType meta = "FILL" ->
          TokenAware.net w (style_url c styleId) = Normal resp ->
          TokenAware.ok resp = false ->
          TokenAware.loadStylesFromAPI w (pre ++ [(styleId, meta)]) c st
          = (Normal tt, requested (style_url c styleId) st1))
    /\ (TokenAware.styleType meta <> "FILL" -> TokenAware.styleType meta <> "TEXT" ->
        TokenAware.loadStylesFromAPI w (pre ++ [(styleId, meta)]) c st = (Normal tt, st1)).
Proof.
  intros w c pre styleId meta st st1 Hd Hpre.
  rewrite (styles_snoc w c pre (styleId, meta) st st1 Hpre).
  unfold TokenAware.loadStylesFromAPI. simpl. fold (style_url c styleId).
  split; [|split].
  - intros resp details first rest Ht Hn Hok Hj Hf Hs.
    rewrite Ht. simpl. unfold bind at 1. unfold bind at 1.
    rewrite (fetch_eq w Hd), Hn, Hok.
    unfold bind at 1. rewrite (response_json_eq w Hd), Hj. simpl.
    rewrite Hf, Hs. simpl.
    eexists. split; [reflexivity|]. split; [|reflexivity].
    simpl. apply lookup_insert_eq.
  - intros resp Ht Hn Hok. rewrite Ht. simpl. unfold bind at 1. unfold bind at 1.
    by rewrite (fetch_eq w Hd), Hn, Hok.
  - intros Hf Ht.
    destruct (String.eqb_spec (TokenAware.styleType meta) "FILL") as [E|_]; [by destruct Hf|].
    destruct (String.eqb_spec (TokenAware.styleType meta) "TEXT") as [E|_]; [by destruct Ht|].
    reflexivity.
Qed.

Lemma style_of_the_file_witness :
  exists st2,
    TokenAware.loadStylesFromAPI online [("1:10", brand_meta)]
      {| TokenAware.figmaToken := Some "figd_token";
         TokenAware.fileKey := "KkqX7OKAggFzvfB0CMUwBz";
         TokenAware.baseUrl := "https://api.figma.com/v1" |} with_credential
    = (Normal tt, st2)
    /\ TokenAware.colourTokens (TokenAware.designSystemConfig st2) !! "Brand/Red" = Some red
    /\ TokenAware.requests st2 = ["https://api.figma.com/v1/styles/1:10"].
Proof.
  refine (proj1 (style_of_the_file online
                   {| TokenAware.figmaToken := Some "figd_token";
                      TokenAware.fileKey := "KkqX7OKAggFzvfB0CMUwBz";
                      TokenAware.baseUrl := "https://api.figma.com/v1" |}
                   [] "1:10" brand_meta with_credential with_credential eq_refl eq_refl)
                brand_details _ _ [] eq_refl eq_refl eq_refl eq_refl eq_refl eq_refl).
Defined.

(** ** A components body without components *)

(** When the timer does not fire and the file has a document, a
    components response that is ok but whose body has no [meta] makes
    the remote load reject, after the tokens of the styles are already
    in the store; the loader then falls back to the mock data, which
    replace the store: with the mock tables built, the store is the mock
    data, whatever the remote load had set. *)
Theorem components_without_meta :
  forall (w : TokenAware.World) (st st1 : TokenAware.State) (c : TokenAware.MCPConfig)
         (fileResponse componentsResponse : TokenAware.Response)
         (fileData : TokenAware.FileData) (body : TokenAware.Body),
    TokenAware.globalConfig st = Some c -> ~ absent_or_blank c ->
    TokenAware.deadline w = None ->
    TokenAware.mock_fault w = None ->
    TokenAware.net w (file_url c) = Normal fileResponse ->
    TokenAware.ok fileResponse = true ->
    TokenAware.json fileResponse = Normal (TokenAware.FileBody fileData) ->
    TokenAware.document fileData = true ->
    TokenAware.loadStylesFromAPI w
      (match TokenAware.styles fileData with Some sts => sts | None => [] end) c
      (requested (file_url c) (started st)) = (Normal tt, st1) ->
    TokenAware.net w (components_url c) = Normal componentsResponse ->
    TokenAware.ok componentsResponse = true ->
    TokenAware.json componentsResponse = Normal body ->
    TokenAware.components (TokenAware.as_components body) = None ->
    (exists e, TokenAware.race w c st = (Throw e, requested (components_url c) st1))
    /\ TokenAware.loadDesignSystemViaMCP w st
       = (Normal tt, TokenAware.with_config (fun _ => TokenAware.mockData)
                       (requested (components_url c) st1)).
Proof.
  intros w st st1 c r1 r2 fd body Hc Hb Hd Hm Hn1 Hok1 Hj1 Hdoc Hst Hn2 Hok2 Hj2 Hnone.
  assert (Hf : TokenAware.blank_token c = false).
  { destruct (TokenAware.blank_token c) eqn:E; [|reflexivity].
    exfalso. apply Hb. by apply blank_token_spec. }
  assert (Hr : TokenAware.race w c st
               = (Throw "Cannot read properties of undefined (reading 'components')",
                  requested (components_url c) st1)).
  { unfold TokenAware.race, TokenAware.loadFigmaDesignSystem.
    unfold bind at 1, modify at 1. fold (started st). unfold try_catch.
    fold (file_url c). unfold bind at 1.
    rewrite (fetch_eq w Hd), Hn1, Hok1. change (negb true) with false. cbv iota.
    unfold bind at 1. rewrite (response_json_eq w Hd), Hj1. cbv iota. cbv zeta.
    unfold bind at 1.
    change (TokenAware.as_file (TokenAware.FileBody fd)) with fd.
    assert (Hst' :
      match TokenAware.styles fd with
      | Some sts => TokenAware.loadStylesFromAPI w sts c
      | None => ret tt
      end (requested (file_url c) (started st)) = (Normal tt, st1)).
    { destruct (TokenAware.styles fd); [exact Hst|].
      unfold TokenAware.loadStylesFromAPI in Hst. simpl in Hst. exact Hst. }
    rewrite Hst', Hdoc. cbv iota.
    unfold TokenAware.loadComponentsFromAPI. fold (components_url c).
    unfold bind at 1. rewrite (fetch_eq w Hd), Hn2, Hok2. cbv iota.
    unfold bind at 1. rewrite (response_json_eq w Hd), Hj2. cbv iota.
    rewrite Hnone. reflexivity. }
  split; [eexists; exact Hr|].
  unfold TokenAware.loadDesignSystemViaMCP.
  assert (Hmock : forall s, TokenAware.loadMockDesignSystem w s
                  = (Normal tt, TokenAware.with_config (fun _ => TokenAware.mockData) s)).
  { intros s. unfold TokenAware.loadMockDesignSystem, try_catch. by rewrite Hm. }
  unfold try_catch at 1. unfold bind, get. rewrite Hc, Hf.
  unfold try_catch at 1. rewrite Hr, Hmock. reflexivity.
Qed.

Lemma components_without_meta_witness :
  (exists e,
      TokenAware.race bare
        {| TokenAware.figmaToken := Some "figd_token";
           TokenAware.fileKey := "KkqX7OKAggFzvfB0CMUwBz";
           TokenAware.baseUrl := "https://api.figma.com/v1" |} with_credential
      = (Throw e,
         requested "https://api.figma.com/v1/files/KkqX7OKAggFzvfB0CMUwBz/components"
           (requested "https://api.figma.com/v1/files/KkqX7OKAggFzvfB0CMUwBz"
                      with_credential)))
  /\ TokenAware.loadDesignSystemViaMCP bare with_credential
     = (Normal tt,
        TokenAware.with_config (fun _ => TokenAware.mockData)
          (requested "https://api.figma.com/v1/files/KkqX7OKAggFzvfB0CMUwBz/components"
             (requested "https://api.figma.com/v1/files/KkqX7OKAggFzvfB0CMUwBz"
                        with_credential))).
Proof.
  refine (components_without_meta bare with_credential _ _ bare_file bare_components
            {| TokenAware.styles := None; TokenAware.document := true |}
            (TokenAware.ComponentsBody {| TokenAware.components := None |})
            eq_refl _ eq_refl eq_refl eq_refl eq_refl eq_refl eq_refl eq_refl
            eq_refl eq_refl eq_refl eq_refl).
  intros [H | (t & H & Hb)]; [discriminate|].
  injection H as <-. vm_compute in Hb. discriminate.
Defined.

(** ** What a button is *)

(** The classifier of component names and the button rule of the
    analysis agree on what a button is: a component loaded from the API
    or from the document is typed 'button' exactly when a node carrying
    its name is checked by the button rule; the words for the other
    types count only for names the button rule leaves alone. *)
Theorem classifier_agrees_with_button_rule :
  forall nm : string,
    (TokenAware.getComponentType nm = TokenAware.ct_button <-> button_name nm = true)
    /\ (button_name nm = false ->
        Js.includes (Js.toLowerCase nm) "input" = true ->
        TokenAware.getComponentType nm = TokenAware.ct_input).
Proof.
  intros nm. unfold TokenAware.getComponentType, button_name. cbv zeta.
  destruct (Js.includes (Js.toLowerCase nm) "button" || Js.includes (Js.toLowerCase nm) "btn").
  - split; [split; reflexivity | discriminate].
  - split.
    + split; [|discriminate].
      repeat match goal with
             | |- context [if ?b then _ else _] => destruct b
             end; discriminate.
    + intros _ ->. reflexivity.
Qed.

Lemma classifier_agrees_with_button_rule_witness :
  TokenAware.getComponentType "Search Input Button" = TokenAware.ct_button
  /\ TokenAware.getComponentType "Search Input" = TokenAware.ct_input.
Proof.
  split.
  - apply (proj1 (classifier_agrees_with_button_rule "Search Input Button")).
    vm_compute. reflexivity.
  - apply (proj2 (classifier_agrees_with_button_rule "Search Input"));
      vm_compute; reflexivity.
Defined.

(* ================================================================= *)
(** * Further properties of the message handler of [code.ts] *)


Lemma lookup_settles (fault : string -> option string) (nodeId : string)
    (p : LocalUi.Plugin) :
  LocalUi.getNodeByIdAsync fault nodeId p
  = match fault nodeId with
    | Some e => (Throw e, p)
    | None => (Normal (LocalUi.doc p !! nodeId), p)
    end.
Proof. unfold LocalUi.getNodeByIdAsync. by destruct (fault nodeId). Qed.



(** ** The reply to an analysis request *)

(** With nothing selected the reply to 'run-analysis' has status
    'error' and no issues.  With a selection the status is 'success'
    whatever happened: the issues are those gathered by the walk up to
    its end or up to the error that ended it, the text counts them when
    there are any and says that none was found otherwise, so an analysis
    that failed before its first issue is reported as a clean one. *)
Theorem analysis_reply :
  forall (lf : FontName -> completion unit) (fault : string -> option string)
         (selection : list Node) (msg : LocalUi.Msg) (p : LocalUi.Plugin),
    LocalUi.msg_type msg = "run-analysis" ->
    (selection = [] ->
     LocalUi.onmessage lf fault selection msg p
     = (Normal tt,
        replied (LocalUi.analysis_result []
                   "No frames or layers selected. Please select one or more layers to analyze."
                   error) p))
    /\ (selection <> [] ->
        let issues := snd (LocalRules.walk selection []) in
        exists text,
          LocalUi.onmessage lf fault selection msg p
          = (Normal tt, replied (LocalUi.analysis_result issues text success) p)
          /\ (issues = [] ->
              text = "Analysis complete. No design issues found! " ++ LocalUi.tail_characters)
          /\ (issues <> [] ->
              text = "Found " ++ Js.dec (Z.of_nat (length issues))
                     ++ " design issues in selected layers.")).
Proof.
  intros lf fault selection msg p Hty. unfold LocalUi.onmessage. rewrite Hty.
  change ("run-analysis" =? "run-analysis")%string with true. cbv iota.
  split.
  - intros ->. reflexivity.
  - intros Hne. destruct selection as [|n ns]; [by destruct Hne|].
    change (length (n :: ns) =? 0)%nat with false. cbv iota zeta.
    unfold bind, lift, LocalRules.runAnalysis, try_catch.
    destruct (LocalRules.walk (n :: ns) []) as [[[]|e] issues]; simpl snd;
      (destruct issues as [|i is']; simpl;
       [ eexists; split; [reflexivity|]; split; [reflexivity | intros H; by destruct H]
       | eexists; split; [reflexivity|]; split; [discriminate | reflexivity] ]).
Qed.

Lemma analysis_reply_witness :
  exists text,
    LocalUi.onmessage fonts_load (fun _ => None) [broken_frame]
      (LocalUi.mkMsg "run-analysis" "" "") idle
    = (Normal tt,
       replied (LocalUi.analysis_result (snd (LocalRules.walk [broken_frame] [])) text success)
               idle)
    /\ fst (LocalRules.walk [broken_frame] []) = Throw "node was removed".
Proof.
  destruct (proj2 (analysis_reply fonts_load (fun _ => None) [broken_frame]
                     (LocalUi.mkMsg "run-analysis" "" "") idle eq_refl))
    as (text & H & _); [discriminate|].
  exists text. split; [exact H|]. vm_compute. reflexivity.
Defined.

(** ** The reply to a fix request *)

(** When the handler fulfils on an 'apply-fix' message, the reply
    carries the status and the text of the outcome of [applyFix] and the
    node id of the request; a reply of status 'error' means that the
    document is as it was, and a request that names no node of the
    document is answered with 'Node not found or removed.'. *)
Theorem fix_reply :
  forall (lf : FontName -> completion unit) (fault : string -> option string)
         (selection : list Node) (msg : LocalUi.Msg) (p p' : LocalUi.Plugin),
    LocalUi.msg_type msg = "apply-fix" ->
    LocalUi.onmessage lf fault selection msg p = (Normal tt, p') ->
    exists res,
      LocalRules.applyFix lf (LocalUi.msg_nodeId msg) (LocalUi.msg_issueType msg)
        (LocalUi.doc p) = (Normal res, LocalUi.doc p')
      /\ LocalUi.posted p'
         = (LocalUi.posted p
            ++ [LocalUi.fix_result (status res) (message res) (LocalUi.msg_nodeId msg)])%list
      /\ LocalUi.zoomed p' = LocalUi.zoomed p
      /\ (status res = error -> LocalUi.doc p' = LocalUi.doc p)
      /\ (LocalUi.doc p !! LocalUi.msg_nodeId msg = None ->
          res = failed "Node not found or removed.").
Proof.
  intros lf fault selection msg p p' Hty H. unfold LocalUi.onmessage in H. rewrite Hty in H.
  change ("apply-fix" =? "run-analysis")%string with false in H.
  change ("apply-fix" =? "zoom-to-layer")%string with false in H.
  change ("apply-fix" =? "apply-fix")%string with true in H. cbv iota in H.
  unfold bind at 1 2 in H. rewrite lookup_settles in H.
  destruct (fault (LocalUi.msg_nodeId msg)) as [e|]; [discriminate|].
  unfold LocalUi.on_document in H.
  destruct (LocalRules.applyFix lf (LocalUi.msg_nodeId msg) (LocalUi.msg_issueType msg)
              (LocalUi.doc p)) as [[res|e] d] eqn:Hfix; [|discriminate].
  unfold LocalUi.postMessage, modify in H. injection H as <-. simpl.
  exists res. repeat split.
  - intros Hs. eapply local_failed_fix; [exact Hfix|].
    intros m Hm. injection Hm as ->. discriminate.
  - intros Hnone. unfold LocalRules.applyFix, bind, get in Hfix.
    rewrite Hnone in Hfix. unfold ret in Hfix. by injection Hfix as <- _.
Qed.

Lemma fix_reply_witness :
  exists res,
    LocalRules.applyFix fonts_load "1:5" "Colour/Token" (LocalUi.doc idle)
    = (Normal res, LocalUi.doc idle)
    /\ LocalUi.posted (replied (LocalUi.fix_result error "Layer is locked. Manual fix needed."
                                                   "1:5") idle)
       = ([] ++ [LocalUi.fix_result (status res) (message res) "1:5"])%list.
Proof.
  destruct (fix_reply fonts_load (fun _ => None) []
              (LocalUi.mkMsg "apply-fix" "1:5" "Colour/Token") idle
              (replied (LocalUi.fix_result error "Layer is locked. Manual fix needed." "1:5")
                       idle) eq_refl)
    as (res & H1 & H2 & _).
  - vm_compute. reflexivity.
  - exists res. split; [exact H1 | exact H2].
Defined.
